(** * NearNow event search: the PredictHQ service

    A shallow embedding of [src/services/predicthq.ts]: the response
    transformer [transformEvent], the query builder and orchestration of
    [searchEvents], [getPopularEvents], [getEventById] and [getEventsByIds],
    and the geocoder [geocodeLocation], with the properties the specification
    states about them.

    Conventions of the embedding.
    - A JavaScript string is the list of its UTF-16 code units.
    - A JavaScript number is a binary64 float (Rocq's primitive floats).
    - [T | undefined] is [option T]; truthiness is written out ([""], [0],
      [NaN] and [undefined] are falsy).
    - A function that can throw returns a [Result]; an [async] function is a
      computation in the monad [M], which reads the answers of the outside
      world (network, clock, the host's date and number parsers) from a
      [Host] record and logs the requests it sends. *)

From Stdlib Require Import ZArith NArith List Bool Ascii String Floats Uint63 Lia.
From Stdlib Require Import DecimalString.
Import ListNotations.

Set Warnings "-inexact-float".

(* ================================================================ *)
(** ** JavaScript strings *)

(** A UTF-16 code unit (a value below 65536). *)
Definition char16 := N.

Definition jsstring := list char16.

(** The string literal [s] (ASCII) as a JavaScript string. *)
Definition lit (s : string) : jsstring :=
  map N_of_ascii (list_ascii_of_string s).
Arguments lit s%_string.

Module Str.

(** The quotation mark, which a literal cannot hold. *)
Definition dquote : jsstring := [34%N].

Fixpoint eqb (a b : jsstring) : bool :=
  match a, b with
  | [], [] => true
  | x :: a', y :: b' => N.eqb x y && eqb a' b'
  | _, _ => false
  end.

(** [Boolean(s)]: a string is truthy when it is not empty. *)
Definition truthy (s : jsstring) : bool :=
  match s with [] => false | _ :: _ => true end.

(** [Boolean(o)] for [string | undefined]. *)
Definition truthy_opt (o : option jsstring) : bool :=
  match o with Some s => truthy s | None => false end.

(** [a || b] on [string | undefined]. *)
Definition or_else (a b : option jsstring) : option jsstring :=
  if truthy_opt a then a else b.

(** [a || d] where [d] is a string: the result is a string. *)
Definition or_default (a : option jsstring) (d : jsstring) : jsstring :=
  match a with
  | Some s => if truthy s then s else d
  | None => d
  end.

(** [s.split(sep)] for a one-unit separator. *)
Fixpoint split (sep : char16) (s : jsstring) : list jsstring :=
  match s with
  | [] => [[]]
  | c :: s' =>
      if N.eqb c sep then [] :: split sep s'
      else match split sep s' with
           | p :: ps => (c :: p) :: ps
           | [] => [[c]]
           end
  end.

(** WhiteSpace and LineTerminator code units, as [String.prototype.trim]
    strips them. *)
Definition is_space (c : char16) : bool :=
  ((9 <=? c) && (c <=? 13) || (c =? 32) || (c =? 160) || (c =? 5760)
   || (8192 <=? c) && (c <=? 8202) || (c =? 8232) || (c =? 8233)
   || (c =? 8239) || (c =? 8287) || (c =? 12288) || (c =? 65279))%N.

Fixpoint trimStart (s : jsstring) : jsstring :=
  match s with
  | c :: s' => if is_space c then trimStart s' else s
  | [] => []
  end.

Definition trimEnd (s : jsstring) : jsstring := rev (trimStart (rev s)).

Definition trim (s : jsstring) : jsstring := trimEnd (trimStart s).

(** [parts.join(sep)]. *)
Fixpoint join (sep : jsstring) (parts : list jsstring) : jsstring :=
  match parts with
  | [] => []
  | [p] => p
  | p :: ps => p ++ sep ++ join sep ps
  end.

Fixpoint startsWith (s p : jsstring) : bool :=
  match p, s with
  | [], _ => true
  | x :: p', y :: s' => N.eqb x y && startsWith s' p'
  | _ :: _, [] => false
  end.

(** [s.includes(p)]. *)
Fixpoint includes (s p : jsstring) : bool :=
  startsWith s p ||
  match s with
  | [] => false
  | _ :: s' => includes s' p
  end.

(** *** UTF-8 and percent-encoding *)

Definition is_lead (c : char16) : bool := ((55296 <=? c) && (c <=? 56319))%N.
Definition is_trail (c : char16) : bool := ((56320 <=? c) && (c <=? 57343))%N.

(** UTF16SurrogatePairToCodePoint. *)
Definition pair_to_cp (hi lo : char16) : N :=
  ((hi - 55296) * 1024 + (lo - 56320) + 65536)%N.

(** The UTF-8 octets of a code point. *)
Definition utf8 (cp : N) : list N :=
  (if cp <? 128 then [cp]
   else if cp <? 2048 then [192 + cp / 64; 128 + cp mod 64]
   else if cp <? 65536 then
     [224 + cp / 4096; 128 + (cp / 64) mod 64; 128 + cp mod 64]
   else
     [240 + cp / 262144; 128 + (cp / 4096) mod 64;
      128 + (cp / 64) mod 64; 128 + cp mod 64])%N.

Definition hex_digit (d : N) : char16 :=
  (if d <? 10 then 48 + d else 55 + d)%N.

(** ["%XX"], upper-case. *)
Definition percent (b : N) : jsstring :=
  [37%N; hex_digit (b / 16); hex_digit (b mod 16)].

Definition is_alnum (c : char16) : bool :=
  ((48 <=? c) && (c <=? 57) || (65 <=? c) && (c <=? 90)
   || (97 <=? c) && (c <=? 122))%N.

(** uriUnreserved: alphanumerics and [- _ . ! ~ * ' ( )]. *)
Definition uri_unreserved (c : char16) : bool :=
  (is_alnum c || (c =? 45) || (c =? 95) || (c =? 46) || (c =? 33)
   || (c =? 126) || (c =? 42) || (c =? 39) || (c =? 40) || (c =? 41))%N.

(** [encodeURIComponent(s)]; [None] is the URIError thrown on an unpaired
    surrogate. *)
Fixpoint encodeURIComponent (s : jsstring) : option jsstring :=
  match s with
  | [] => Some []
  | c :: rest =>
      if uri_unreserved c then option_map (cons c) (encodeURIComponent rest)
      else if is_trail c then None
      else if is_lead c then
        match rest with
        | d :: rest' =>
            if is_trail d then
              option_map (app (flat_map percent (utf8 (pair_to_cp c d))))
                         (encodeURIComponent rest')
            else None
        | [] => None
        end
      else option_map (app (flat_map percent (utf8 c))) (encodeURIComponent rest)
  end.

(** No unpaired surrogate: the strings [encodeURIComponent] accepts. *)
Fixpoint well_formed (s : jsstring) : bool :=
  match s with
  | [] => true
  | c :: rest =>
      if is_trail c then false
      else if is_lead c then
        match rest with
        | d :: rest' => is_trail d && well_formed rest'
        | [] => false
        end
      else well_formed rest
  end.

(** The code points of a string read as a USVString: an unpaired surrogate
    becomes U+FFFD. *)
Fixpoint code_points (s : jsstring) : list N :=
  match s with
  | [] => []
  | c :: rest =>
      if is_trail c then 65533%N :: code_points rest
      else if is_lead c then
        match rest with
        | d :: rest' =>
            if is_trail d then pair_to_cp c d :: code_points rest'
            else 65533%N :: code_points rest
        | [] => [65533%N]
        end
      else c :: code_points rest
  end.

(** One octet under the application/x-www-form-urlencoded serializer. *)
Definition form_byte (b : N) : jsstring :=
  (if b =? 32 then [43]
   else if is_alnum b || (b =? 42) || (b =? 45) || (b =? 46) || (b =? 95)
   then [b] else percent b)%N.

Definition form_encode (s : jsstring) : jsstring :=
  flat_map form_byte (flat_map utf8 (code_points s)).

End Str.

(* ================================================================ *)
(** ** JavaScript numbers *)

Module Num.

Definition number := float.

Definition isNaN (x : number) : bool := negb (x =? x)%float.

(** [Boolean(x)]: [0], [-0] and [NaN] are falsy. *)
Definition truthy (x : number) : bool := negb (x =? 0)%float && negb (isNaN x).

(** [Boolean(o)] for [number | undefined]. *)
Definition truthy_opt (o : option number) : bool :=
  match o with Some x => truthy x | None => false end.

(** [o || d] where [d] is a number. *)
Definition or_default (o : option number) (d : number) : number :=
  match o with
  | Some x => if truthy x then x else d
  | None => d
  end.

(** The float of an integer of at most 53 bits. *)
Definition of_Z (z : Z) : number :=
  if (z <? 0)%Z then (- PrimFloat.of_uint63 (Uint63.of_Z (- z)))%float
  else PrimFloat.of_uint63 (Uint63.of_Z z).

(** [Math.round(x)]: the integer nearest to [x], a tie going up; a value
    that is already an integer (exponent at least 0), an infinity or [NaN]
    is returned as it is, and a result of zero keeps the sign of [x]. *)
Definition Math_round (x : number) : number :=
  match Prim2SF x with
  | S754_finite s m e =>
      if (0 <=? e)%Z then x
      else
        let d := (2 ^ (- e))%Z in
        let n := if s then Z.neg m else Z.pos m in
        let r := ((2 * n + d) / (2 * d))%Z in
        if (r =? 0)%Z then (if s then (- 0)%float else 0%float) else of_Z r
  | _ => x
  end.

(** The decimal digits of a natural number. *)
Definition digits (n : N) : jsstring :=
  lit (NilZero.string_of_uint (N.to_uint n)).

Definition zeros (n : Z) : jsstring := repeat 48%N (Z.to_nat n).

(** [a * 10^p * 2^q] for exponents that may be negative: the factors with
    a negative exponent go to the other side of a comparison. *)
Definition scale_up (a p q : Z) : Z :=
  (a * 10 ^ Z.max p 0 * 2 ^ Z.max q 0)%Z.

(** [c * 10^t <= w * 2^e], and the same with [<]. *)
Definition dec_le_bin (c t w e : Z) : bool :=
  (scale_up c t (- e) <=? scale_up w (- t) e)%Z.
Definition dec_lt_bin (c t w e : Z) : bool :=
  (scale_up c t (- e) <? scale_up w (- t) e)%Z.

(** The largest [t] among [hi, hi-1, ...] ([fuel] tries) with
    [10^t <= w * 2^e]. *)
Fixpoint floor_log10 (fuel : nat) (hi w e : Z) : Z :=
  match fuel with
  | O => hi
  | S f => if dec_le_bin 1 hi w e then hi else floor_log10 f (hi - 1)%Z w e
  end.

Definition strip_zeros_step (c : Z) : Z :=
  if ((c mod 10 =? 0) && negb (c =? 0))%Z then (c / 10)%Z else c.

(** [c] without its trailing decimal zeros. *)
Definition strip_zeros (c : Z) : Z :=
  Nat.iter 25 strip_zeros_step c.

(** The shortest decimal that reads back as the float [m * 2^e]: the pair
    [(s, n)] of Number::toString, the digits [s] (not ending in 0) and the
    exponent [n] with value [0.s * 10^n].  [k] digits are tried for
    [k = 1, 2, ...]; of the two [k]-digit decimals around the value, one
    inside the float's rounding interval is taken, the closer when both
    are. *)
Fixpoint shortest (fuel : nat) (k : Z) (m : positive) (e n : Z) : Z * Z :=
  let w := (4 * Z.pos m)%Z in
  let e2 := (e - 2)%Z in
  let wlo := if ((Z.pos m =? 2 ^ 52) && (-1074 <? e))%Z
             then (w - 1)%Z else (w - 2)%Z in
  let whi := (w + 2)%Z in
  let even := Z.even (Z.pos m) in
  let t := (n - k)%Z in
  let inside c :=
    if even then dec_le_bin c t whi e2 && negb (dec_lt_bin c t wlo e2)
    else dec_lt_bin c t whi e2 && negb (dec_le_bin c t wlo e2) in
  let lo := (scale_up w (- t) e2 / scale_up 1 t (- e2))%Z in
  let hi := (lo + 1)%Z in
  let dist c := Z.abs (scale_up c t (- e2) - scale_up w (- t) e2) in
  let pick c := (strip_zeros c, (t + Z.of_nat (List.length (digits (Z.to_N c))))%Z) in
  match fuel with
  | O => pick lo
  | S f =>
      match inside lo, inside hi with
      | true, false => pick lo
      | false, true => pick hi
      | true, true =>
          if (dist lo <? dist hi)%Z then pick lo
          else if (dist hi <? dist lo)%Z then pick hi
          else if Z.even lo then pick lo else pick hi
      | false, false => shortest f (k + 1)%Z m e n
      end
  end.

(** Number::toString of a positive finite float [m * 2^e]. *)
Definition positive_toString (m : positive) (e : Z) : jsstring :=
  let est := ((Z.log2 (Z.pos m) + e) * 30103 / 100000)%Z in
  let n := (floor_log10 8 (est + 2) (Z.pos m) e + 1)%Z in
  let '(s, n) := shortest 20 1 m e n in
  let ds := digits (Z.to_N s) in
  let k := Z.of_nat (List.length ds) in
  if ((k <=? n) && (n <=? 21))%Z then ds ++ zeros (n - k)
  else if ((0 <? n) && (n <=? 21))%Z then
    firstn (Z.to_nat n) ds ++ lit "." ++ skipn (Z.to_nat n) ds
  else if ((-6 <? n) && (n <=? 0))%Z then lit "0." ++ zeros (- n) ++ ds
  else
    let ex := (n - 1)%Z in
    let sign := if (0 <=? ex)%Z then lit "+" else lit "-" in
    let mant := match ds with
                | [d] => [d]
                | d :: rest => d :: lit "." ++ rest
                | [] => []
                end in
    mant ++ lit "e" ++ sign ++ digits (Z.abs_N ex).

(** Number::toString(x), radix 10: what a template literal or string
    concatenation makes of a number. *)
Definition toString (x : number) : jsstring :=
  match Prim2SF x with
  | S754_nan => lit "NaN"
  | S754_zero _ => lit "0"
  | S754_infinity s => if s then lit "-Infinity" else lit "Infinity"
  | S754_finite s m e =>
      (if s then lit "-" else []) ++ positive_toString m e
  end.

(** [x.toFixed(f)]. *)
Definition toFixed (x : number) (f : nat) : jsstring :=
  match Prim2SF x with
  | S754_zero _ => lit "0" ++ (if Nat.eqb f 0 then [] else lit "." ++ zeros (Z.of_nat f))
  | S754_finite s m e =>
      if dec_le_bin 1 21 (Z.pos m) e then toString x
      else
        let fz := Z.of_nat f in
        (* n = floor (m * 2^e * 10^f + 1/2) *)
        let n := ((2 * scale_up (Z.pos m) fz e + scale_up 1 0 (- e))
                  / (2 * scale_up 1 0 (- e)))%Z in
        let ds := digits (Z.to_N n) in
        let ds := zeros (fz + 1 - Z.of_nat (List.length ds)) ++ ds in
        let cut := (List.length ds - f)%nat in
        (if s then lit "-" else []) ++
        (if Nat.eqb f 0 then ds else firstn cut ds ++ lit "." ++ skipn cut ds)
  | _ => toString x
  end.

End Num.

(* ================================================================ *)
(** ** Errors *)

(** What a [throw] (or a rejected promise) carries. *)
Inductive exn :=
| Error (message : jsstring)       (* [new Error(message)] *)
| URIError                         (* [encodeURIComponent] on an unpaired surrogate *)
| RangeError                       (* [toISOString] of an invalid date *)
| TypeError                        (* a property read on [null] *)
| FetchError (message : jsstring)  (* what [fetch] rejected with *)
| JsonError.                       (* what [response.json()] rejected with *)

Inductive Result (A : Type) :=
| Ok (a : A)
| Throw (e : exn).
Arguments Ok {A} a.
Arguments Throw {A} e.

(* ================================================================ *)
(** ** The data model *)

(** The provider's event record, [interface PredictHQEvent]: the fields
    [transformEvent] reads.  A field the code guards against ([?.], [||]) is
    optional here even where the interface declares it required. *)

Module Address.
Record t := {
  name : option jsstring;
  street : option jsstring;
  locality : option jsstring;
  region : option jsstring;
  country : option jsstring;
}.
End Address.

Module LatLon.
Record t := { lat : Num.number; lon : Num.number }.
End LatLon.

Module Location.
Record t := {
  location : option LatLon.t;
  address : option Address.t;
}.
End Location.

Module Entity.
Record t := {
  entity_id : option jsstring;
  name : jsstring;
  type : jsstring;
  formatted_address : option jsstring;
  url : option jsstring;
  website : option jsstring;
}.
End Entity.

Module Geometry.
Record t := {
  coordinates : option (Num.number * Num.number);  (* [longitude, latitude] *)
  type : jsstring;
}.
End Geometry.

Module Geo.
Record t := { geometry : option Geometry.t }.
End Geo.

Module PredictHQEvent.
Record t := {
  id : jsstring;
  title : jsstring;
  description : option jsstring;
  category : jsstring;
  start : jsstring;
  end_ : option jsstring;
  timezone : jsstring;
  location : option (list Location.t);
  entities : option (list Entity.t);
  url : option jsstring;
  website : option jsstring;
  ticket_url : option jsstring;
  external_url : option jsstring;
  private : option bool;
  country : option jsstring;
  geo : option Geo.t;
}.
End PredictHQEvent.

(** [interface Event] and [interface EventFilters] of [types/event]. *)

Module Venue.
Record t := {
  name : jsstring;
  address : jsstring;
  city : option jsstring;
  latitude : option Num.number;
  longitude : option Num.number;
}.
End Venue.

Module Price.
Record t := {
  min : option Num.number;
  max : option Num.number;
  currency : jsstring;
  display : jsstring;
}.
End Price.

Module Event.
Record t := {
  id : jsstring;
  name : jsstring;
  description : jsstring;
  startDate : jsstring;
  endDate : jsstring;
  timezone : jsstring;
  url : jsstring;
  imageUrl : option jsstring;
  venue : option Venue.t;
  price : option Price.t;
  category : option jsstring;
  isOnline : bool;
}.
End Event.

Module EventFilters.
Record t := {
  city : option jsstring;
  latitude : option Num.number;
  longitude : option Num.number;
  radius : option Num.number;   (* in miles *)
  startDate : option jsstring;
  endDate : option jsstring;
  category : option jsstring;
  price : option (option Num.number * option Num.number);
  query : option jsstring;
}.

(** [{}]. *)
Definition empty : t :=
  {| city := None; latitude := None; longitude := None; radius := None;
     startDate := None; endDate := None; category := None; price := None;
     query := None |}.
End EventFilters.

(* ================================================================ *)
(** ** transformEvent *)

(** [a || b] on objects, which are always truthy. *)
Definition or_obj {A} (a b : option A) : option A :=
  match a with Some _ => a | None => b end.

(** [o?.f] for an optional field [f]. *)
Definition opt_get {A B} (f : A -> option B) (o : option A) : option B :=
  match o with Some a => f a | None => None end.

(** [Boolean(o)] for an object or [undefined]. *)
Definition defined {A} (o : option A) : bool :=
  match o with Some _ => true | None => false end.

(** The value of a string already tested truthy. *)
Definition the (o : option jsstring) : jsstring :=
  match o with Some s => s | None => [] end.

Definition transformEvent (predicthqEvent : PredictHQEvent.t) : Result Event.t :=
  let location :=
    opt_get (@hd_error Location.t) (PredictHQEvent.location predicthqEvent) in
  let address := opt_get Location.address location in
  (* geo coordinates from location or geo field *)
  let geo : option LatLon.t :=
    or_obj (opt_get Location.location location)
      (option_map
         (fun coordinates =>
            {| LatLon.lat := snd coordinates; LatLon.lon := fst coordinates |})
         (opt_get Geometry.coordinates
            (opt_get Geo.geometry (PredictHQEvent.geo predicthqEvent)))) in
  (* venue entity *)
  let venueEntity :=
    opt_get (find (fun e => Str.eqb (Entity.type e) (lit "venue")))
            (PredictHQEvent.entities predicthqEvent) in
  (* other entity types with a formatted_address *)
  let entityWithAddress :=
    or_obj (opt_get (find (fun e => Str.truthy_opt (Entity.formatted_address e)))
                    (PredictHQEvent.entities predicthqEvent))
           venueEntity in
  let venueName : jsstring :=
    Str.or_default
      (Str.or_else (option_map Entity.name venueEntity)
         (Str.or_else (option_map Entity.name entityWithAddress)
            (opt_get Address.name address)))
      (lit "Event Venue") in
  (* formatted_address from an entity, else built from parts *)
  let addressString0 :=
    Str.or_else (opt_get Entity.formatted_address entityWithAddress)
                (opt_get Entity.formatted_address venueEntity) in
  let addressString : jsstring :=
    if Str.truthy_opt addressString0 then the addressString0
    else
      let addressParts :=
        filter Str.truthy
          (map the
             [ opt_get Address.street address;
               opt_get Address.locality address;
               opt_get Address.region address;
               Str.or_else (opt_get Address.country address)
                           (PredictHQEvent.country predicthqEvent) ]) in
      if (0 <? List.length addressParts)%nat then Str.join (lit ", ") addressParts
      else if Str.truthy_opt (opt_get Address.name address)
              && negb (Str.eqb (the (opt_get Address.name address)) venueName)
      then the (opt_get Address.name address)
      else if Str.truthy_opt (PredictHQEvent.country predicthqEvent)
      then the (PredictHQEvent.country predicthqEvent)
      else
        match geo with
        | Some g =>
            Num.toFixed (LatLon.lat g) 4 ++ lit ", " ++ Num.toFixed (LatLon.lon g) 4
        | None => lit "Location available"
        end in
  (* city from the locality, else from the venue's formatted address *)
  let city0 := opt_get Address.locality address in
  let city : option jsstring :=
    if negb (Str.truthy_opt city0)
       && Str.truthy_opt (opt_get Entity.formatted_address venueEntity)
    then
      let parts :=
        map Str.trim
          (Str.split 44%N (the (opt_get Entity.formatted_address venueEntity))) in
      if (2 <=? List.length parts)%nat
      then nth_error parts (List.length parts - 2)   (* second-to-last *)
      else city0
    else city0 in
  (* ticket_url, external_url, url, website, or entity URLs *)
  let eventUrl0 : option jsstring :=
    if Str.truthy_opt (PredictHQEvent.ticket_url predicthqEvent)
    then PredictHQEvent.ticket_url predicthqEvent
    else if Str.truthy_opt (PredictHQEvent.external_url predicthqEvent)
    then PredictHQEvent.external_url predicthqEvent
    else if Str.truthy_opt (PredictHQEvent.url predicthqEvent)
    then PredictHQEvent.url predicthqEvent
    else if Str.truthy_opt (PredictHQEvent.website predicthqEvent)
    then PredictHQEvent.website predicthqEvent
    else
      match PredictHQEvent.entities predicthqEvent with
      | Some entities =>
          match find (fun e => Str.truthy_opt (Entity.url e)
                               || Str.truthy_opt (Entity.website e)) entities with
          | Some entityWithUrl =>
              Str.or_else (Entity.url entityWithUrl) (Entity.website entityWithUrl)
          | None => None
          end
      | None => None
      end in
  (* no external URL: a Google search URL for tickets *)
  let eventUrl : Result jsstring :=
    if Str.truthy_opt eventUrl0 then Ok (the eventUrl0)
    else
      match Str.encodeURIComponent
              (PredictHQEvent.title predicthqEvent ++ lit " tickets " ++
               Str.or_default (Str.or_else city (opt_get Address.locality address)) [])
      with
      | Some searchQuery => Ok (lit "https://www.google.com/search?q=" ++ searchQuery)
      | None => Throw URIError
      end in
  match eventUrl with
  | Throw e => Throw e
  | Ok eventUrl =>
      Ok {| Event.id := PredictHQEvent.id predicthqEvent;
            Event.name := PredictHQEvent.title predicthqEvent;
            Event.description :=
              Str.or_default (PredictHQEvent.description predicthqEvent) [];
            Event.startDate := PredictHQEvent.start predicthqEvent;
            Event.endDate :=
              Str.or_default (PredictHQEvent.end_ predicthqEvent)
                             (PredictHQEvent.start predicthqEvent);
            Event.timezone := PredictHQEvent.timezone predicthqEvent;
            Event.url := eventUrl;
            Event.imageUrl := None;
            Event.venue :=
              if defined geo || defined address || defined venueEntity
              then Some {| Venue.name := venueName;
                           Venue.address := addressString;
                           Venue.city := city;
                           Venue.latitude := option_map LatLon.lat geo;
                           Venue.longitude := option_map LatLon.lon geo |}
              else None;
            Event.price := None;
            Event.category := Some (PredictHQEvent.category predicthqEvent);
            Event.isOnline :=
              match PredictHQEvent.private predicthqEvent with
              | Some b => b
              | None => false
              end |}
  end.

(* ================================================================ *)
(** ** The outside world *)

(** A [Response] whose JSON body parses to [Body]: the fields the service
    reads.  [json] is the outcome of [await response.json()]: the parsed
    value ([None] for [null]) or a rejection. *)
Module Response.
Record t (Body : Type) := {
  ok : bool;
  status : N;
  statusText : jsstring;
  json : Result (option Body);
}.
Arguments ok {Body} _.
Arguments status {Body} _.
Arguments statusText {Body} _.
Arguments json {Body} _.
End Response.

(** [interface GeocodingResult]: a Nominatim match. *)
Module GeoAddress.
Record t := { country : option jsstring; country_code : option jsstring }.
End GeoAddress.

Module GeocodingResult.
Record t := {
  lat : jsstring;
  lon : jsstring;
  display_name : jsstring;
  type : jsstring;
  class : option jsstring;
  importance : Num.number;
  address : option GeoAddress.t;
}.
End GeocodingResult.

(** What [geocodeLocation] resolves to when it finds the place. *)
Module Geocode.
Record t := { lat : Num.number; lon : Num.number; isCountry : bool }.
End Geocode.

(** [interface PredictHQResponse], and the fields of an error payload
    ([detail], [message], [error]) that are read when the response is not
    ok. *)
Module PredictHQResponse.
Record t := {
  results : option (list PredictHQEvent.t);
  detail : option jsstring;
  message : option jsstring;
  error : option jsstring;
}.
End PredictHQResponse.

(** How a [fetch] settles. *)
Inductive FetchOutcome (Body : Type) :=
| Rejected (message : jsstring)
| Resolved (response : Response.t Body).
Arguments Rejected {Body} message.
Arguments Resolved {Body} response.

(** The requests the service sends, in the order it sends them. *)
Inductive Request :=
| GeocodeRequest (url : jsstring)
| ProviderRequest (url : jsstring) (authorization : jsstring).

(** Everything outside the module: the environment variables, the two
    HTTP services (their answer to a GET of a URL), the clock, and the
    host functions whose results depend on tables and formats of the
    JavaScript engine. *)
Record Host := {
  NEXT_PUBLIC_PREDICTHQ_API_BASE : option jsstring;
  NEXT_PUBLIC_PREDICTHQ_API_TOKEN : option jsstring;
  nominatim : jsstring -> FetchOutcome (list GeocodingResult.t);
  predicthq : jsstring -> jsstring -> FetchOutcome PredictHQResponse.t;
  (** [new Date().toISOString()] *)
  now_iso : jsstring;
  (** [new Date(s).toISOString()]; [None] when the date is invalid and
      [toISOString] throws a RangeError *)
  date_iso : jsstring -> option jsstring;
  parseFloat : jsstring -> Num.number;
  toLowerCase : jsstring -> jsstring;
}.

(** An [async] computation: given the host, the requests sent and the
    value the promise settles with. *)
Definition M (A : Type) : Type := Host -> list Request * Result A.

Definition ret {A} (a : A) : M A := fun _ => ([], Ok a).

Definition throw {A} (e : exn) : M A := fun _ => ([], Throw e).

Definition bind {A B} (m : M A) (k : A -> M B) : M B :=
  fun h =>
    match m h with
    | (t1, Ok a) => let (t2, r) := k a h in (t1 ++ t2, r)
    | (t1, Throw e) => (t1, Throw e)
    end.

(** [try { m } catch (e) { handler e }]. *)
Definition try_catch {A} (m : M A) (handler : exn -> M A) : M A :=
  fun h =>
    match m h with
    | (t1, Ok a) => (t1, Ok a)
    | (t1, Throw e) => let (t2, r) := handler e h in (t1 ++ t2, r)
    end.

(** A synchronous call that may throw. *)
Definition lift {A} (r : Result A) : M A := fun _ => ([], r).

(** A read of the host. *)
Definition ask {A} (f : Host -> A) : M A := fun h => ([], Ok (f h)).

Declare Scope async_scope.
Delimit Scope async_scope with async.
Notation "x <- c1 ;; c2" := (bind c1 (fun x => c2))
  (at level 61, c1 at next level, right associativity) : async_scope.
Notation "' pat <- c1 ;; c2" := (bind c1 (fun x => match x with pat => c2 end))
  (at level 61, pat pattern, c1 at next level, right associativity) : async_scope.
Open Scope async_scope.

(** [array.map(f)] for an [f] that may throw: the first throw ends it. *)
Fixpoint map_result {A B} (f : A -> Result B) (l : list A) : Result (list B) :=
  match l with
  | [] => Ok []
  | a :: l' =>
      match f a with
      | Throw e => Throw e
      | Ok b =>
          match map_result f l' with
          | Throw e => Throw e
          | Ok bs => Ok (b :: bs)
          end
      end
  end.

(** [await fetch(url, ...)] of the geocoding service. *)
Definition fetch_nominatim (url : jsstring)
  : M (Response.t (list GeocodingResult.t)) :=
  fun h =>
    ([GeocodeRequest url],
     match nominatim h url with
     | Rejected msg => Throw (FetchError msg)
     | Resolved r => Ok r
     end).

(** [await fetch(url, { headers: { Authorization, ... } })] of the provider. *)
Definition fetch_predicthq (url authorization : jsstring)
  : M (Response.t PredictHQResponse.t) :=
  fun h =>
    ([ProviderRequest url authorization],
     match predicthq h url authorization with
     | Rejected msg => Throw (FetchError msg)
     | Resolved r => Ok r
     end).

(** [error.message].  The module reads it only on what [fetch] rejected
    with; for the errors the engine raises itself the text is V8's. *)
Definition exn_message (e : exn) : jsstring :=
  match e with
  | Error m => m
  | FetchError m => m
  | URIError => lit "URI malformed"
  | RangeError => lit "Invalid time value"
  | TypeError => lit "Cannot read properties of null"
  | JsonError => lit "Unexpected end of JSON input"
  end.

(** The module constants read from [process.env]. *)
Definition PREDICTHQ_API_BASE (h : Host) : option jsstring :=
  NEXT_PUBLIC_PREDICTHQ_API_BASE h.
Definition PREDICTHQ_API_TOKEN (h : Host) : jsstring :=
  Str.or_default (NEXT_PUBLIC_PREDICTHQ_API_TOKEN h) [].

(* ================================================================ *)
(** ** geocodeLocation *)

(** Every failure (a malformed name, a network error, a response that is
    not ok, a body that does not parse, no match, coordinates that are not
    numbers) is caught and becomes [null]. *)
Definition geocodeLocation (location : jsstring) : M (option Geocode.t) :=
  try_catch
    (encodedLocation <-
       lift (match Str.encodeURIComponent location with
             | Some s => Ok s
             | None => Throw URIError
             end) ;;
     response <-
       try_catch
         (r <- fetch_nominatim
                 (lit "https://nominatim.openstreetmap.org/search?q="
                  ++ encodedLocation
                  ++ lit "&format=json&limit=1&addressdetails=1") ;;
          ret (Some r))
         (fun _ => ret None) ;;
     match response with
     | None => ret None
     | Some response =>
         if negb (Response.ok response) then ret None
         else
           results <- lift (Response.json response) ;;
           match results with
           | None => ret None
           | Some [] => ret None
           | Some (result :: _) =>
               lat <- ask (fun h => parseFloat h (GeocodingResult.lat result)) ;;
               lon <- ask (fun h => parseFloat h (GeocodingResult.lon result)) ;;
               if Num.isNaN lat || Num.isNaN lon then ret None
               else
                 isCountry <-
                   ask (fun h =>
                     let locationLower := toLowerCase h location in
                     let type := GeocodingResult.type result in
                     let address := GeocodingResult.address result in
                     (match GeocodingResult.class result with
                      | Some c => Str.eqb c (lit "place")
                      | None => false
                      end && Str.eqb type (lit "country"))
                     || Str.eqb type (lit "country")
                     || ((GeocodingResult.importance result <? 0.3)%float
                         && negb (Str.includes type (lit "city"))
                         && negb (Str.includes type (lit "town")))
                     || Str.includes locationLower (lit "nigeria")
                     || Str.includes locationLower (lit "country")
                     || (Str.truthy_opt (opt_get GeoAddress.country_code address)
                         && Str.truthy_opt (opt_get GeoAddress.country address)
                         && Str.includes locationLower
                              (toLowerCase h (the (opt_get GeoAddress.country address))))) ;;
                 ret (Some {| Geocode.lat := lat; Geocode.lon := lon;
                              Geocode.isCountry := isCountry |})
           end
     end)
    (fun _ => ret None).

(* ================================================================ *)
(** ** searchEvents *)

(** [URLSearchParams]: the pairs in the order of their [append]. *)
Definition URLSearchParams := list (jsstring * jsstring).

Definition append (params : URLSearchParams) (name value : jsstring)
  : URLSearchParams :=
  params ++ [(name, value)].

(** [params.toString()]. *)
Definition params_toString (params : URLSearchParams) : jsstring :=
  Str.join (lit "&")
    (map (fun p => Str.form_encode (fst p) ++ lit "=" ++ Str.form_encode (snd p))
         params).

(** The values of the parameter [name]. *)
Definition getAll (params : URLSearchParams) (name : jsstring) : list jsstring :=
  map snd (filter (fun p => Str.eqb (fst p) name) params).

(** The value of a number already tested truthy. *)
Definition the_num (o : option Num.number) : Num.number :=
  match o with Some x => x | None => 0%float end.

Definition token_not_configured : jsstring :=
  lit "PredictHQ API token is not configured. Please set NEXT_PUBLIC_PREDICTHQ_API_TOKEN in your .env.local file.".

Definition base_not_configured : jsstring :=
  lit "PredictHQ API base URL is not configured. Please set NEXT_PUBLIC_PREDICTHQ_API_BASE in your .env.local file.".

(** The message taken from an error payload: [detail], else [message],
    else [error], else the status line; a body that does not parse, or is
    [null], leaves the status line. *)
Definition api_error_message (response : Response.t PredictHQResponse.t)
  : jsstring :=
  let errorMessage :=
    lit "PredictHQ API error: " ++ Num.digits (Response.status response)
    ++ lit " " ++ Response.statusText response in
  match Response.json response with
  | Ok (Some errorData) =>
      if Str.truthy_opt (PredictHQResponse.detail errorData)
      then lit "PredictHQ API error: " ++ the (PredictHQResponse.detail errorData)
      else if Str.truthy_opt (PredictHQResponse.message errorData)
      then lit "PredictHQ API error: " ++ the (PredictHQResponse.message errorData)
      else if Str.truthy_opt (PredictHQResponse.error errorData)
      then lit "PredictHQ API error: " ++ the (PredictHQResponse.error errorData)
      else errorMessage
  | _ => errorMessage
  end.

Definition failed_to_connect (error : exn) : exn :=
  Error (lit "Failed to connect to PredictHQ API: " ++ exn_message error
         ++ lit ". Please check your internet connection and API configuration.").

(** The query parameters [searchEvents] builds before its request: the
    location filters (with the geocoding they may need), the dates, the
    keyword and category, and the fixed parameters. *)
Definition searchParams (filters : EventFilters.t) : M URLSearchParams :=
  let params : URLSearchParams := [] in
  (* location filters *)
  let searchLatitude := EventFilters.latitude filters in
  let searchLongitude := EventFilters.longitude filters in
  let searchRadius := EventFilters.radius filters in
  (* a city but no coordinates: geocode it first *)
  '(searchLatitude, searchLongitude, searchRadius, params) <-
    (if negb (Num.truthy_opt searchLatitude)
        && negb (Num.truthy_opt searchLongitude)
        && Str.truthy_opt (EventFilters.city filters)
     then
       geocodeResult <- geocodeLocation (the (EventFilters.city filters)) ;;
       match geocodeResult with
       | Some g =>
           ret (Some (Geocode.lat g), Some (Geocode.lon g),
                (if Geocode.isCountry g
                 then Some (Num.or_default searchRadius 300%float)  (* miles, countries *)
                 else Some (Num.or_default searchRadius 30%float)), (* miles, cities *)
                params)
       | None =>
           (* geocoding failed: fall back to keyword search *)
           ret (searchLatitude, searchLongitude, searchRadius,
                append params (lit "q") (the (EventFilters.city filters)))
       end
     else ret (searchLatitude, searchLongitude, searchRadius, params)) ;;
  (* location-based search if we have coordinates *)
  let params :=
    if Num.truthy_opt searchLatitude && Num.truthy_opt searchLongitude then
      let params :=
        append params (lit "location_around.origin")
          (Num.toString (the_num searchLatitude) ++ lit ","
           ++ Num.toString (the_num searchLongitude)) in
      (* radius from miles to km *)
      let radiusKm :=
        if Num.truthy_opt searchRadius
        then (the_num searchRadius * 1.60934)%float
        else 50%float in
      append params (lit "location_around.radius")
        (Num.toString (Num.Math_round radiusKm) ++ lit "km")
    else params in
  (* date filters *)
  start_gte <-
    (if Str.truthy_opt (EventFilters.startDate filters)
     then (fun h =>
             ([], match date_iso h (the (EventFilters.startDate filters)) with
                  | Some d => Ok d
                  | None => Throw RangeError
                  end))
     else ask now_iso) ;;
  let params := append params (lit "start.gte") start_gte in
  params <-
    (if Str.truthy_opt (EventFilters.endDate filters)
     then (fun h =>
             ([], match date_iso h (the (EventFilters.endDate filters)) with
                  | Some d => Ok (append params (lit "start.lte") d)
                  | None => Throw RangeError
                  end))
     else ret params) ;;
  (* keyword search *)
  let params :=
    if Str.truthy_opt (EventFilters.query filters)
    then append params (lit "q") (the (EventFilters.query filters))
    else params in
  (* category filter *)
  let params :=
    if Str.truthy_opt (EventFilters.category filters)
    then append params (lit "category") (the (EventFilters.category filters))
    else params in
  (* only public events, the result limit, most popular first *)
  let params := append params (lit "private") (lit "false") in
  let params := append params (lit "limit") (lit "50") in
  let params := append params (lit "sort") (lit "-rank") in
  ret params.

Definition searchEvents (filters : EventFilters.t) : M (list Event.t) :=
  token <- ask PREDICTHQ_API_TOKEN ;;
  base <- ask PREDICTHQ_API_BASE ;;
  if negb (Str.truthy token) then throw (Error token_not_configured)
  else if negb (Str.truthy_opt base) then throw (Error base_not_configured)
  else
    (* try { ... } catch (error) { throw error; } *)
    try_catch
      (params <- searchParams filters ;;
       response <-
         try_catch
           (fetch_predicthq (the base ++ lit "/events/?" ++ params_toString params)
                            (lit "Bearer " ++ token))
           (fun error => throw (failed_to_connect error)) ;;
       if negb (Response.ok response) then
         let errorMessage := api_error_message response in
         let status := Response.status response in
         let errorMessage :=
           if ((status =? 401) || (status =? 403))%N then
             lit "Authentication failed. Please check your PredictHQ API token. "
             ++ errorMessage
           else if (status =? 404)%N then
             lit "API endpoint not found. " ++ errorMessage
           else if (500 <=? status)%N then
             lit "PredictHQ API server error. " ++ errorMessage
           else errorMessage in
         throw (Error errorMessage)
       else
         data <- lift (Response.json response) ;;
         match data with
         | None => throw TypeError
         | Some data =>
             match PredictHQResponse.results data with
             | None => ret []
             | Some [] => ret []
             | Some results => lift (map_result transformEvent results)
             end
         end)
      (fun error => throw error).

(* ================================================================ *)
(** ** getPopularEvents *)

Definition getPopularEvents (city : option jsstring) (lat lon : option Num.number)
  : M (list Event.t) :=
  let filters :=
    if Num.truthy_opt lat && Num.truthy_opt lon then
      {| EventFilters.city := None;
         EventFilters.latitude := lat;
         EventFilters.longitude := lon;
         EventFilters.radius := Some 50%float;   (* 50 miles *)
         EventFilters.startDate := None; EventFilters.endDate := None;
         EventFilters.category := None; EventFilters.price := None;
         EventFilters.query := None |}
    else if Str.truthy_opt city then
      {| EventFilters.city := city;
         EventFilters.latitude := None; EventFilters.longitude := None;
         EventFilters.radius := None;
         EventFilters.startDate := None; EventFilters.endDate := None;
         EventFilters.category := None; EventFilters.price := None;
         EventFilters.query := None |}
    else
      {| EventFilters.city := Some (lit "New York");
         EventFilters.latitude := None; EventFilters.longitude := None;
         EventFilters.radius := None;
         EventFilters.startDate := None; EventFilters.endDate := None;
         EventFilters.category := None; EventFilters.price := None;
         EventFilters.query := None |} in
  events <- searchEvents filters ;;
  (* the first 12 events *)
  ret (firstn 12 events).

(* ================================================================ *)
(** ** getEventById *)

Definition not_found_empty (eventId : jsstring) : jsstring :=
  lit "Event not found. The event ID " ++ Str.dquote ++ eventId ++ Str.dquote
  ++ lit " may be invalid or the event may no longer be available.".

Definition not_found_in_response (eventId : jsstring) : jsstring :=
  lit "Event not found. The event ID " ++ Str.dquote ++ eventId ++ Str.dquote
  ++ lit " was not found in the API response.".

Definition not_found_404 (eventId : jsstring) : jsstring :=
  lit "Event not found. The event ID " ++ Str.dquote ++ eventId ++ Str.dquote
  ++ lit " may be invalid, the event may no longer be available, or it might be from a different API. Please try searching for events again.".

Definition getEventById (eventId : jsstring) : M Event.t :=
  token <- ask PREDICTHQ_API_TOKEN ;;
  base <- ask PREDICTHQ_API_BASE ;;
  if negb (Str.truthy token) then throw (Error token_not_configured)
  else if negb (Str.truthy_opt base) then throw (Error base_not_configured)
  else
    (* try { ... } catch (error) { throw error; } *)
    try_catch
      (encodedId <-
         lift (match Str.encodeURIComponent eventId with
               | Some s => Ok s
               | None => Throw URIError
               end) ;;
       let searchUrl := the base ++ lit "/events/?id=" ++ encodedId in
       response <-
         try_catch
           (fetch_predicthq searchUrl (lit "Bearer " ++ token))
           (fun error => throw (failed_to_connect error)) ;;
       if negb (Response.ok response) then
         let errorMessage := api_error_message response in
         let status := Response.status response in
         let errorMessage :=
           if (status =? 404)%N then not_found_404 eventId
           else if ((status =? 401) || (status =? 403))%N then
             lit "Authentication failed. Please check your PredictHQ API token."
           else errorMessage in
         throw (Error errorMessage)
       else
         responseData <- lift (Response.json response) ;;
         match responseData with
         | None => throw TypeError
         | Some responseData =>
             match PredictHQResponse.results responseData with
             | None => throw (Error (not_found_empty eventId))
             | Some [] => throw (Error (not_found_empty eventId))
             | Some results =>
                 (* the event with matching ID *)
                 match find (fun e => Str.eqb (PredictHQEvent.id e) eventId) results with
                 | None => throw (Error (not_found_in_response eventId))
                 | Some predicthqEvent => lift (transformEvent predicthqEvent)
                 end
             end
         end)
      (fun error => throw error).

(* ================================================================ *)
(** ** getEventsByIds *)

(** [await Promise.all(promises)] for promises that were started in the
    order of the list.  The lookups share no state and the host answers a
    request by its URL alone, so how they interleave changes no result;
    the log lists their requests in the order of the identifiers. *)
Fixpoint Promise_all {A} (promises : list (M A)) : M (list A) :=
  match promises with
  | [] => ret []
  | p :: ps => a <- p ;; rest <- Promise_all ps ;; ret (a :: rest)
  end.

Definition getEventsByIds (eventIds : list jsstring) : M (list Event.t) :=
  try_catch
    (let promises :=
       map (fun id =>
              (* .catch(() => null): null for a failed event *)
              try_catch (event <- getEventById id ;; ret (Some event))
                        (fun _ => ret None))
           eventIds in
     results <- Promise_all promises ;;
     (* filter out null values *)
     ret (flat_map (fun event => match event with
                                 | Some e => [e]
                                 | None => []
                                 end) results))
    (fun _ => ret []).

(* ================================================================ *)
(** * What the properties are stated with *)

(** The record has coordinates: in the first entry of its location array
    or in its geo geometry. *)
Definition has_coordinates (r : PredictHQEvent.t) : Prop :=
  (exists l rest g, PredictHQEvent.location r = Some (l :: rest)
                    /\ Location.location l = Some g)
  \/ (exists gg gm c, PredictHQEvent.geo r = Some gg
                      /\ Geo.geometry gg = Some gm
                      /\ Geometry.coordinates gm = Some c).

(** The record has an address block (in the first entry of its location
    array). *)
Definition has_address (r : PredictHQEvent.t) : Prop :=
  exists l rest a, PredictHQEvent.location r = Some (l :: rest)
                   /\ Location.address l = Some a.

(** The record has an entity of type ["venue"]. *)
Definition has_venue_entity (r : PredictHQEvent.t) : Prop :=
  exists es e, PredictHQEvent.entities r = Some es
               /\ In e es /\ Entity.type e = lit "venue".

(** The record supplies a URL of its own: a non-empty [ticket_url],
    [external_url], [url] or [website], or an entity with a non-empty [url]
    or [website]. *)
Definition has_provider_url (r : PredictHQEvent.t) : Prop :=
  Str.truthy_opt (PredictHQEvent.ticket_url r) = true
  \/ Str.truthy_opt (PredictHQEvent.external_url r) = true
  \/ Str.truthy_opt (PredictHQEvent.url r) = true
  \/ Str.truthy_opt (PredictHQEvent.website r) = true
  \/ exists es e, PredictHQEvent.entities r = Some es /\ In e es
                  /\ (Str.truthy_opt (Entity.url e) = true
                      \/ Str.truthy_opt (Entity.website e) = true).

(** A string that may be missing has no unpaired surrogate. *)
Definition well_formed_opt (o : option jsstring) : bool :=
  match o with
  | Some s => Str.well_formed s
  | None => true
  end.

(** The strings the search URL of a record is made from have no unpaired
    surrogate: the title, the locality of the first location entry and the
    formatted address of the first venue-typed entity. *)
Definition search_text_well_formed (r : PredictHQEvent.t) : bool :=
  Str.well_formed (PredictHQEvent.title r)
  && well_formed_opt
       (opt_get Address.locality
          (opt_get Location.address
             (opt_get (@hd_error Location.t) (PredictHQEvent.location r))))
  && well_formed_opt
       (opt_get Entity.formatted_address
          (opt_get (find (fun e => Str.eqb (Entity.type e) (lit "venue")))
                   (PredictHQEvent.entities r))).


(** The record's address block supplies no locality. *)
Definition no_locality (r : PredictHQEvent.t) : Prop :=
  forall l rest a,
    PredictHQEvent.location r = Some (l :: rest) ->
    Location.address l = Some a ->
    Str.truthy_opt (Address.locality a) = false.

(** *** Sample records *)

Definition main_street : jsstring := lit "123 Main St, Springfield, USA".

Definition springfield_arena : Entity.t :=
  {| Entity.entity_id := None;
     Entity.name := lit "Springfield Arena";
     Entity.type := lit "venue";
     Entity.formatted_address := Some main_street;
     Entity.url := None;
     Entity.website := None |}.

Definition promoter : Entity.t :=
  {| Entity.entity_id := None;
     Entity.name := lit "Shelbyville Promotions";
     Entity.type := lit "organizer";
     Entity.formatted_address := Some (lit "1 Other Rd, Shelbyville, USA");
     Entity.url := None;
     Entity.website := None |}.

(** A record with nothing but an identifier, a title and dates. *)
Definition bare_record : PredictHQEvent.t :=
  {| PredictHQEvent.id := lit "ev1";
     PredictHQEvent.title := lit "Jazz Night";
     PredictHQEvent.description := None;
     PredictHQEvent.category := lit "concerts";
     PredictHQEvent.start := lit "2025-06-01T19:00:00Z";
     PredictHQEvent.end_ := None;
     PredictHQEvent.timezone := lit "America/Chicago";
     PredictHQEvent.location := None;
     PredictHQEvent.entities := None;
     PredictHQEvent.url := None;
     PredictHQEvent.website := None;
     PredictHQEvent.ticket_url := None;
     PredictHQEvent.external_url := None;
     PredictHQEvent.private := None;
     PredictHQEvent.country := None;
     PredictHQEvent.geo := None |}.

Definition with_entities (es : list Entity.t) (r : PredictHQEvent.t)
  : PredictHQEvent.t :=
  {| PredictHQEvent.id := PredictHQEvent.id r;
     PredictHQEvent.title := PredictHQEvent.title r;
     PredictHQEvent.description := PredictHQEvent.description r;
     PredictHQEvent.category := PredictHQEvent.category r;
     PredictHQEvent.start := PredictHQEvent.start r;
     PredictHQEvent.end_ := PredictHQEvent.end_ r;
     PredictHQEvent.timezone := PredictHQEvent.timezone r;
     PredictHQEvent.location := PredictHQEvent.location r;
     PredictHQEvent.entities := Some es;
     PredictHQEvent.url := PredictHQEvent.url r;
     PredictHQEvent.website := PredictHQEvent.website r;
     PredictHQEvent.ticket_url := PredictHQEvent.ticket_url r;
     PredictHQEvent.external_url := PredictHQEvent.external_url r;
     PredictHQEvent.private := PredictHQEvent.private r;
     PredictHQEvent.country := PredictHQEvent.country r;
     PredictHQEvent.geo := PredictHQEvent.geo r |}.


Definition with_private (private : bool) (r : PredictHQEvent.t)
  : PredictHQEvent.t :=
  {| PredictHQEvent.id := PredictHQEvent.id r;
     PredictHQEvent.title := PredictHQEvent.title r;
     PredictHQEvent.description := PredictHQEvent.description r;
     PredictHQEvent.category := PredictHQEvent.category r;
     PredictHQEvent.start := PredictHQEvent.start r;
     PredictHQEvent.end_ := PredictHQEvent.end_ r;
     PredictHQEvent.timezone := PredictHQEvent.timezone r;
     PredictHQEvent.location := PredictHQEvent.location r;
     PredictHQEvent.entities := PredictHQEvent.entities r;
     PredictHQEvent.url := PredictHQEvent.url r;
     PredictHQEvent.website := PredictHQEvent.website r;
     PredictHQEvent.ticket_url := PredictHQEvent.ticket_url r;
     PredictHQEvent.external_url := PredictHQEvent.external_url r;
     PredictHQEvent.private := Some private;
     PredictHQEvent.country := PredictHQEvent.country r;
     PredictHQEvent.geo := PredictHQEvent.geo r |}.

(** A private event; and an event whose title ends in a high surrogate
    with no low surrogate after it, as a title cut in the middle of an
    emoji does. *)
Definition members_record : PredictHQEvent.t := with_private true bare_record.



(** The venue alone, and the venue after an organizer that has an address
    of its own. *)
Definition arena_record : PredictHQEvent.t :=
  with_entities [springfield_arena] bare_record.

Definition promoter_first_record : PredictHQEvent.t :=
  with_entities [promoter; springfield_arena] bare_record.

(** *** The query sent to the provider *)

(** Both environment variables are set. *)
Definition configured (h : Host) : bool :=
  Str.truthy (PREDICTHQ_API_TOKEN h) && Str.truthy_opt (PREDICTHQ_API_BASE h).

(** The date filters that are given are dates the host can read. *)
Definition dates_valid (h : Host) (f : EventFilters.t) : bool :=
  (negb (Str.truthy_opt (EventFilters.startDate f))
   || defined (date_iso h (the (EventFilters.startDate f))))
  && (negb (Str.truthy_opt (EventFilters.endDate f))
      || defined (date_iso h (the (EventFilters.endDate f)))).

(** The URL of a search with the query [params]. *)
Definition provider_url (h : Host) (params : URLSearchParams) : jsstring :=
  the (PREDICTHQ_API_BASE h) ++ lit "/events/?" ++ params_toString params.

(** [searchEvents filters] emits the query [params]: it builds these
    parameters and sends the provider a request for them. *)
Definition emits (h : Host) (filters : EventFilters.t) (params : URLSearchParams)
  : Prop :=
  snd (searchParams filters h) = Ok params
  /\ In (ProviderRequest (provider_url h params)
                         (lit "Bearer " ++ PREDICTHQ_API_TOKEN h))
        (fst (searchEvents filters h)).

(** The log holds a geocoding request. *)
Definition geocoding_invoked (log : list Request) : Prop :=
  exists url, In (GeocodeRequest url) log.

(** The location parameters for coordinates and a radius in miles, as
    [searchParams] appends them. *)
Definition location_params (lat lon radius : option Num.number)
  (params : URLSearchParams) : URLSearchParams :=
  if Num.truthy_opt lat && Num.truthy_opt lon then
    append
      (append params (lit "location_around.origin")
         (Num.toString (the_num lat) ++ lit "," ++ Num.toString (the_num lon)))
      (lit "location_around.radius")
      (Num.toString
         (Num.Math_round
            (if Num.truthy_opt radius
             then (the_num radius * 1.60934)%float else 50%float))
       ++ lit "km")
  else params.

(** What [searchParams] appends after the location parameters: the dates,
    the keyword, the category and the fixed parameters. *)
Definition after_location (h : Host) (f : EventFilters.t)
  (params : URLSearchParams) : Result URLSearchParams :=
  match (if Str.truthy_opt (EventFilters.startDate f)
         then date_iso h (the (EventFilters.startDate f))
         else Some (now_iso h)) with
  | None => Throw RangeError
  | Some start_gte =>
      let params := append params (lit "start.gte") start_gte in
      match (if Str.truthy_opt (EventFilters.endDate f)
             then option_map (append params (lit "start.lte"))
                             (date_iso h (the (EventFilters.endDate f)))
             else Some params) with
      | None => Throw RangeError
      | Some params =>
          let params :=
            if Str.truthy_opt (EventFilters.query f)
            then append params (lit "q") (the (EventFilters.query f))
            else params in
          let params :=
            if Str.truthy_opt (EventFilters.category f)
            then append params (lit "category") (the (EventFilters.category f))
            else params in
          Ok (append (append (append params (lit "private") (lit "false"))
                             (lit "limit") (lit "50"))
                     (lit "sort") (lit "-rank"))
      end
  end.

(** The radius searched around a geocoded place: the caller's when it is
    truthy, else 300 miles for a country and 30 for a city. *)
Definition geocoded_radius (radius : option Num.number) (g : Geocode.t)
  : Num.number :=
  Num.or_default radius (if Geocode.isCountry g then 300%float else 30%float).

(** *** Errors of a lookup *)

(** A not-found error: an [Error] whose message starts with
    "Event not found". *)
Definition is_not_found (e : exn) : Prop :=
  exists message,
    e = Error message /\ Str.startsWith message (lit "Event not found") = true.

(** The message names the identifier. *)
Definition mentions (e : exn) (eventId : jsstring) : Prop :=
  exists before after, exn_message e = before ++ eventId ++ after.

(** The URL of a lookup by identifier. *)
Definition lookup_url (h : Host) (encodedId : jsstring) : jsstring :=
  the (PREDICTHQ_API_BASE h) ++ lit "/events/?id=" ++ encodedId.

(** The events of the lookups that succeeded, in the order of the
    identifiers. *)
Definition successes (h : Host) (eventIds : list jsstring) : list Event.t :=
  flat_map (fun id => match snd (getEventById id h) with
                      | Ok event => [event]
                      | Throw _ => []
                      end) eventIds.

(** *** Sample events, hosts and filter sets *)

(** The Event of [arena_record]. *)
Definition arena_event : Event.t :=
  {| Event.id := lit "ev1";
     Event.name := lit "Jazz Night";
     Event.description := [];
     Event.startDate := lit "2025-06-01T19:00:00Z";
     Event.endDate := lit "2025-06-01T19:00:00Z";
     Event.timezone := lit "America/Chicago";
     Event.url :=
       lit "https://www.google.com/search?q=Jazz%20Night%20tickets%20Springfield";
     Event.imageUrl := None;
     Event.venue :=
       Some {| Venue.name := lit "Springfield Arena";
               Venue.address := main_street;
               Venue.city := Some (lit "Springfield");
               Venue.latitude := None;
               Venue.longitude := None |};
     Event.price := None;
     Event.category := Some (lit "concerts");
     Event.isOnline := false |}.

(** Lower case for ASCII letters. *)
Definition ascii_lower (s : jsstring) : jsstring :=
  map (fun c => if ((65 <=? c) && (c <=? 90))%N then (c + 32)%N else c) s.

(** The numbers of the sample geocoding results. *)
Definition read_number (s : jsstring) : Num.number :=
  if Str.eqb s (lit "6.4550575") then 6.4550575%float
  else if Str.eqb s (lit "3.3941795") then 3.3941795%float
  else if Str.eqb s (lit "0") then 0%float
  else nan.

Definition place (lat lon : jsstring) : GeocodingResult.t :=
  {| GeocodingResult.lat := lat;
     GeocodingResult.lon := lon;
     GeocodingResult.display_name := lit "Lagos, Nigeria";
     GeocodingResult.type := lit "city";
     GeocodingResult.class := Some (lit "place");
     GeocodingResult.importance := 0.75%float;
     GeocodingResult.address :=
       Some {| GeoAddress.country := Some (lit "Nigeria");
               GeoAddress.country_code := Some (lit "ng") |} |}.

Definition ok_response {Body} (body : Body) : Response.t Body :=
  {| Response.ok := true;
     Response.status := 200%N;
     Response.statusText := lit "OK";
     Response.json := Ok (Some body) |}.

Definition results_body (results : list PredictHQEvent.t) : PredictHQResponse.t :=
  {| PredictHQResponse.results := Some results;
     PredictHQResponse.detail := None;
     PredictHQResponse.message := None;
     PredictHQResponse.error := None |}.

(** A configured host whose geocoder answers as given and whose provider
    answers every search with [results]. *)
Definition host_with
  (geocoder : jsstring -> FetchOutcome (list GeocodingResult.t))
  (results : list PredictHQEvent.t) : Host :=
  {| NEXT_PUBLIC_PREDICTHQ_API_BASE := Some (lit "https://api.predicthq.com/v1");
     NEXT_PUBLIC_PREDICTHQ_API_TOKEN := Some (lit "token");
     nominatim := geocoder;
     predicthq := fun _ _ => Resolved (ok_response (results_body results));
     now_iso := lit "2025-01-01T00:00:00.000Z";
     date_iso := fun _ => None;
     parseFloat := read_number;
     toLowerCase := ascii_lower |}.

(** Every place is Lagos; every place is at latitude and longitude 0; the
    geocoder cannot be reached. *)
Definition lagos_host : Host :=
  host_with (fun _ => Resolved (ok_response [place (lit "6.4550575") (lit "3.3941795")]))
            [arena_record].

Definition null_island_host : Host :=
  host_with (fun _ => Resolved (ok_response [place (lit "0") (lit "0")]))
            [arena_record].

Definition offline_geocoder_host : Host :=
  host_with (fun _ => Rejected (lit "Failed to fetch")) [arena_record].


Definition lagos_geocode : Geocode.t :=
  {| Geocode.lat := 6.4550575%float;
     Geocode.lon := 3.3941795%float;
     Geocode.isCountry := false |}.

(** Filter sets: coordinates with a radius in miles, and a city with a
    radius. *)
Definition around (lat lon : Num.number) (radius : option Num.number)
  (city : option jsstring) : EventFilters.t :=
  {| EventFilters.city := city;
     EventFilters.latitude := Some lat;
     EventFilters.longitude := Some lon;
     EventFilters.radius := radius;
     EventFilters.startDate := None;
     EventFilters.endDate := None;
     EventFilters.category := None;
     EventFilters.price := None;
     EventFilters.query := None |}.

Arguments around (lat lon)%_float radius city.

Definition in_city (city : jsstring) (radius : option Num.number)
  : EventFilters.t :=
  {| EventFilters.city := Some city;
     EventFilters.latitude := None;
     EventFilters.longitude := None;
     EventFilters.radius := radius;
     EventFilters.startDate := None;
     EventFilters.endDate := None;
     EventFilters.category := None;
     EventFilters.price := None;
     EventFilters.query := None |}.

(** *** Proof steps *)

(** Reads [H : transformEvent r = Ok ev] as the record [ev] is, keeping
    the equation [E] that decided the URL. *)
Ltac transform_inv H E :=
  unfold transformEvent in H; cbv zeta in H;
  match type of H with
  | match ?X with _ => _ end = _ =>
      destruct X as [?u|?e] eqn:E; [injection H as <-|discriminate H]
  end.

(** Closes a goal about [searchParams] by cases on the date filters. *)
Ltac by_date_cases h f :=
  destruct (Str.truthy_opt (EventFilters.startDate f)),
           (date_iso h (the (EventFilters.startDate f))),
           (Str.truthy_opt (EventFilters.endDate f)),
           (date_iso h (the (EventFilters.endDate f)));
  simpl; rewrite ?app_nil_r; reflexivity.

(* ================================================================ *)
(** * The rest of the code *)

(** ** utils/eventIdValidator *)

Module EventIdValidator.

Definition is_digit (c : char16) : bool := ((48 <=? c) && (c <=? 57))%N.

(** [/^[a-zA-Z0-9]+$/.test(s)]. *)
Definition all_alnum (s : jsstring) : bool :=
  Str.truthy s && forallb Str.is_alnum s.

(** [/^\d+$/.test(s)]. *)
Definition all_digits (s : jsstring) : bool :=
  Str.truthy s && forallb is_digit s.

Definition isOldApiId (eventId : jsstring) : bool :=
  (15 <=? List.length eventId)%nat && all_alnum eventId.

Definition isValidPredictHQId (eventId : jsstring) : bool :=
  (List.length eventId <? 15)%nat || all_digits eventId.

Definition getEventIdErrorMessage (eventId : jsstring) : jsstring :=
  if isOldApiId eventId then
    lit "This event ID appears to be from a previous API. "
    ++ lit "Please clear your saved events and search for new events. "
    ++ lit "Event ID: " ++ Str.dquote ++ eventId ++ Str.dquote
  else
    lit "Invalid event ID format. Event ID: " ++ Str.dquote ++ eventId ++ Str.dquote.

End EventIdValidator.

(** ** services/eventCache *)

(** The module's [Map<string, Event>]: the entries in insertion order,
    one per key.  The functions of the module return nothing; here each one
    takes the map as it is and gives the map as it leaves it. *)
Module EventCache.

Definition t := list (jsstring * Event.t).

(** [new Map()]. *)
Definition empty : t := [].

(** [map.get(key)]. *)
Fixpoint get (key : jsstring) (m : t) : option Event.t :=
  match m with
  | [] => None
  | (k, v) :: m' => if Str.eqb k key then Some v else get key m'
  end.

(** [map.set(key, value)]: the value of a key that is present is replaced
    where it stands; a new key goes to the end. *)
Fixpoint set (key : jsstring) (value : Event.t) (m : t) : t :=
  match m with
  | [] => [(key, value)]
  | (k, v) :: m' =>
      if Str.eqb k key then (k, value) :: m' else (k, v) :: set key value m'
  end.

(** [map.delete(key)]. *)
Fixpoint delete (key : jsstring) (m : t) : t :=
  match m with
  | [] => []
  | (k, v) :: m' => if Str.eqb k key then m' else (k, v) :: delete key m'
  end.

Definition cacheEvent (event : Event.t) (eventCache : t) : t :=
  set (Event.id event) event eventCache.

(** [events.forEach((event) => eventCache.set(event.id, event))]. *)
Definition cacheEvents (events : list Event.t) (eventCache : t) : t :=
  fold_left (fun cache event => set (Event.id event) event cache) events eventCache.

Definition getCachedEvent (eventId : jsstring) (eventCache : t) : option Event.t :=
  get eventId eventCache.

Definition clearCache (eventCache : t) : t := empty.

Definition removeCachedEvent (eventId : jsstring) (eventCache : t) : t :=
  delete eventId eventCache.

End EventCache.

(** ** The event pages *)

(** What a template literal makes of [number | undefined]. *)
Definition template_num (o : option Num.number) : jsstring :=
  match o with
  | Some x => Num.toString x
  | None => lit "undefined"
  end.

(** [formatPrice] of the event detail page, over its [event] state
    ([Event | null]); the event card has the same function over its
    event. *)
Definition formatPrice (event : option Event.t) : jsstring :=
  match opt_get Event.price event with
  | None => lit "Free"
  | Some price =>
      if match Price.min price with
         | Some min => (min =? 0)%float
         | None => false
         end
      then lit "Free"
      else if Num.truthy_opt (Price.min price) && Num.truthy_opt (Price.max price)
              && negb (the_num (Price.min price) =? the_num (Price.max price))%float
      then lit "$" ++ template_num (Price.min price)
           ++ lit " - $" ++ template_num (Price.max price)
      else lit "$" ++ template_num (Price.min price)
  end.

(** [getMapUrl] of the event detail page: a Google Maps URL for the
    venue's coordinates, else for its address, else [null]. *)
Definition getMapUrl (event : option Event.t) : Result (option jsstring) :=
  let venue := opt_get Event.venue event in
  if Num.truthy_opt (opt_get Venue.latitude venue)
     && Num.truthy_opt (opt_get Venue.longitude venue)
  then Ok (Some (lit "https://www.google.com/maps?q="
                 ++ Num.toString (the_num (opt_get Venue.latitude venue))
                 ++ lit ","
                 ++ Num.toString (the_num (opt_get Venue.longitude venue))))
  else if Str.truthy_opt (option_map Venue.address venue)
  then
    match Str.encodeURIComponent (the (option_map Venue.address venue)) with
    | Some query =>
        Ok (Some (lit "https://www.google.com/maps/search/?api=1&query=" ++ query))
    | None => Throw URIError
    end
  else Ok None.

(** The filter set the discovery page searches with: the filters of the
    search form, and around the user's location with a radius of 25 miles
    when the location is known and the form names no city. *)
Definition searchFilters (filters : EventFilters.t) (userLocation : option LatLon.t)
  : EventFilters.t :=
  match userLocation with
  | Some location =>
      if negb (Str.truthy_opt (EventFilters.city filters)) then
        {| EventFilters.city := EventFilters.city filters;
           EventFilters.latitude := Some (LatLon.lat location);
           EventFilters.longitude := Some (LatLon.lon location);
           EventFilters.radius := Some 25%float;   (* 25 mile radius *)
           EventFilters.startDate := EventFilters.startDate filters;
           EventFilters.endDate := EventFilters.endDate filters;
           EventFilters.category := EventFilters.category filters;
           EventFilters.price := EventFilters.price filters;
           EventFilters.query := EventFilters.query filters |}
      else filters
  | None => filters
  end.

(* ================================================================ *)
(** * What the further properties are stated with *)

(** The log holds a request to the provider. *)
Definition provider_requested (log : list Request) : Prop :=
  exists url authorization, In (ProviderRequest url authorization) log.

(** The first truthy string of a list of candidates. *)
Fixpoint first_truthy (candidates : list (option jsstring)) : option jsstring :=
  match candidates with
  | [] => None
  | c :: rest => if Str.truthy_opt c then c else first_truthy rest
  end.

(** [filters] with another price band. *)
Definition with_price (price : option (option Num.number * option Num.number))
  (filters : EventFilters.t) : EventFilters.t :=
  {| EventFilters.city := EventFilters.city filters;
     EventFilters.latitude := EventFilters.latitude filters;
     EventFilters.longitude := EventFilters.longitude filters;
     EventFilters.radius := EventFilters.radius filters;
     EventFilters.startDate := EventFilters.startDate filters;
     EventFilters.endDate := EventFilters.endDate filters;
     EventFilters.category := EventFilters.category filters;
     EventFilters.price := price;
     EventFilters.query := EventFilters.query filters |}.

(** The message starts with [prefix]. *)
Definition message_starts (e : exn) (prefix : jsstring) : Prop :=
  exists message, e = Error message /\ Str.startsWith message prefix = true.

(** A host like [h] whose provider answers every request as [outcome]. *)
Definition answering (outcome : FetchOutcome PredictHQResponse.t) (h : Host) : Host :=
  {| NEXT_PUBLIC_PREDICTHQ_API_BASE := NEXT_PUBLIC_PREDICTHQ_API_BASE h;
     NEXT_PUBLIC_PREDICTHQ_API_TOKEN := NEXT_PUBLIC_PREDICTHQ_API_TOKEN h;
     nominatim := nominatim h;
     predicthq := fun _ _ => outcome;
     now_iso := now_iso h;
     date_iso := date_iso h;
     parseFloat := parseFloat h;
     toLowerCase := toLowerCase h |}.

(** A response that is not ok. *)
Definition error_response (status : N) (statusText : jsstring)
  (body : Result (option PredictHQResponse.t)) : Response.t PredictHQResponse.t :=
  {| Response.ok := false;
     Response.status := status;
     Response.statusText := statusText;
     Response.json := body |}.

(** A host with no environment variable set. *)
Definition unconfigured_host : Host :=
  {| NEXT_PUBLIC_PREDICTHQ_API_BASE := None;
     NEXT_PUBLIC_PREDICTHQ_API_TOKEN := None;
     nominatim := nominatim lagos_host;
     predicthq := predicthq lagos_host;
     now_iso := now_iso lagos_host;
     date_iso := date_iso lagos_host;
     parseFloat := parseFloat lagos_host;
     toLowerCase := toLowerCase lagos_host |}.

(** Like [transform_inv], leaving the fields of the record as they are
    written. *)
Ltac transform_inv_keep H E :=
  unfold transformEvent in H; cbv zeta in H;
  match type of H with
  | match ?X with _ => _ end = _ =>
      destruct X as [?u|?e] eqn:E; [|discriminate H]
  end;
  match type of H with
  | Ok ?X = Ok ?ev =>
      let Hev := fresh "Hev" in
      assert (Hev : X = ev) by congruence; clear H; subst ev
  end.

(** The message [searchEvents] throws for a response that is not ok: the
    provider's own message behind a heading for the kind of failure. *)
Definition search_error_message (response : Response.t PredictHQResponse.t)
  : jsstring :=
  let status := Response.status response in
  if ((status =? 401) || (status =? 403))%N then
    lit "Authentication failed. Please check your PredictHQ API token. "
    ++ api_error_message response
  else if (status =? 404)%N then
    lit "API endpoint not found. " ++ api_error_message response
  else if (500 <=? status)%N then
    lit "PredictHQ API server error. " ++ api_error_message response
  else api_error_message response.

(** The message [getEventById] throws for a response that is not ok. *)
Definition lookup_error_message (eventId : jsstring)
  (response : Response.t PredictHQResponse.t) : jsstring :=
  let status := Response.status response in
  if (status =? 404)%N then not_found_404 eventId
  else if ((status =? 401) || (status =? 403))%N then
    lit "Authentication failed. Please check your PredictHQ API token."
  else api_error_message response.

(** How a request to the provider ends, each kind of answer handled by
    [on_results]. *)
Definition settle {A} (error_message : Response.t PredictHQResponse.t -> jsstring)
  (on_results : option (list PredictHQEvent.t) -> Result A)
  (outcome : FetchOutcome PredictHQResponse.t) : Result A :=
  match outcome with
  | Rejected message => Throw (failed_to_connect (FetchError message))
  | Resolved response =>
      if negb (Response.ok response) then Throw (Error (error_message response))
      else
        match Response.json response with
        | Throw e => Throw e
        | Ok None => Throw TypeError
        | Ok (Some data) => on_results (PredictHQResponse.results data)
        end
  end.

(** The Authorization header. *)
Definition bearer (h : Host) : jsstring := lit "Bearer " ++ PREDICTHQ_API_TOKEN h.

(** The error of a missing environment variable: the token is looked at
    first. *)
Definition configuration_error (h : Host) : exn :=
  if Str.truthy (PREDICTHQ_API_TOKEN h)
  then Error base_not_configured
  else Error token_not_configured.

(** The value a text filter contributes to the query: itself when it is
    non-empty. *)
Definition filter_value (given : option jsstring) : list jsstring :=
  if Str.truthy_opt given then [the given] else [].

(** [searchParams] geocodes: no truthy coordinate, and a city. *)
Definition geocoding_attempted (f : EventFilters.t) : bool :=
  negb (Num.truthy_opt (EventFilters.latitude f))
  && negb (Num.truthy_opt (EventFilters.longitude f))
  && Str.truthy_opt (EventFilters.city f).

(** The city as a keyword, when it was geocoded to no place. *)
Definition keyword_fallback (f : EventFilters.t) (h : Host) : list jsstring :=
  if geocoding_attempted f then
    match snd (geocodeLocation (the (EventFilters.city f)) h) with
    | Ok None => [the (EventFilters.city f)]
    | _ => []
    end
  else [].

(** The ISO date of a date filter, when it has one. *)
Definition iso_of (h : Host) (given : option jsstring) : list jsstring :=
  if Str.truthy_opt given then
    match date_iso h (the given) with Some d => [d] | None => [] end
  else [].

(** The parameters after the location ones, for a start date, the end
    dates, the keywords and the categories given. *)
Definition tail_params (start : jsstring) (ends keywords categories : list jsstring)
  : URLSearchParams :=
  [(lit "start.gte", start)]
  ++ map (pair (lit "start.lte")) ends
  ++ map (pair (lit "q")) keywords
  ++ map (pair (lit "category")) categories
  ++ [ (lit "private", lit "false"); (lit "limit", lit "50");
       (lit "sort", lit "-rank") ].

(** The start date of a search: the filter's, or now. *)
Definition start_of (h : Host) (f : EventFilters.t) : option jsstring :=
  if Str.truthy_opt (EventFilters.startDate f)
  then date_iso h (the (EventFilters.startDate f))
  else Some (now_iso h).

(** The lookup of an identifier succeeds. *)
Definition found (h : Host) (eventId : jsstring) : bool :=
  match snd (getEventById eventId h) with
  | Ok _ => true
  | Throw _ => false
  end.

(** The URL of the geocoding request for an encoded place name. *)
Definition geocode_url (encodedLocation : jsstring) : jsstring :=
  lit "https://nominatim.openstreetmap.org/search?q=" ++ encodedLocation
  ++ lit "&format=json&limit=1&addressdetails=1".

(** The country-scale test of [geocodeLocation] for the place name
    [location] and the match [result]. *)
Definition is_country (h : Host) (location : jsstring)
  (result : GeocodingResult.t) : bool :=
  let locationLower := toLowerCase h location in
  let type := GeocodingResult.type result in
  let address := GeocodingResult.address result in
  (match GeocodingResult.class result with
   | Some c => Str.eqb c (lit "place")
   | None => false
   end && Str.eqb type (lit "country"))
  || Str.eqb type (lit "country")
  || ((GeocodingResult.importance result <? 0.3)%float
      && negb (Str.includes type (lit "city"))
      && negb (Str.includes type (lit "town")))
  || Str.includes locationLower (lit "nigeria")
  || Str.includes locationLower (lit "country")
  || (Str.truthy_opt (opt_get GeoAddress.country_code address)
      && Str.truthy_opt (opt_get GeoAddress.country address)
      && Str.includes locationLower
           (toLowerCase h (the (opt_get GeoAddress.country address)))).

(** The geocoder's matches for an encoded place name, when its answer is ok
    and parses to a list. *)
Definition matches (h : Host) (encodedLocation : jsstring)
  : option (list GeocodingResult.t) :=
  match nominatim h (geocode_url encodedLocation) with
  | Rejected _ => None
  | Resolved response =>
      if Response.ok response then
        match Response.json response with
        | Ok (Some results) => Some results
        | _ => None
        end
      else None
  end.

(** The keys of a cache are all different. *)
Definition distinct_keys (eventCache : EventCache.t) : Prop :=
  NoDup (map fst eventCache).

(** The last event of a list with the identifier [eventId]. *)
Definition last_with_id (eventId : jsstring) (events : list Event.t)
  : option Event.t :=
  find (fun event => Str.eqb (Event.id event) eventId) (rev events).

(** *** More sample records, events, hosts and filter sets *)

Definition grant_park : Address.t :=
  {| Address.name := Some (lit "Grant Park");
     Address.street := Some (lit "337 E Randolph St");
     Address.locality := Some (lit "Chicago");
     Address.region := Some (lit "IL");
     Address.country := None |}.

Definition grant_park_location : Location.t :=
  {| Location.location :=
       Some {| LatLon.lat := 41.8781%float; LatLon.lon := (-87.6298)%float |};
     Location.address := Some grant_park |}.

(** A record with a location entry, an empty ticket URL and an external
    URL, and no entities. *)
Definition fair_record : PredictHQEvent.t :=
  {| PredictHQEvent.id := lit "ev2";
     PredictHQEvent.title := lit "Food Fair";
     PredictHQEvent.description := None;
     PredictHQEvent.category := lit "festivals";
     PredictHQEvent.start := lit "2025-07-04T10:00:00Z";
     PredictHQEvent.end_ := Some (lit "2025-07-04T18:00:00Z");
     PredictHQEvent.timezone := lit "America/Chicago";
     PredictHQEvent.location := Some [grant_park_location];
     PredictHQEvent.entities := None;
     PredictHQEvent.url := Some (lit "https://events.example.com/ev2");
     PredictHQEvent.website := None;
     PredictHQEvent.ticket_url := Some [];
     PredictHQEvent.external_url := Some (lit "https://fair.example.com/tickets");
     PredictHQEvent.private := None;
     PredictHQEvent.country := Some (lit "US");
     PredictHQEvent.geo := None |}.

Definition fair_venue : Venue.t :=
  {| Venue.name := lit "Grant Park";
     Venue.address := lit "337 E Randolph St, Chicago, IL, US";
     Venue.city := Some (lit "Chicago");
     Venue.latitude := Some 41.8781%float;
     Venue.longitude := Some (-87.6298)%float |}.

(** The Event of [fair_record]. *)
Definition fair_event : Event.t :=
  {| Event.id := lit "ev2";
     Event.name := lit "Food Fair";
     Event.description := [];
     Event.startDate := lit "2025-07-04T10:00:00Z";
     Event.endDate := lit "2025-07-04T18:00:00Z";
     Event.timezone := lit "America/Chicago";
     Event.url := lit "https://fair.example.com/tickets";
     Event.imageUrl := None;
     Event.venue := Some fair_venue;
     Event.price := None;
     Event.category := Some (lit "festivals");
     Event.isOnline := false |}.

(** The venue of [arena_event]. *)
Definition arena_venue : Venue.t :=
  {| Venue.name := lit "Springfield Arena";
     Venue.address := main_street;
     Venue.city := Some (lit "Springfield");
     Venue.latitude := None;
     Venue.longitude := None |}.

(** Hosts like [lagos_host]: the provider has no event; the provider
    refuses the token; the provider does not know the path; the provider
    cannot be reached. *)
Definition quiet_host : Host :=
  answering (Resolved (ok_response (results_body []))) lagos_host.

Definition invalid_token : PredictHQResponse.t :=
  {| PredictHQResponse.results := None;
     PredictHQResponse.detail := Some (lit "Invalid token.");
     PredictHQResponse.message := None;
     PredictHQResponse.error := None |}.

Definition refusing_response : Response.t PredictHQResponse.t :=
  error_response 401 (lit "Unauthorized") (Ok (Some invalid_token)).

Definition refusing_host : Host := answering (Resolved refusing_response) lagos_host.

Definition lost_response : Response.t PredictHQResponse.t :=
  error_response 404 (lit "Not Found") (Ok None).

Definition lost_host : Host := answering (Resolved lost_response) lagos_host.

Definition offline_host : Host :=
  answering (Rejected (lit "Failed to fetch")) lagos_host.

(** The parameters of a search with no filter on a sample host. *)
Definition plain_params : URLSearchParams :=
  [ (lit "start.gte", lit "2025-01-01T00:00:00.000Z");
    (lit "private", lit "false");
    (lit "limit", lit "50");
    (lit "sort", lit "-rank") ].

(** Filter sets: a start date only; a latitude and a city only. *)
Definition starting (startDate : jsstring) : EventFilters.t :=
  {| EventFilters.city := None;
     EventFilters.latitude := None;
     EventFilters.longitude := None;
     EventFilters.radius := None;
     EventFilters.startDate := Some startDate;
     EventFilters.endDate := None;
     EventFilters.category := None;
     EventFilters.price := None;
     EventFilters.query := None |}.

Definition latitude_only (latitude : Num.number) (city : jsstring) : EventFilters.t :=
  {| EventFilters.city := Some city;
     EventFilters.latitude := Some latitude;
     EventFilters.longitude := None;
     EventFilters.radius := None;
     EventFilters.startDate := None;
     EventFilters.endDate := None;
     EventFilters.category := None;
     EventFilters.price := None;
     EventFilters.query := None |}.

Arguments latitude_only latitude%_float city.

(** What the sample geocoder's answer makes of the place name "Nigeria". *)
Definition nigeria_geocode : Geocode.t :=
  {| Geocode.lat := 6.4550575%float;
     Geocode.lon := 3.3941795%float;
     Geocode.isCountry := true |}.

Definition lagos_island : LatLon.t :=
  {| LatLon.lat := 6.4550575%float; LatLon.lon := 3.3941795%float |}.

(** An event like [event] with a price from [min] to [max]. *)
Definition priced (min max : option Num.number) (event : Event.t) : Event.t :=
  {| Event.id := Event.id event;
     Event.name := Event.name event;
     Event.description := Event.description event;
     Event.startDate := Event.startDate event;
     Event.endDate := Event.endDate event;
     Event.timezone := Event.timezone event;
     Event.url := Event.url event;
     Event.imageUrl := Event.imageUrl event;
     Event.venue := Event.venue event;
     Event.price :=
       Some {| Price.min := min; Price.max := max;
               Price.currency := lit "USD"; Price.display := [] |};
     Event.category := Event.category event;
     Event.isOnline := Event.isOnline event |}.
(* ================================================================ *)
(** * Properties *)

(** ** Strings *)

Lemma Str_eqb_eq (a b : jsstring) : Str.eqb a b = true <-> a = b.
Proof.
  revert b; induction a as [|x a IH]; intros [|y b]; simpl; split;
    try congruence; try reflexivity.
  - intros H. apply andb_true_iff in H as [Hx Hab].
    apply N.eqb_eq in Hx. apply IH in Hab. congruence.
  - intros H. injection H as -> ->.
    apply andb_true_iff. split; [apply N.eqb_refl | now apply IH].
Qed.

Lemma Str_eqb_refl (a : jsstring) : Str.eqb a a = true.
Proof. now apply Str_eqb_eq. Qed.

Lemma truthy_nonempty (s : jsstring) : Str.truthy s = true <-> s <> [].
Proof. destruct s; simpl; split; congruence. Qed.

Lemma truthy_opt_the (o : option jsstring) :
  Str.truthy_opt o = true -> o = Some (the o) /\ the o <> [].
Proof.
  destruct o as [s|]; simpl; [|discriminate].
  intros H. split; [reflexivity | now apply truthy_nonempty].
Qed.

Lemma or_else_truthy (a b : option jsstring) :
  Str.truthy_opt (Str.or_else a b) = Str.truthy_opt a || Str.truthy_opt b.
Proof. unfold Str.or_else. destruct (Str.truthy_opt a) eqn:E; simpl; auto. Qed.

Lemma or_default_falsy (o : option jsstring) (d : jsstring) :
  Str.truthy_opt o = false -> Str.or_default o d = d.
Proof. destruct o as [s|]; simpl; [intros ->|]; reflexivity. Qed.

Lemma or_default_truthy (o : option jsstring) (d : jsstring) :
  Str.truthy_opt o = true -> Str.or_default o d = the o.
Proof. destruct o as [s|]; simpl; [intros ->; reflexivity | discriminate]. Qed.

(** [encodeURIComponent] throws on no string without an unpaired
    surrogate. *)
Lemma encodeURIComponent_well_formed (s : jsstring) :
  Str.well_formed s = true -> exists q, Str.encodeURIComponent s = Some q.
Proof.
  remember (List.length s) as n eqn:Hn.
  revert s Hn. induction n as [n IH] using lt_wf_ind. intros s Hn.
  destruct s as [|c rest]; simpl; [eexists; reflexivity|].
  destruct (Str.uri_unreserved c) eqn:Hu.
  - destruct (Str.is_trail c) eqn:Ht; [discriminate|].
    destruct (Str.is_lead c) eqn:Hl.
    + exfalso. clear - Hu Hl. unfold Str.uri_unreserved, Str.is_alnum, Str.is_lead in *.
      apply andb_true_iff in Hl as [Hl _]. apply N.leb_le in Hl.
      repeat (apply orb_true_iff in Hu as [Hu|Hu]);
        try (apply andb_true_iff in Hu as [_ Hu]; apply N.leb_le in Hu; lia);
        try (apply N.eqb_eq in Hu; lia).
    + intros Hw. destruct (IH (List.length rest)) with (s := rest) as [q Hq];
        simpl in Hn; try lia; auto.
      rewrite Hq. eexists; reflexivity.
  - destruct (Str.is_trail c) eqn:Ht; [discriminate|].
    destruct (Str.is_lead c) eqn:Hl.
    + destruct rest as [|d rest']; [discriminate|].
      destruct (Str.is_trail d); simpl; [|discriminate].
      intros Hw. destruct (IH (List.length rest')) with (s := rest') as [q Hq];
        simpl in Hn; try lia; auto.
      rewrite Hq. eexists; reflexivity.
    + intros Hw. destruct (IH (List.length rest)) with (s := rest) as [q Hq];
        simpl in Hn; try lia; auto.
      rewrite Hq. eexists; reflexivity.
Qed.

(** ** transformEvent *)

(** A [find] that succeeds returns a member that passes the test. *)
Lemma defined_find {A} (p : A -> bool) (l : list A) :
  defined (find p l) = true <-> exists a, In a l /\ p a = true.
Proof.
  split.
  - destruct (find p l) as [a|] eqn:E; [|discriminate].
    intros _. exists a. now apply find_some in E.
  - intros [a [Hin Hp]]. destruct (find p l) as [b|] eqn:E; [reflexivity|].
    now rewrite (find_none _ _ E a Hin) in Hp.
Qed.



Lemma defined_geo (r : PredictHQEvent.t) :
  defined
    (or_obj
       (opt_get Location.location
          (opt_get (@hd_error Location.t) (PredictHQEvent.location r)))
       (option_map
          (fun coordinates =>
             {| LatLon.lat := snd coordinates; LatLon.lon := fst coordinates |})
          (opt_get Geometry.coordinates
             (opt_get Geo.geometry (PredictHQEvent.geo r))))) = true
  <-> has_coordinates r.
Proof.
  unfold has_coordinates. split.
  - destruct (PredictHQEvent.location r) as [[|l rest]|] eqn:EL; simpl.
    2: destruct (Location.location l) as [g|] eqn:Eg; simpl;
       [intros _; left; now exists l, rest, g|].
    all: destruct (PredictHQEvent.geo r) as [gg|]; simpl; try discriminate;
      destruct (Geo.geometry gg) as [gm|] eqn:Egm; simpl; try discriminate;
      destruct (Geometry.coordinates gm) as [c|] eqn:Ec; simpl; try discriminate;
      intros _; right; now exists gg, gm, c.
  - intros [(l & rest & g & -> & Hg)|(gg & gm & c & -> & Hgm & Hc)]; simpl.
    + now rewrite Hg.
    + rewrite Hgm; simpl; rewrite Hc; simpl.
      now destruct (opt_get _ _).
Qed.

Lemma defined_address (r : PredictHQEvent.t) :
  defined
    (opt_get Location.address
       (opt_get (@hd_error Location.t) (PredictHQEvent.location r))) = true
  <-> has_address r.
Proof.
  unfold has_address. split.
  - destruct (PredictHQEvent.location r) as [[|l rest]|]; simpl; try discriminate.
    destruct (Location.address l) as [a|] eqn:Ea; [|discriminate].
    intros _. now exists l, rest, a.
  - intros (l & rest & a & -> & Ha); simpl. now rewrite Ha.
Qed.

Lemma defined_venueEntity (r : PredictHQEvent.t) :
  defined
    (opt_get (find (fun e => Str.eqb (Entity.type e) (lit "venue")))
       (PredictHQEvent.entities r)) = true
  <-> has_venue_entity r.
Proof.
  unfold has_venue_entity.
  destruct (PredictHQEvent.entities r) as [es|]; simpl.
  - rewrite defined_find. split.
    + intros (e & Hin & He). apply Str_eqb_eq in He. now exists es, e.
    + intros (es' & e & [= <-] & Hin & He). exists e. split; auto.
      now apply Str_eqb_eq.
  - split; [discriminate|]. now intros (es & e & [=] & _).
Qed.

(** C9 -- The Event that [transformEvent] returns has a venue only if the
    record had coordinates (in its location array or its geo geometry), an
    address block or a venue-typed entity; when it had none of them the
    venue is absent. *)
Theorem venue_present_only_if_resolvable (r : PredictHQEvent.t) (ev : Event.t) :
  transformEvent r = Ok ev ->
  (Event.venue ev <> None ->
   has_coordinates r \/ has_address r \/ has_venue_entity r)
  /\ (~ has_coordinates r -> ~ has_address r -> ~ has_venue_entity r ->
      Event.venue ev = None).
Proof.
  intros H. transform_inv H E. cbn [Event.venue].
  pose proof (defined_geo r) as Hg.
  pose proof (defined_address r) as Ha.
  pose proof (defined_venueEntity r) as Hv.
  destruct (defined (or_obj _ _)); simpl.
  - split; [intros _; left; now apply Hg | intros N; exfalso; apply N; now apply Hg].
  - destruct (defined (opt_get Location.address _)); simpl.
    + split; [intros _; right; left; now apply Ha
             | intros _ N; exfalso; apply N; now apply Ha].
    + destruct (defined (opt_get (find _) _)); simpl.
      * split; [intros _; right; right; now apply Hv
               | intros _ _ N; exfalso; apply N; now apply Hv].
      * split; [congruence | reflexivity].
Qed.


(** The URL taken from the record is truthy exactly when the record
    supplies one. *)
Lemma eventUrl_truthy (r : PredictHQEvent.t) :
  Str.truthy_opt
    (if Str.truthy_opt (PredictHQEvent.ticket_url r)
     then PredictHQEvent.ticket_url r
     else if Str.truthy_opt (PredictHQEvent.external_url r)
     then PredictHQEvent.external_url r
     else if Str.truthy_opt (PredictHQEvent.url r)
     then PredictHQEvent.url r
     else if Str.truthy_opt (PredictHQEvent.website r)
     then PredictHQEvent.website r
     else
       match PredictHQEvent.entities r with
       | Some entities =>
           match find (fun e => Str.truthy_opt (Entity.url e)
                                || Str.truthy_opt (Entity.website e)) entities with
           | Some entityWithUrl =>
               Str.or_else (Entity.url entityWithUrl) (Entity.website entityWithUrl)
           | None => None
           end
       | None => None
       end) = true
  <-> has_provider_url r.
Proof.
  unfold has_provider_url.
  destruct (Str.truthy_opt (PredictHQEvent.ticket_url r)) eqn:E1; [tauto|].
  destruct (Str.truthy_opt (PredictHQEvent.external_url r)) eqn:E2; [tauto|].
  destruct (Str.truthy_opt (PredictHQEvent.url r)) eqn:E3; [tauto|].
  destruct (Str.truthy_opt (PredictHQEvent.website r)) eqn:E4; [tauto|].
  destruct (PredictHQEvent.entities r) as [es|].
  - destruct (find _ es) as [e|] eqn:F.
    + apply find_some in F as [Hin He]. rewrite or_else_truthy, He.
      split; [intros _|reflexivity].
      do 4 right. exists es, e. apply orb_true_iff in He. auto.
    + split; [discriminate|].
      intros [?|[?|[?|[?|(es' & e & [= <-] & Hin & He)]]]]; try discriminate.
      pose proof (find_none _ _ F e Hin) as N. simpl in N.
      apply orb_false_iff in N as [N1 N2]. destruct He; congruence.
  - split; [discriminate|].
    intros [?|[?|[?|[?|(es' & e & [=] & _)]]]]; discriminate.
Qed.


(** [transformEvent] throws nothing but the URIError of the search URL, and
    only when the record supplies no URL. *)
Lemma transformEvent_throws (r : PredictHQEvent.t) (e : exn) :
  transformEvent r = Throw e -> e = URIError /\ ~ has_provider_url r.
Proof.
  intros H. unfold transformEvent in H; cbv zeta in H.
  pose proof (eventUrl_truthy r) as HU.
  match type of H with
  | match (if Str.truthy_opt ?u0 then _ else _) with _ => _ end = _ =>
      set (eventUrl0 := u0) in *
  end.
  destruct (Str.truthy_opt eventUrl0) eqn:T; [discriminate|].
  destruct (Str.encodeURIComponent _); [discriminate|].
  injection H as <-. split; [reflexivity|].
  intros N. apply HU in N. congruence.
Qed.

Lemma transformEvent_returns (r : PredictHQEvent.t) :
  has_provider_url r -> exists ev, transformEvent r = Ok ev.
Proof.
  intros H. destruct (transformEvent r) as [ev|e] eqn:E; [now exists ev|].
  apply transformEvent_throws in E. tauto.
Qed.

Lemma encodeURIComponent_app (a b qa qb : jsstring) :
  Str.encodeURIComponent a = Some qa ->
  Str.encodeURIComponent b = Some qb ->
  Str.encodeURIComponent (a ++ b) = Some (qa ++ qb).
Proof.
  intros Ha Hb. remember (List.length a) as n eqn:Hn.
  revert a qa Ha Hn. induction n as [n IH] using lt_wf_ind. intros a qa Ha Hn.
  destruct a as [|c rest]; simpl in *.
  - now injection Ha as <-.
  - destruct (Str.uri_unreserved c).
    + destruct (Str.encodeURIComponent rest) as [q|] eqn:Q; [|discriminate].
      injection Ha as <-.
      rewrite (IH (List.length rest)) with (qa := q); try lia; auto.
    + destruct (Str.is_trail c); [discriminate|].
      destruct (Str.is_lead c).
      * destruct rest as [|d rest']; [discriminate|]. simpl.
        destruct (Str.is_trail d); [|discriminate].
        destruct (Str.encodeURIComponent rest') as [q|] eqn:Q; [|discriminate].
        injection Ha as <-.
        rewrite (IH (List.length rest')) with (qa := q); simpl in *; try lia; auto.
        simpl. now rewrite <- !app_assoc.
      * destruct (Str.encodeURIComponent rest) as [q|] eqn:Q; [|discriminate].
        injection Ha as <-.
        rewrite (IH (List.length rest)) with (qa := q); try lia; auto.
        simpl. now rewrite <- !app_assoc.
Qed.

(** *** Strings without unpaired surrogates *)

Lemma is_space_not_surrogate (c : char16) :
  Str.is_space c = true -> Str.is_lead c = false /\ Str.is_trail c = false.
Proof.
  unfold Str.is_space, Str.is_lead, Str.is_trail. intros H.
  assert (B : (c < 55296 \/ 57343 < c)%N).
  { repeat match goal with
           | H : (_ || _) = true |- _ => apply orb_true_iff in H; destruct H
           | H : (_ && _) = true |- _ => apply andb_true_iff in H; destruct H
           | H : (_ <=? _)%N = true |- _ => apply N.leb_le in H
           | H : (_ =? _)%N = true |- _ => apply N.eqb_eq in H
           end; lia. }
  split; apply andb_false_iff.
  - destruct B; [left | right]; apply N.leb_gt; lia.
  - destruct B; [left | right]; apply N.leb_gt; lia.
Qed.

(** A string with no unpaired surrogate, cut before a code unit that is
    not a low surrogate, leaves a string with none. *)
Lemma well_formed_prefix (p q : jsstring) :
  Str.well_formed (p ++ q) = true ->
  match q with [] => True | d :: _ => Str.is_trail d = false end ->
  Str.well_formed p = true.
Proof.
  intros Hw Hq. remember (List.length p) as n eqn:Hn.
  revert p Hw Hn. induction n as [n IH] using lt_wf_ind. intros p Hw Hn.
  destruct p as [|c p']; [reflexivity|].
  simpl in Hw |- *.
  destruct (Str.is_trail c); [discriminate|].
  destruct (Str.is_lead c).
  - destruct p' as [|d p'']; simpl in Hw.
    + destruct q as [|d q']; [discriminate|].
      rewrite Hq in Hw. discriminate.
    + apply andb_true_iff in Hw as [Hd Hw]. rewrite Hd. simpl.
      apply (IH (List.length p'')); simpl in Hn; auto; lia.
  - apply (IH (List.length p')); simpl in Hn; auto; lia.
Qed.

Lemma well_formed_trimStart (s : jsstring) :
  Str.well_formed s = true -> Str.well_formed (Str.trimStart s) = true.
Proof.
  induction s as [|c s IH]; [reflexivity|]. simpl.
  destruct (Str.is_space c) eqn:Hs; [|auto].
  destruct (is_space_not_surrogate c Hs) as [Hl Ht]. now rewrite Hl, Ht.
Qed.

(** What [trimStart] strips. *)
Lemma trimStart_stripped (s : jsstring) :
  exists spaces, s = spaces ++ Str.trimStart s
                 /\ forallb Str.is_space spaces = true.
Proof.
  induction s as [|c s [spaces [IH1 IH2]]]; [now exists []|]. simpl.
  destruct (Str.is_space c) eqn:Hs.
  - exists (c :: spaces). simpl. rewrite Hs, IH2. split; [|reflexivity].
    now rewrite <- IH1.
  - now exists [].
Qed.

Lemma well_formed_trimEnd (s : jsstring) :
  Str.well_formed s = true -> Str.well_formed (Str.trimEnd s) = true.
Proof.
  intros Hw. unfold Str.trimEnd.
  destruct (trimStart_stripped (rev s)) as [spaces [Hs Hsp]].
  assert (E : s = rev (Str.trimStart (rev s)) ++ rev spaces).
  { rewrite <- rev_app_distr, <- Hs. symmetry. apply rev_involutive. }
  rewrite E in Hw. apply (well_formed_prefix _ _ Hw).
  destruct (rev spaces) as [|d rest] eqn:R; [exact I|].
  assert (Hin : In d spaces).
  { apply in_rev. rewrite R. now left. }
  rewrite forallb_forall in Hsp.
  now destruct (is_space_not_surrogate d (Hsp d Hin)).
Qed.

Lemma well_formed_trim (s : jsstring) :
  Str.well_formed s = true -> Str.well_formed (Str.trim s) = true.
Proof.
  intros Hw. unfold Str.trim. now apply well_formed_trimEnd, well_formed_trimStart.
Qed.

(** The parts of a string split at a separator that is no surrogate. *)
Lemma well_formed_split (sep : char16) (s : jsstring) :
  Str.is_lead sep = false -> Str.is_trail sep = false ->
  Str.well_formed s = true ->
  forall part, In part (Str.split sep s) -> Str.well_formed part = true.
Proof.
  intros Hl Ht. remember (List.length s) as n eqn:Hn.
  revert s Hn. induction n as [n IH] using lt_wf_ind. intros s Hn Hw part Hin.
  destruct s as [|c s']; simpl in Hin.
  - destruct Hin as [<-|[]]. reflexivity.
  - simpl in Hw. destruct (N.eqb c sep) eqn:Hc.
    + apply N.eqb_eq in Hc. subst c. rewrite Hl, Ht in Hw.
      destruct Hin as [<-|Hin]; [reflexivity|].
      apply (IH (List.length s')) with (s := s'); simpl in Hn; auto; lia.
    + destruct (Str.is_trail c) eqn:Htc; [discriminate|].
      destruct (Str.is_lead c) eqn:Hlc.
      * destruct s' as [|d s'']; [discriminate|].
        apply andb_true_iff in Hw as [Hd Hw].
        simpl in Hin. destruct (N.eqb d sep) eqn:Hds.
        { apply N.eqb_eq in Hds. subst d. congruence. }
        assert (IH' : forall part', In part' (Str.split sep s'') ->
                                    Str.well_formed part' = true).
        { intros part' Hin'.
          apply (IH (List.length s'')) with (s := s''); simpl in Hn; auto; lia. }
        destruct (Str.split sep s'') as [|p ps].
        -- destruct Hin as [<-|[]]. simpl. now rewrite Htc, Hlc, Hd.
        -- destruct Hin as [<-|Hin].
           ++ simpl. rewrite Htc, Hlc, Hd. simpl. apply IH'. now left.
           ++ apply IH'. now right.
      * assert (IH' : forall part', In part' (Str.split sep s') ->
                                    Str.well_formed part' = true).
        { intros part' Hin'.
          apply (IH (List.length s')) with (s := s'); simpl in Hn; auto; lia. }
        destruct (Str.split sep s') as [|p ps].
        -- destruct Hin as [<-|[]]. simpl. now rewrite Htc, Hlc.
        -- destruct Hin as [<-|Hin].
           ++ simpl. rewrite Htc, Hlc. apply IH'. now left.
           ++ apply IH'. now right.
Qed.

Lemma well_formed_or_default (a b : option jsstring) :
  well_formed_opt a = true -> well_formed_opt b = true ->
  Str.well_formed (Str.or_default (Str.or_else a b) []) = true.
Proof.
  intros Ha Hb. unfold Str.or_else.
  destruct (Str.truthy_opt a).
  - destruct a as [s|]; simpl; [|reflexivity]. now destruct (Str.truthy s).
  - destruct b as [s|]; simpl; [|reflexivity]. now destruct (Str.truthy s).
Qed.

(** [transformEvent] returns an Event for every record whose title,
    locality and venue address have no unpaired surrogate. *)
Lemma transformEvent_returns_well_formed (r : PredictHQEvent.t) :
  search_text_well_formed r = true -> exists ev, transformEvent r = Ok ev.
Proof.
  unfold search_text_well_formed. intros H.
  apply andb_true_iff in H as [H Hfa]. apply andb_true_iff in H as [Ht Hloc].
  destruct (transformEvent r) as [ev|e] eqn:E; [now exists ev|].
  exfalso. unfold transformEvent in E; cbv zeta in E.
  set (city0 := opt_get Address.locality _) in *.
  set (fa := opt_get Entity.formatted_address
               (opt_get (find (fun e => Str.eqb (Entity.type e) (lit "venue")))
                        (PredictHQEvent.entities r))) in *.
  destruct (Str.truthy_opt _) in E; [discriminate|].
  match type of E with
  | context [Str.or_default (Str.or_else ?c city0) []] => set (city := c) in *
  end.
  assert (Hcity : well_formed_opt city = true).
  { subst city. destruct (negb (Str.truthy_opt city0) && Str.truthy_opt fa);
      [|exact Hloc].
    destruct (2 <=? _)%nat; [|exact Hloc].
    destruct (nth_error _ _) as [part|] eqn:N; [|reflexivity].
    apply nth_error_In, in_map_iff in N as (whole & <- & Hin).
    simpl. apply well_formed_trim.
    apply (well_formed_split 44%N (the fa)); try reflexivity; [|exact Hin].
    destruct fa as [s|]; [exact Hfa | reflexivity]. }
  apply encodeURIComponent_well_formed in Ht as [qt Hqt].
  destruct (encodeURIComponent_well_formed _
              (well_formed_or_default city city0 Hcity Hloc)) as [qc Hqc].
  erewrite encodeURIComponent_app in E;
    [discriminate | exact Hqt |].
  eapply encodeURIComponent_app; [reflexivity | exact Hqc].
Qed.


Lemma transformEvent_returns_when (r : PredictHQEvent.t) :
  has_provider_url r \/ search_text_well_formed r = true ->
  exists ev, transformEvent r = Ok ev.
Proof.
  intros [H|H];
    [now apply transformEvent_returns | now apply transformEvent_returns_well_formed].
Qed.

(** C10 -- The online/offline flag of the Event that [transformEvent]
    returns is the record's [private] flag: true exactly when [private] is
    true, false when it is false or absent.  [transformEvent] returns an
    Event for every record that supplies a URL or whose title, locality
    and venue address have no unpaired surrogate. *)
Theorem isOnline_is_private (r : PredictHQEvent.t) :
  (forall ev, transformEvent r = Ok ev ->
     (Event.isOnline ev = true <-> PredictHQEvent.private r = Some true)
     /\ (PredictHQEvent.private r = Some false \/ PredictHQEvent.private r = None ->
         Event.isOnline ev = false))
  /\ (has_provider_url r \/ search_text_well_formed r = true ->
      exists ev, transformEvent r = Ok ev).
Proof.
  split; [|apply transformEvent_returns_when].
  intros ev H. transform_inv H E. simpl.
  destruct (PredictHQEvent.private r) as [[|]|]; split;
    try (split; congruence); intros [?|?]; congruence.
Qed.


Lemma opt_get_Some {A B} (f : A -> option B) (a : A) :
  opt_get f (Some a) = f a.
Proof. reflexivity. Qed.

Lemma find_first {A} (p : A -> bool) (pre post : list A) (v : A) :
  (forall a, In a pre -> p a = false) -> p v = true ->
  find p (pre ++ v :: post) = Some v.
Proof.
  intros Hpre Hv. induction pre as [|a pre IH]; simpl.
  - now rewrite Hv.
  - rewrite (Hpre a (or_introl eq_refl)). apply IH.
    intros b Hb. apply Hpre. now right.
Qed.

(** C7 (as amended) -- When the first venue-typed entity of a record has
    the formatted address "123 Main St, Springfield, USA", no entity
    before it has a formatted address, and the address block supplies no
    locality, every Event that [transformEvent] returns has that string as
    [venue.address] and "Springfield" as [venue.city]; and [transformEvent]
    does return one when the title has no unpaired surrogate. *)
Theorem venue_round_trip
  (r : PredictHQEvent.t) (pre post : list Entity.t) (v : Entity.t) :
  PredictHQEvent.entities r = Some (pre ++ v :: post) ->
  (forall e, In e pre ->
     Entity.type e <> lit "venue"
     /\ Str.truthy_opt (Entity.formatted_address e) = false) ->
  Entity.type v = lit "venue" ->
  Entity.formatted_address v = Some (lit "123 Main St, Springfield, USA") ->
  no_locality r ->
  (forall ev, transformEvent r = Ok ev ->
     exists venue, Event.venue ev = Some venue
       /\ Venue.address venue = lit "123 Main St, Springfield, USA"
       /\ Venue.city venue = Some (lit "Springfield"))
  /\ (Str.well_formed (PredictHQEvent.title r) = true ->
      exists ev, transformEvent r = Ok ev).
Proof.
  intros Hes Hpre Hty Hfa Hloc.
  assert (Hv : find (fun e => Str.eqb (Entity.type e) (lit "venue"))
                 (pre ++ v :: post) = Some v).
  { apply find_first; [|now apply Str_eqb_eq].
    intros e He. destruct (Str.eqb (Entity.type e) (lit "venue")) eqn:E; auto.
    apply Str_eqb_eq in E. now apply Hpre in He. }
  assert (Ha : find (fun e => Str.truthy_opt (Entity.formatted_address e))
                 (pre ++ v :: post) = Some v).
  { apply find_first; [|now rewrite Hfa].
    intros e He. now apply Hpre in He. }
  assert (Hc : Str.truthy_opt
                 (opt_get Address.locality
                    (opt_get Location.address
                       (opt_get (@hd_error Location.t)
                          (PredictHQEvent.location r)))) = false).
  { destruct (PredictHQEvent.location r) as [[|l rest]|] eqn:EL; try reflexivity.
    simpl. destruct (Location.address l) as [a|] eqn:EA; [|reflexivity].
    simpl. eapply Hloc; eauto. }
  split.
  - intros ev H. transform_inv H E. cbn [Event.venue].
    rewrite Hc, Hes, !opt_get_Some, Hv, Ha. cbn [or_obj].
    rewrite !opt_get_Some, Hfa.
    replace (defined _ || defined _ || defined (Some v)) with true
      by (now rewrite orb_true_r).
    eexists. split; [reflexivity|]. split; reflexivity.
  - intros Hw. destruct (transformEvent r) as [ev|e] eqn:E; [now exists ev|].
    exfalso. unfold transformEvent in E; cbv zeta in E.
    rewrite Hc, Hes, !opt_get_Some, Hv, !opt_get_Some, Hfa in E.
    destruct (Str.truthy_opt _) in E; [discriminate|].
    apply encodeURIComponent_well_formed in Hw as [q Hq].
    erewrite encodeURIComponent_app in E; [discriminate | exact Hq | reflexivity].
Qed.

(** ** searchEvents *)

Lemma try_catch_ret {A} (m : M A) (x : A) (h : Host) :
  exists o, snd (try_catch m (fun _ => ret x) h) = Ok o.
Proof. unfold try_catch. destruct (m h) as [t [a|e]]; simpl; eauto. Qed.

(** [geocodeLocation] never throws. *)
Lemma geocodeLocation_never_throws (location : jsstring) (h : Host) :
  exists o, snd (geocodeLocation location h) = Ok o.
Proof. unfold geocodeLocation. apply try_catch_ret. Qed.

(** It sends the geocoder one request at most, and the provider none. *)
Lemma geocodeLocation_log (location : jsstring) (h : Host) :
  fst (geocodeLocation location h) = []
  \/ exists url, fst (geocodeLocation location h) = [GeocodeRequest url].
Proof.
  unfold geocodeLocation, try_catch, bind, lift, fetch_nominatim, ret, ask.
  destruct (Str.encodeURIComponent location) as [enc|]; simpl; auto.
  right. eexists.
  destruct (nominatim h _) as [msg|resp]; simpl; [reflexivity|].
  destruct (Response.ok resp); simpl; [|reflexivity].
  destruct (Response.json resp) as [[[|res rest]|]|e]; simpl; try reflexivity.
  destruct (Num.isNaN _ || Num.isNaN _); reflexivity.
Qed.


(** With coordinates given, or no city, [searchParams] sends nothing and
    goes on with the filters' own coordinates. *)
Lemma searchParams_direct (f : EventFilters.t) (h : Host) :
  negb (Num.truthy_opt (EventFilters.latitude f))
  && negb (Num.truthy_opt (EventFilters.longitude f))
  && Str.truthy_opt (EventFilters.city f) = false ->
  searchParams f h =
  ([], after_location h f
         (location_params (EventFilters.latitude f) (EventFilters.longitude f)
                          (EventFilters.radius f) [])).
Proof.
  intros C. unfold searchParams. rewrite C.
  unfold bind, ret, ask, after_location, location_params.
  by_date_cases h f.
Qed.

(** With a city and no coordinates it geocodes the city first. *)
Lemma searchParams_geocoded (f : EventFilters.t) (h : Host) :
  negb (Num.truthy_opt (EventFilters.latitude f))
  && negb (Num.truthy_opt (EventFilters.longitude f))
  && Str.truthy_opt (EventFilters.city f) = true ->
  searchParams f h =
  (fst (geocodeLocation (the (EventFilters.city f)) h),
   match snd (geocodeLocation (the (EventFilters.city f)) h) with
   | Ok (Some g) =>
       after_location h f
         (location_params (Some (Geocode.lat g)) (Some (Geocode.lon g))
            (Some (geocoded_radius (EventFilters.radius f) g)) [])
   | Ok None =>
       after_location h f
         (location_params (EventFilters.latitude f) (EventFilters.longitude f)
            (EventFilters.radius f)
            [(lit "q", the (EventFilters.city f))])
   | Throw e => Throw e
   end).
Proof.
  intros C. unfold searchParams. rewrite C.
  unfold bind at 1. unfold bind at 1.
  destruct (geocodeLocation _ h) as [t [[g|]|e]]; simpl; [| |reflexivity].
  - unfold bind, ret, ask, after_location, location_params, geocoded_radius.
    destruct (Geocode.isCountry g); by_date_cases h f.
  - unfold bind, ret, ask, after_location, location_params.
    by_date_cases h f.
Qed.

Lemma getAll_app (p q : URLSearchParams) (name : jsstring) :
  getAll (p ++ q) name = getAll p name ++ getAll q name.
Proof. unfold getAll. now rewrite filter_app, map_app. Qed.

(** The parameters after the location ones are appended behind them, and
    none of them is a location parameter. *)
Lemma after_location_appends (h : Host) (f : EventFilters.t)
  (p params : URLSearchParams) :
  after_location h f p = Ok params ->
  exists rest, params = p ++ rest
    /\ getAll rest (lit "location_around.origin") = []
    /\ getAll rest (lit "location_around.radius") = [].
Proof.
  unfold after_location, append.
  destruct (Str.truthy_opt (EventFilters.startDate f)),
           (date_iso h (the (EventFilters.startDate f))),
           (Str.truthy_opt (EventFilters.endDate f)),
           (date_iso h (the (EventFilters.endDate f)));
    simpl; try discriminate.
  all: destruct (Str.truthy_opt (EventFilters.query f)),
                (Str.truthy_opt (EventFilters.category f)).
  all: intros [= <-]; rewrite <- ?app_assoc; eexists;
       (split; [reflexivity | split; reflexivity]).
Qed.

Lemma after_location_throws (h : Host) (f : EventFilters.t)
  (p : URLSearchParams) (e : exn) :
  after_location h f p = Throw e -> e = RangeError.
Proof.
  unfold after_location.
  destruct (Str.truthy_opt (EventFilters.startDate f)),
           (date_iso h (the (EventFilters.startDate f))),
           (Str.truthy_opt (EventFilters.endDate f)),
           (date_iso h (the (EventFilters.endDate f)));
    simpl; congruence.
Qed.

Lemma after_location_returns (h : Host) (f : EventFilters.t)
  (p : URLSearchParams) :
  dates_valid h f = true -> exists params, after_location h f p = Ok params.
Proof.
  unfold after_location, dates_valid.
  destruct (Str.truthy_opt (EventFilters.startDate f)),
           (date_iso h (the (EventFilters.startDate f))),
           (Str.truthy_opt (EventFilters.endDate f)),
           (date_iso h (the (EventFilters.endDate f)));
    simpl; try discriminate; intros _; eexists; reflexivity.
Qed.

(** What [searchEvents] sends: the requests of [searchParams], then the
    provider request for the parameters built; nothing at all when an
    environment variable is missing. *)
Lemma searchEvents_log (f : EventFilters.t) (h : Host) :
  fst (searchEvents f h) =
  if configured h then
    fst (searchParams f h)
    ++ match snd (searchParams f h) with
       | Ok params =>
           [ProviderRequest (provider_url h params)
                            (lit "Bearer " ++ PREDICTHQ_API_TOKEN h)]
       | Throw _ => []
       end
  else [].
Proof.
  unfold searchEvents, configured, provider_url.
  unfold bind at 1, ask at 1. simpl. unfold bind at 1, ask at 1. simpl.
  destruct (Str.truthy (PREDICTHQ_API_TOKEN h)); simpl; [|reflexivity].
  destruct (Str.truthy_opt (PREDICTHQ_API_BASE h)); simpl; [|reflexivity].
  unfold try_catch at 1. unfold bind at 1.
  destruct (searchParams f h) as [t [params|e]]; simpl;
    [|now rewrite app_nil_r].
  unfold bind at 1. unfold try_catch at 1. unfold fetch_predicthq.
  destruct (predicthq h _ _) as [msg|resp]; simpl;
    [now rewrite !app_nil_r|].
  destruct (Response.ok resp); simpl; [|now rewrite !app_nil_r].
  unfold bind, lift.
  destruct (Response.json resp) as [[data|]|e]; simpl;
    try (rewrite ?app_nil_r; reflexivity).
  destruct (PredictHQResponse.results data) as [[|ev evs]|]; simpl;
    try (rewrite ?app_nil_r; reflexivity).
  destruct (transformEvent ev); simpl; try (rewrite ?app_nil_r; reflexivity).
  destruct (map_result transformEvent evs); simpl;
    rewrite ?app_nil_r; reflexivity.
Qed.

Lemma location_params_radius (la lo : Num.number) (r : option Num.number)
  (p : URLSearchParams) :
  Num.truthy la = true -> Num.truthy lo = true ->
  getAll (location_params (Some la) (Some lo) r p) (lit "location_around.radius")
  = getAll p (lit "location_around.radius")
    ++ [Num.toString
          (Num.Math_round
             (if Num.truthy_opt r then (the_num r * 1.60934)%float else 50%float))
        ++ lit "km"].
Proof.
  intros Hla Hlo. unfold location_params, append. simpl. rewrite Hla, Hlo. simpl.
  now rewrite !getAll_app, app_nil_r.
Qed.

Lemma or_default_truthy_num (o : option Num.number) (d : Num.number) :
  Num.truthy d = true -> Num.truthy (Num.or_default o d) = true.
Proof.
  intros Hd. destruct o as [x|]; simpl; auto.
  destruct (Num.truthy x) eqn:E; auto.
Qed.

(** What an emitted query is, read off [searchParams] and the log. *)
Lemma emits_iff (h : Host) (f : EventFilters.t) (params : URLSearchParams) :
  emits h f params <->
  snd (searchParams f h) = Ok params /\ configured h = true.
Proof.
  unfold emits. rewrite searchEvents_log. split.
  - intros [Hp Hin]. split; auto.
    destruct (configured h); [reflexivity | destruct Hin].
  - intros [Hp Hc]. split; auto. rewrite Hc, Hp.
    apply in_or_app. right. now left.
Qed.

Lemma no_geocoding_in_direct (h : Host) (f : EventFilters.t) :
  fst (searchParams f h) = [] -> ~ geocoding_invoked (fst (searchEvents f h)).
Proof.
  intros Hlog [url Hin]. rewrite searchEvents_log, Hlog in Hin.
  destruct (configured h); [|destruct Hin].
  destruct (snd (searchParams f h)); simpl in Hin; [|destruct Hin].
  destruct Hin as [Hin|[]]. discriminate.
Qed.

(** A search with truthy coordinates: no geocoding, the radius parameter
    of the filters' radius (50 km when it is falsy), and a query emitted
    whenever the service is configured and the dates are valid. *)
Lemma direct_search (h : Host) (f : EventFilters.t) (la lo : Num.number) :
  EventFilters.latitude f = Some la ->
  EventFilters.longitude f = Some lo ->
  Num.truthy la = true -> Num.truthy lo = true ->
  ~ geocoding_invoked (fst (searchEvents f h))
  /\ (forall params, emits h f params ->
        getAll params (lit "location_around.radius")
        = [Num.toString
             (Num.Math_round
                (if Num.truthy_opt (EventFilters.radius f)
                 then (the_num (EventFilters.radius f) * 1.60934)%float
                 else 50%float))
           ++ lit "km"])
  /\ (configured h = true -> dates_valid h f = true ->
      exists params, emits h f params).
Proof.
  intros Hlat Hlon Hla Hlo.
  assert (D : searchParams f h =
              ([], after_location h f
                     (location_params (Some la) (Some lo)
                                      (EventFilters.radius f) []))).
  { rewrite <- Hlat, <- Hlon. apply searchParams_direct.
    rewrite Hlat. simpl. now rewrite Hla. }
  split; [|split].
  - apply no_geocoding_in_direct. now rewrite D.
  - intros params Hem. apply emits_iff in Hem as [Hp _].
    rewrite D in Hp. simpl in Hp.
    apply after_location_appends in Hp as (rest & -> & _ & Hrest).
    now rewrite getAll_app, Hrest, app_nil_r, location_params_radius.
  - intros Hc Hd.
    destruct (after_location_returns h f
                (location_params (Some la) (Some lo) (EventFilters.radius f) []) Hd)
      as [params Hp].
    exists params. apply emits_iff. rewrite D. now split.
Qed.

(** C4 (as amended) -- For a filter set whose latitude and longitude are
    both given and truthy (neither 0 nor NaN), with or without a city,
    [searchEvents] sends no geocoding request, and when a truthy radius
    [r] (in miles) is given the query it emits has the one
    [location_around.radius] parameter [round(r * 1.60934)] followed by
    ["km"].  Such a query is emitted whenever the service is configured and
    the date filters are valid.  A radius that is falsy (0, NaN) counts as
    not given: the parameter is then ["50km"]. *)
Theorem explicit_coordinates_used_directly
  (h : Host) (f : EventFilters.t) (la lo : Num.number) :
  EventFilters.latitude f = Some la ->
  EventFilters.longitude f = Some lo ->
  Num.truthy la = true -> Num.truthy lo = true ->
  ~ geocoding_invoked (fst (searchEvents f h))
  /\ (forall params, emits h f params ->
        forall r, EventFilters.radius f = Some r -> Num.truthy r = true ->
          getAll params (lit "location_around.radius")
          = [Num.toString (Num.Math_round (r * 1.60934)%float) ++ lit "km"])
  /\ (configured h = true -> dates_valid h f = true ->
      exists params, emits h f params)
  /\ (forall params, emits h f params ->
        Num.truthy_opt (EventFilters.radius f) = false ->
        getAll params (lit "location_around.radius") = [lit "50km"]).
Proof.
  intros Hlat Hlon Hla Hlo.
  destruct (direct_search h f la lo Hlat Hlon Hla Hlo) as (Hgeo & Hrad & Hex).
  split; [exact Hgeo | split; [|split; [exact Hex|]]].
  - intros params Hem r Hr Hrt. rewrite (Hrad params Hem), Hr. simpl.
    now rewrite Hrt.
  - intros params Hem Hr. rewrite (Hrad params Hem), Hr. reflexivity.
Qed.

(** C8 (as amended) -- For a filter set with truthy coordinates and no
    radius (or a falsy one), the query [searchEvents] emits has the radius
    ["50km"]: the default is 50 kilometers, emitted without conversion.
    [getPopularEvents] with truthy coordinates searches with a radius of 50
    miles, emitted as [round(50 * 1.60934) = 80] kilometers.  Whenever a
    filter set with truthy coordinates has a truthy radius [r], in miles,
    the radius emitted is [round(r * 1.60934)] kilometers. *)
Theorem default_radius
  (h : Host) (f : EventFilters.t) (la lo : Num.number) (city : option jsstring) :
  EventFilters.latitude f = Some la ->
  EventFilters.longitude f = Some lo ->
  Num.truthy la = true -> Num.truthy lo = true ->
  Num.truthy_opt (EventFilters.radius f) = false ->
  (forall params, emits h f params ->
     getAll params (lit "location_around.radius") = [lit "50km"])
  /\ (exists popular,
        EventFilters.latitude popular = Some la
        /\ EventFilters.longitude popular = Some lo
        /\ EventFilters.radius popular = Some 50%float
        /\ getPopularEvents city (Some la) (Some lo) h
           = bind (searchEvents popular) (fun events => ret (firstn 12 events)) h
        /\ (forall params, emits h popular params ->
              getAll params (lit "location_around.radius") = [lit "80km"])
        /\ (configured h = true -> exists params, emits h popular params))
  /\ (configured h = true -> dates_valid h f = true ->
      exists params, emits h f params)
  /\ (forall given latitude longitude r,
        EventFilters.latitude given = Some latitude ->
        EventFilters.longitude given = Some longitude ->
        Num.truthy latitude = true -> Num.truthy longitude = true ->
        EventFilters.radius given = Some r -> Num.truthy r = true ->
        forall params, emits h given params ->
          getAll params (lit "location_around.radius")
          = [Num.toString (Num.Math_round (r * 1.60934)%float) ++ lit "km"]).
Proof.
  intros Hlat Hlon Hla Hlo Hr.
  destruct (direct_search h f la lo Hlat Hlon Hla Hlo) as (_ & Hrad & Hex).
  split; [|split; [|split; [exact Hex|]]].
  3:{ intros given latitude longitude r Glat Glon Gla Glo Gr Grt params Hem.
      destruct (direct_search h given latitude longitude Glat Glon Gla Glo)
        as (_ & Grad & _).
      rewrite (Grad params Hem), Gr. simpl. now rewrite Grt. }
  - intros params Hem. rewrite (Hrad params Hem), Hr. reflexivity.
  - unfold getPopularEvents. simpl. rewrite Hla, Hlo. simpl.
    eexists. split; [|split; [|split; [|split; [reflexivity|]]]];
      try reflexivity.
    match goal with
    | |- context [emits h ?p _] =>
        destruct (direct_search h p la lo eq_refl eq_refl Hla Hlo)
          as (_ & Hrad' & Hex')
    end.
    split.
    + intros params Hem. rewrite (Hrad' params Hem). reflexivity.
    + intros Hc. apply Hex'; [exact Hc | reflexivity].
Qed.

(** A search by city name alone: the city is geocoded, and what follows
    is decided by the outcome. *)
Lemma city_search (h : Host) (f : EventFilters.t) (c : jsstring) :
  EventFilters.city f = Some c -> c <> [] ->
  EventFilters.latitude f = None -> EventFilters.longitude f = None ->
  searchParams f h =
  (fst (geocodeLocation c h),
   match snd (geocodeLocation c h) with
   | Ok (Some g) =>
       after_location h f
         (location_params (Some (Geocode.lat g)) (Some (Geocode.lon g))
            (Some (geocoded_radius (EventFilters.radius f) g)) [])
   | Ok None => after_location h f [(lit "q", c)]
   | Throw e => Throw e
   end).
Proof.
  intros Hc Hne Hlat Hlon. rewrite searchParams_geocoded.
  - rewrite Hc, Hlat, Hlon. reflexivity.
  - rewrite Hc, Hlat, Hlon. simpl. now apply truthy_nonempty.
Qed.

(** C5 (as amended) -- For a filter set with a city name and no
    coordinates, when geocoding succeeds with truthy coordinates (neither
    0 nor NaN) the query [searchEvents] emits has the radius
    [round(miles * 1.60934)] km, where [miles] is the caller's radius when
    it is truthy and otherwise 300 for a country-scale result (483 km) and
    30 for a city-scale one (48 km). *)
Theorem geocoded_city_radius
  (h : Host) (f : EventFilters.t) (c : jsstring) (g : Geocode.t) :
  EventFilters.city f = Some c -> c <> [] ->
  EventFilters.latitude f = None -> EventFilters.longitude f = None ->
  snd (geocodeLocation c h) = Ok (Some g) ->
  Num.truthy (Geocode.lat g) = true -> Num.truthy (Geocode.lon g) = true ->
  (forall params, emits h f params ->
     (Num.truthy_opt (EventFilters.radius f) = false ->
      Geocode.isCountry g = true ->
      getAll params (lit "location_around.radius") = [lit "483km"])
     /\ (Num.truthy_opt (EventFilters.radius f) = false ->
         Geocode.isCountry g = false ->
         getAll params (lit "location_around.radius") = [lit "48km"])
     /\ (forall r, EventFilters.radius f = Some r -> Num.truthy r = true ->
           getAll params (lit "location_around.radius")
           = [Num.toString (Num.Math_round (r * 1.60934)%float) ++ lit "km"]))
  /\ (configured h = true -> dates_valid h f = true ->
      exists params, emits h f params).
Proof.
  intros Hc Hne Hlat Hlon Hg Hla Hlo.
  pose proof (city_search h f c Hc Hne Hlat Hlon) as D. rewrite Hg in D.
  split.
  - intros params Hem. apply emits_iff in Hem as [Hp _].
    rewrite D in Hp. simpl in Hp.
    apply after_location_appends in Hp as (rest & -> & _ & Hrest).
    rewrite getAll_app, Hrest, app_nil_r, location_params_radius by assumption.
    unfold geocoded_radius. simpl.
    split; [|split].
    + intros Hr Hcountry. rewrite Hcountry.
      destruct (EventFilters.radius f) as [r|]; simpl in *;
        [rewrite Hr|]; reflexivity.
    + intros Hr Hcity. rewrite Hcity.
      destruct (EventFilters.radius f) as [r|]; simpl in *;
        [rewrite Hr|]; reflexivity.
    + intros r Hr Hrt. rewrite Hr. simpl. now rewrite Hrt, Hrt.
  - intros Hcf Hd.
    destruct (after_location_returns h f
                (location_params (Some (Geocode.lat g)) (Some (Geocode.lon g))
                   (Some (geocoded_radius (EventFilters.radius f) g)) []) Hd)
      as [params Hp].
    exists params. apply emits_iff. rewrite D. now split.
Qed.

(** C6 -- For a filter set with a city name and no coordinates, when
    geocoding fails (it resolves to no place), [searchEvents] goes on: the
    only error its query building can raise is the RangeError of an invalid
    date filter, the query it emits has the city name as a [q] parameter
    and no [location_around.origin] or [location_around.radius] parameter,
    and that query is emitted whenever the service is configured and the
    date filters are valid. *)
Theorem geocoding_failure_falls_back
  (h : Host) (f : EventFilters.t) (c : jsstring) :
  EventFilters.city f = Some c -> c <> [] ->
  EventFilters.latitude f = None -> EventFilters.longitude f = None ->
  (forall g, snd (geocodeLocation c h) <> Ok (Some g)) ->
  (forall e, snd (searchParams f h) = Throw e -> e = RangeError)
  /\ (forall params, emits h f params ->
        In (lit "q", c) params
        /\ getAll params (lit "location_around.origin") = []
        /\ getAll params (lit "location_around.radius") = [])
  /\ (configured h = true -> dates_valid h f = true ->
      exists params, emits h f params).
Proof.
  intros Hc Hne Hlat Hlon Hfail.
  pose proof (city_search h f c Hc Hne Hlat Hlon) as D.
  destruct (geocodeLocation_never_throws c h) as [[g|] Hg];
    [now apply Hfail in Hg|].
  rewrite Hg in D.
  split; [|split].
  - intros e He. rewrite D in He. simpl in He.
    now apply after_location_throws in He.
  - intros params Hem. apply emits_iff in Hem as [Hp _].
    rewrite D in Hp. simpl in Hp.
    apply after_location_appends in Hp as (rest & -> & Ho & Hr).
    rewrite !getAll_app, Ho, Hr. repeat split; [now left|reflexivity..].
  - intros Hcf Hd.
    destruct (after_location_returns h f [(lit "q", c)] Hd) as [params Hp].
    exists params. apply emits_iff. rewrite D. now split.
Qed.

(** ** getEventById *)




(** ** getEventsByIds *)

Lemma Promise_all_caught (h : Host) (eventIds : list jsstring) :
  Promise_all
    (map (fun id => try_catch (event <- getEventById id ;; ret (Some event))
                              (fun _ => ret None))
         eventIds) h
  = (flat_map (fun id => fst (getEventById id h)) eventIds,
     Ok (map (fun id => match snd (getEventById id h) with
                        | Ok event => Some event
                        | Throw _ => None
                        end) eventIds)).
Proof.
  induction eventIds as [|id ids IH]; [reflexivity|].
  simpl. unfold bind at 1. unfold try_catch at 1, bind at 1.
  destruct (getEventById id h) as [t [event|e]]; simpl.
  - unfold bind at 1. rewrite IH. simpl. now rewrite !app_nil_r.
  - unfold bind at 1. rewrite IH. simpl. now rewrite !app_nil_r.
Qed.

(** C2 -- [getEventsByIds] looks every identifier up on its own and never
    throws: it resolves to the Events of the lookups that succeeded, in
    the order of the identifiers, and its requests are those of the single
    lookups; so for two identifiers of which the second fails it resolves
    to the first one's Event alone. *)
Theorem getEventsByIds_keeps_successes (h : Host) (eventIds : list jsstring) :
  snd (getEventsByIds eventIds h) = Ok (successes h eventIds)
  /\ fst (getEventsByIds eventIds h)
     = flat_map (fun id => fst (getEventById id h)) eventIds
  /\ (forall A B eventA e,
        snd (getEventById A h) = Ok eventA ->
        snd (getEventById B h) = Throw e ->
        snd (getEventsByIds [A; B] h) = Ok [eventA]).
Proof.
  assert (G : forall ids,
             getEventsByIds ids h
             = (flat_map (fun id => fst (getEventById id h)) ids,
                Ok (successes h ids))).
  { intros ids. unfold getEventsByIds, try_catch at 1, bind at 1.
    rewrite Promise_all_caught. simpl. rewrite app_nil_r. do 2 f_equal.
    unfold successes. induction ids as [|id ids IH]; [reflexivity|].
    simpl. rewrite IH. now destruct (snd (getEventById id h)). }
  split; [|split].
  - now rewrite G.
  - now rewrite G.
  - intros A B eventA e HA HB. rewrite G. unfold successes. simpl.
    now rewrite HA, HB.
Qed.

(* ================================================================ *)
(** * The properties at sample inputs *)

Example transformEvent_arena : transformEvent arena_record = Ok arena_event.
Proof. vm_compute. reflexivity. Qed.

Example searchParams_lagos :
  snd (searchParams (around 6.5244 3.3792 (Some 10%float) None) lagos_host)
  = Ok [ (lit "location_around.origin", lit "6.5244,3.3792");
         (lit "location_around.radius", lit "16km");
         (lit "start.gte", lit "2025-01-01T00:00:00.000Z");
         (lit "private", lit "false");
         (lit "limit", lit "50");
         (lit "sort", lit "-rank") ].
Proof. vm_compute. reflexivity. Qed.

Example provider_url_lagos :
  provider_url lagos_host
    [ (lit "location_around.origin", lit "6.5244,3.3792");
      (lit "q", lit "New York") ]
  = lit "https://api.predicthq.com/v1/events/?location_around.origin=6.5244%2C3.3792&q=New+York".
Proof. vm_compute. reflexivity. Qed.

Example geocodeLocation_lagos :
  geocodeLocation (lit "Lagos") lagos_host
  = ([GeocodeRequest
        (lit "https://nominatim.openstreetmap.org/search?q=Lagos&format=json&limit=1&addressdetails=1")],
     Ok (Some lagos_geocode)).
Proof. vm_compute. reflexivity. Qed.

Example geocodeLocation_country :
  option_map Geocode.isCountry
    (match snd (geocodeLocation (lit "Nigeria") lagos_host) with
     | Ok o => o
     | Throw _ => None
     end) = Some true.
Proof. vm_compute. reflexivity. Qed.

(** *** Witnesses: the hypotheses hold at sample inputs *)


Lemma venue_present_only_if_resolvable_witness :
  transformEvent arena_record = Ok arena_event
  /\ (Event.venue arena_event <> None ->
      has_coordinates arena_record \/ has_address arena_record
      \/ has_venue_entity arena_record).
Proof.
  split; [vm_compute; reflexivity|].
  exact (proj1 (venue_present_only_if_resolvable arena_record arena_event
                  transformEvent_arena)).
Defined.

Lemma isOnline_is_private_witness :
  PredictHQEvent.private members_record = Some true
  /\ search_text_well_formed members_record = true
  /\ exists ev, transformEvent members_record = Ok ev /\ Event.isOnline ev = true.
Proof.
  split; [reflexivity | split; [reflexivity|]].
  destruct (proj2 (isOnline_is_private members_record) (or_intror eq_refl))
    as [ev Hev].
  exists ev. split; [exact Hev|].
  exact (proj2 (proj1 (proj1 (isOnline_is_private members_record) ev Hev)) eq_refl).
Defined.

Lemma no_locality_arena : no_locality arena_record.
Proof. intros l rest a H. discriminate H. Qed.

Lemma venue_round_trip_witness :
  PredictHQEvent.entities arena_record = Some ([] ++ springfield_arena :: [])
  /\ Entity.type springfield_arena = lit "venue"
  /\ Entity.formatted_address springfield_arena
     = Some (lit "123 Main St, Springfield, USA")
  /\ no_locality arena_record
  /\ exists venue,
       Event.venue arena_event = Some venue
       /\ Venue.address venue = lit "123 Main St, Springfield, USA"
       /\ Venue.city venue = Some (lit "Springfield").
Proof.
  repeat (split; [first [reflexivity | exact no_locality_arena]|]).
  refine (proj1 (venue_round_trip arena_record [] [] springfield_arena
                   eq_refl _ eq_refl eq_refl no_locality_arena)
                arena_event transformEvent_arena).
  intros e [].
Defined.

Lemma explicit_coordinates_used_directly_witness :
  Num.truthy 6.5244%float = true /\ Num.truthy 3.3792%float = true
  /\ ~ geocoding_invoked
       (fst (searchEvents (around 6.5244 3.3792 (Some 10%float)
                                  (Some (lit "Lagos"))) lagos_host)).
Proof.
  split; [reflexivity | split; [reflexivity|]].
  exact (proj1 (explicit_coordinates_used_directly lagos_host
                  (around 6.5244 3.3792 (Some 10%float) (Some (lit "Lagos")))
                  6.5244%float 3.3792%float eq_refl eq_refl eq_refl eq_refl)).
Defined.

Lemma default_radius_witness :
  Num.truthy_opt (EventFilters.radius (around 6.5244 3.3792 None None)) = false
  /\ forall params,
       emits lagos_host (around 6.5244 3.3792 None None) params ->
       getAll params (lit "location_around.radius") = [lit "50km"].
Proof.
  split; [reflexivity|].
  exact (proj1 (default_radius lagos_host (around 6.5244 3.3792 None None)
                  6.5244%float 3.3792%float None eq_refl eq_refl eq_refl eq_refl eq_refl)).
Defined.

Lemma lagos_is_geocoded :
  snd (geocodeLocation (lit "Lagos") lagos_host) = Ok (Some lagos_geocode).
Proof. vm_compute. reflexivity. Qed.

Lemma geocoded_city_radius_witness :
  snd (geocodeLocation (lit "Lagos") lagos_host) = Ok (Some lagos_geocode)
  /\ Num.truthy (Geocode.lat lagos_geocode) = true
  /\ Num.truthy (Geocode.lon lagos_geocode) = true
  /\ forall params,
       emits lagos_host (in_city (lit "Lagos") None) params ->
       getAll params (lit "location_around.radius") = [lit "48km"].
Proof.
  split; [exact lagos_is_geocoded | split; [reflexivity | split; [reflexivity|]]].
  intros params Hem.
  refine (proj1 (proj2 (proj1 (geocoded_city_radius lagos_host
                                 (in_city (lit "Lagos") None) (lit "Lagos")
                                 lagos_geocode eq_refl _ eq_refl eq_refl
                                 lagos_is_geocoded eq_refl eq_refl)
                              params Hem)) eq_refl eq_refl).
  discriminate.
Defined.

Lemma geocoder_offline (g : Geocode.t) :
  snd (geocodeLocation (lit "Lagos") offline_geocoder_host) <> Ok (Some g).
Proof. vm_compute. discriminate. Qed.

Lemma geocoding_failure_falls_back_witness :
  snd (geocodeLocation (lit "Lagos") offline_geocoder_host) = Ok None
  /\ exists params,
       emits offline_geocoder_host (in_city (lit "Lagos") None) params
       /\ In (lit "q", lit "Lagos") params
       /\ getAll params (lit "location_around.origin") = []
       /\ getAll params (lit "location_around.radius") = [].
Proof.
  split; [vm_compute; reflexivity|].
  destruct (geocoding_failure_falls_back offline_geocoder_host
              (in_city (lit "Lagos") None) (lit "Lagos")
              eq_refl ltac:(discriminate) eq_refl eq_refl geocoder_offline)
    as (_ & Hq & Hex).
  destruct (Hex eq_refl eq_refl) as [params Hem].
  exists params. split; [exact Hem | exact (Hq params Hem)].
Defined.


(** *** Counterexamples: where the code departs from the specification *)

(** C7 as stated fails: the record holds a venue-typed entity with the
    formatted address "123 Main St, Springfield, USA" and no locality, yet
    the venue's address is the one of the organizer listed before it. *)
Lemma earlier_entity_address_wins :
  In springfield_arena [promoter; springfield_arena]
  /\ PredictHQEvent.entities promoter_first_record
     = Some [promoter; springfield_arena]
  /\ Entity.type springfield_arena = lit "venue"
  /\ Entity.formatted_address springfield_arena
     = Some (lit "123 Main St, Springfield, USA")
  /\ PredictHQEvent.location promoter_first_record = None
  /\ exists ev venue,
       transformEvent promoter_first_record = Ok ev
       /\ Event.venue ev = Some venue
       /\ Venue.address venue = lit "1 Other Rd, Shelbyville, USA"
       /\ Venue.address venue <> lit "123 Main St, Springfield, USA".
Proof.
  split; [right; left; reflexivity|].
  repeat (split; [reflexivity|]).
  eexists. eexists.
  split; [vm_compute; reflexivity|].
  split; [reflexivity|]. split; [reflexivity|]. discriminate.
Qed.

(** C4 as stated fails twice over.  A radius of 0 miles is given with
    coordinates, but the radius emitted is ["50km"], not
    [round(0 * 1.60934)] km; and with latitude 0 and longitude 0 given
    beside a city, the city is geocoded. *)
Lemma zero_radius_and_zero_coordinates :
  (EventFilters.radius (around 6.5244 3.3792 (Some 0%float) None) = Some 0%float
   /\ Num.toString (Num.Math_round (0 * 1.60934)%float) ++ lit "km" = lit "0km"
   /\ exists params,
        emits lagos_host (around 6.5244 3.3792 (Some 0%float) None) params
        /\ getAll params (lit "location_around.radius") = [lit "50km"])
  /\ (EventFilters.latitude (around 0 0 None (Some (lit "Lagos"))) = Some 0%float
      /\ EventFilters.longitude (around 0 0 None (Some (lit "Lagos"))) = Some 0%float
      /\ geocoding_invoked
           (fst (searchEvents (around 0 0 None (Some (lit "Lagos"))) lagos_host))).
Proof.
  split.
  - split; [reflexivity | split; [vm_compute; reflexivity|]].
    eexists. split.
    + apply emits_iff. split; [vm_compute; reflexivity | reflexivity].
    + vm_compute. reflexivity.
  - split; [reflexivity | split; [reflexivity|]].
    eexists. vm_compute. left. reflexivity.
Qed.

(** C5 as stated fails twice over.  The caller gives a radius of 0 miles
    with the city, geocoding succeeds (city-scale), and the radius emitted
    is ["48km"], not the caller's; and when the place found lies at
    latitude 0 and longitude 0 no radius is emitted at all. *)
Lemma zero_radius_and_zero_place :
  (snd (geocodeLocation (lit "Lagos") lagos_host) = Ok (Some lagos_geocode)
   /\ exists params,
        emits lagos_host (in_city (lit "Lagos") (Some 0%float)) params
        /\ getAll params (lit "location_around.radius") = [lit "48km"])
  /\ (snd (geocodeLocation (lit "Lagos") null_island_host)
      = Ok (Some {| Geocode.lat := 0%float; Geocode.lon := 0%float;
                    Geocode.isCountry := false |})
      /\ exists params,
           emits null_island_host (in_city (lit "Lagos") None) params
           /\ getAll params (lit "location_around.radius") = []).
Proof.
  split.
  - split; [vm_compute; reflexivity|].
    eexists. split.
    + apply emits_iff. split; [vm_compute; reflexivity | reflexivity].
    + vm_compute. reflexivity.
  - split; [vm_compute; reflexivity|].
    eexists. split.
    + apply emits_iff. split; [vm_compute; reflexivity | reflexivity].
    + vm_compute. reflexivity.
Qed.

(** C8 as stated fails: with coordinates and no radius the general search
    emits the radius ["50km"], not the 40 km that 25 miles would be. *)
Lemma general_default_is_50km :
  EventFilters.radius (around 6.5244 3.3792 None None) = None
  /\ Num.toString (Num.Math_round (25 * 1.60934)%float) ++ lit "km" = lit "40km"
  /\ exists params,
       emits lagos_host (around 6.5244 3.3792 None None) params
       /\ getAll params (lit "location_around.radius") = [lit "50km"]
       /\ getAll params (lit "location_around.radius") <> [lit "40km"].
Proof.
  split; [reflexivity | split; [vm_compute; reflexivity|]].
  eexists. split.
  - apply emits_iff. split; [vm_compute; reflexivity | reflexivity].
  - split; [vm_compute; reflexivity | vm_compute; discriminate].
Qed.


(* ================================================================ *)
(** * Further properties of the code *)

(** ** transformEvent *)

(** X1 -- The outbound URL follows the order ticket URL, external URL,
    URL, website: when one of the four is non-empty, [transformEvent]
    returns an Event (it cannot throw) whose [url] is the first non-empty
    one, whatever URLs the entities carry. *)
Theorem url_priority (r : PredictHQEvent.t) (u : jsstring) :
  first_truthy [ PredictHQEvent.ticket_url r; PredictHQEvent.external_url r;
                 PredictHQEvent.url r; PredictHQEvent.website r ] = Some u ->
  exists ev, transformEvent r = Ok ev /\ Event.url ev = u.
Proof.
  unfold first_truthy, transformEvent. cbv zeta.
  destruct (Str.truthy_opt (PredictHQEvent.ticket_url r)) eqn:E1;
    [|destruct (Str.truthy_opt (PredictHQEvent.external_url r)) eqn:E2;
      [|destruct (Str.truthy_opt (PredictHQEvent.url r)) eqn:E3;
        [|destruct (Str.truthy_opt (PredictHQEvent.website r)) eqn:E4;
          [|discriminate]]]];
    intros H; rewrite ?E1, ?E2, ?E3, ?E4; cbn [Str.truthy_opt];
    eexists; (split; [reflexivity|]); cbn [Event.url]; now rewrite H.
Qed.

Lemma opt_get_hd {B} (f : Location.t -> option B) (l : Location.t)
  (rest : list Location.t) :
  opt_get f (opt_get (@hd_error Location.t) (Some (l :: rest))) = f l.
Proof. reflexivity. Qed.

(** X2 -- The venue's coordinates come from the first entry of the
    location array when it has them, whatever the geo field holds; else from
    the geo geometry, whose coordinates are [longitude, latitude]. *)
Theorem venue_coordinates (r : PredictHQEvent.t) (ev : Event.t) :
  transformEvent r = Ok ev ->
  (forall l rest g,
     PredictHQEvent.location r = Some (l :: rest) ->
     Location.location l = Some g ->
     exists venue, Event.venue ev = Some venue
       /\ Venue.latitude venue = Some (LatLon.lat g)
       /\ Venue.longitude venue = Some (LatLon.lon g))
  /\ (forall gg gm x y,
        opt_get Location.location
          (opt_get (@hd_error Location.t) (PredictHQEvent.location r)) = None ->
        PredictHQEvent.geo r = Some gg ->
        Geo.geometry gg = Some gm ->
        Geometry.coordinates gm = Some (x, y) ->
        exists venue, Event.venue ev = Some venue
          /\ Venue.latitude venue = Some y
          /\ Venue.longitude venue = Some x).
Proof.
  intros H. transform_inv H E. cbn [Event.venue]. split.
  - intros l rest g Hl Hg. rewrite Hl, !opt_get_hd, Hg.
    cbn [or_obj defined orb]. eexists. split; [reflexivity|]. split; reflexivity.
  - intros gg gm x y Hnone Hgg Hgm Hc. rewrite Hnone, Hgg, !opt_get_Some, Hgm.
    rewrite !opt_get_Some, Hc. cbn [or_obj option_map defined orb].
    eexists. split; [reflexivity|]. split; reflexivity.
Qed.

Lemma join_nonempty (sep : jsstring) (parts : list jsstring) :
  parts <> [] -> (forall p, In p parts -> p <> []) -> Str.join sep parts <> [].
Proof.
  destruct parts as [|p ps]; [congruence|].
  intros _ H. assert (Hp : p <> []) by (apply H; now left).
  destruct p as [|c p]; [congruence|]. simpl. destruct ps; discriminate.
Qed.

Lemma venue_strings (r : PredictHQEvent.t) (ev : Event.t) (venue : Venue.t) :
  transformEvent r = Ok ev ->
  Event.venue ev = Some venue ->
  Venue.name venue <> [] /\ Venue.address venue <> [].
Proof.
  intros H. transform_inv_keep H E.
  match goal with
  | |- context [filter Str.truthy ?l] => set (parts := filter Str.truthy l) in *
  end.
  assert (Hparts : forall p, In p parts -> p <> []).
  { intros p Hp. apply filter_In in Hp as [_ Hp]. now apply truthy_nonempty. }
  clearbody parts.
  cbn [Event.venue].
  destruct (defined _ || defined _ || defined _); [|discriminate].
  intros [= <-]. cbn [Venue.name Venue.address]. split.
  - match goal with
    | |- Str.or_default ?o _ <> [] => destruct (Str.truthy_opt o) eqn:T
    end.
    + rewrite or_default_truthy by assumption. now apply truthy_opt_the.
    + rewrite or_default_falsy by assumption. now apply truthy_nonempty.
  - match goal with
    | |- (if Str.truthy_opt ?o then _ else _) <> [] =>
        destruct (Str.truthy_opt o) eqn:T
    end; [now apply truthy_opt_the|].
    destruct (0 <? List.length parts)%nat eqn:L.
    + apply join_nonempty; [|exact Hparts].
      destruct parts; [discriminate L | discriminate].
    + destruct (Str.truthy_opt (opt_get Address.name _) && _) eqn:N.
      * apply andb_true_iff in N as [N _]. now apply truthy_opt_the.
      * destruct (Str.truthy_opt (PredictHQEvent.country r)) eqn:C;
          [now apply truthy_opt_the|].
        match goal with
        | |- match ?X with _ => _ end <> [] => destruct X as [g|]
        end.
        -- intros F. apply app_eq_nil in F as [_ F]. discriminate F.
        -- apply truthy_nonempty. reflexivity.
Qed.

(** X3 -- A venue that [transformEvent] returns always has a name and an
    address: neither is the empty string. *)
Theorem venue_name_and_address_nonempty
  (r : PredictHQEvent.t) (ev : Event.t) (venue : Venue.t) :
  transformEvent r = Ok ev ->
  Event.venue ev = Some venue ->
  Venue.name venue <> [] /\ Venue.address venue <> [].
Proof. apply venue_strings. Qed.

(** X4 -- The city of the venue is the locality of the address block when
    that is non-empty, whatever the entities of the record say. *)
Theorem city_prefers_locality
  (r : PredictHQEvent.t) (ev : Event.t) (l : Location.t) (rest : list Location.t)
  (a : Address.t) :
  transformEvent r = Ok ev ->
  PredictHQEvent.location r = Some (l :: rest) ->
  Location.address l = Some a ->
  Str.truthy_opt (Address.locality a) = true ->
  exists venue, Event.venue ev = Some venue
    /\ Venue.city venue = Address.locality a.
Proof.
  intros H Hl Ha Hloc. transform_inv H E. cbn [Event.venue].
  rewrite Hl, !opt_get_hd, Ha, !opt_get_Some, Hloc.
  cbn [negb andb defined]. rewrite orb_true_r. cbn [orb].
  eexists. split; reflexivity.
Qed.

(** X5 -- With no entities, the address of the venue is assembled from the
    non-empty parts of the address block, in the order street, locality,
    region, country (the record's own country standing in for a missing
    one), joined by ", ". *)
Theorem address_from_parts
  (r : PredictHQEvent.t) (ev : Event.t) (l : Location.t) (rest : list Location.t)
  (a : Address.t) :
  transformEvent r = Ok ev ->
  PredictHQEvent.entities r = None ->
  PredictHQEvent.location r = Some (l :: rest) ->
  Location.address l = Some a ->
  first_truthy [ Address.street a; Address.locality a; Address.region a;
                 Address.country a; PredictHQEvent.country r ] <> None ->
  exists venue, Event.venue ev = Some venue
    /\ Venue.address venue
       = Str.join (lit ", ")
           (filter Str.truthy
              (map the [ Address.street a; Address.locality a; Address.region a;
                         Str.or_else (Address.country a)
                                     (PredictHQEvent.country r) ])).
Proof.
  intros H He Hl Ha Hparts. transform_inv_keep H E. cbn [Event.venue].
  rewrite He, Hl, !opt_get_hd, Ha, !opt_get_Some.
  cbn [opt_get or_obj Str.or_else Str.truthy_opt defined].
  rewrite orb_true_r. cbn [orb].
  eexists. split; [reflexivity|]. cbn [Venue.address].
  match goal with
  | |- (if (0 <? List.length ?ps)%nat then _ else _) = _ =>
      destruct (0 <? List.length ps)%nat eqn:L; [reflexivity|]
  end.
  exfalso. apply Hparts. revert L. unfold Str.or_else. simpl.
  destruct (Address.street a) as [[|]|]; simpl; try discriminate;
    destruct (Address.locality a) as [[|]|]; simpl; try discriminate;
    destruct (Address.region a) as [[|]|]; simpl; try discriminate;
    destruct (Address.country a) as [[|]|]; simpl; try discriminate;
    destruct (PredictHQEvent.country r) as [[|]|]; simpl; try discriminate;
    reflexivity.
Qed.

(** ** searchEvents and getEventById, step by step *)

Lemma searchEvents_settles (f : EventFilters.t) (h : Host) :
  configured h = true ->
  searchEvents f h =
  match searchParams f h with
  | (log, Throw e) => (log, Throw e)
  | (log, Ok params) =>
      (log ++ [ProviderRequest (provider_url h params) (bearer h)],
       settle search_error_message
         (fun results =>
            match results with
            | None => Ok []
            | Some [] => Ok []
            | Some results => map_result transformEvent results
            end)
         (predicthq h (provider_url h params) (bearer h)))
  end.
Proof.
  unfold configured, provider_url, bearer, settle, search_error_message.
  intros Hc. apply andb_true_iff in Hc as [Ht Hb].
  unfold searchEvents.
  unfold bind at 1, ask at 1. cbn [fst snd]. unfold bind at 1, ask at 1.
  cbn [fst snd app]. rewrite Ht, Hb. cbn [negb].
  unfold try_catch at 1. unfold bind at 1.
  destruct (searchParams f h) as [t [params|e]]; cbn [fst snd];
    [|unfold throw; now rewrite app_nil_r].
  unfold bind at 1. unfold try_catch at 1. unfold fetch_predicthq.
  destruct (predicthq h _ _) as [msg|resp]; cbn [fst snd];
    [unfold throw; now rewrite !app_nil_r|].
  destruct (Response.ok resp); cbn [negb];
    [|unfold throw; now rewrite !app_nil_r].
  unfold bind, lift, throw, ret.
  destruct (Response.json resp) as [[data|]|e]; cbn [fst snd];
    try (rewrite ?app_nil_r; reflexivity).
  destruct (PredictHQResponse.results data) as [[|ev evs]|]; cbn [fst snd];
    try (rewrite ?app_nil_r; reflexivity).
  destruct (map_result transformEvent (ev :: evs)); cbn [fst snd];
    rewrite ?app_nil_r; reflexivity.
Qed.

Lemma getEventById_settles (eventId : jsstring) (h : Host) :
  configured h = true ->
  getEventById eventId h =
  match Str.encodeURIComponent eventId with
  | None => ([], Throw URIError)
  | Some encodedId =>
      ([ProviderRequest (lookup_url h encodedId) (bearer h)],
       settle (lookup_error_message eventId)
         (fun results =>
            match results with
            | None => Throw (Error (not_found_empty eventId))
            | Some [] => Throw (Error (not_found_empty eventId))
            | Some results =>
                match find (fun e => Str.eqb (PredictHQEvent.id e) eventId)
                           results with
                | None => Throw (Error (not_found_in_response eventId))
                | Some predicthqEvent => transformEvent predicthqEvent
                end
            end)
         (predicthq h (lookup_url h encodedId) (bearer h)))
  end.
Proof.
  unfold configured, lookup_url, bearer, settle, lookup_error_message.
  intros Hc. apply andb_true_iff in Hc as [Ht Hb].
  unfold getEventById.
  unfold bind at 1, ask at 1. cbn [fst snd]. unfold bind at 1, ask at 1.
  cbn [fst snd app]. rewrite Ht, Hb. cbn [negb].
  unfold try_catch at 1, bind at 1, lift at 1.
  destruct (Str.encodeURIComponent eventId) as [enc|]; cbn [fst snd];
    [|reflexivity].
  unfold bind at 1, try_catch at 1, fetch_predicthq.
  destruct (predicthq h _ _) as [msg|resp]; cbn [fst snd app];
    [reflexivity|].
  destruct (Response.ok resp); cbn [negb]; [|reflexivity].
  unfold bind, lift, throw, ret.
  destruct (Response.json resp) as [[data|]|e]; cbn [fst snd app];
    try reflexivity.
  destruct (PredictHQResponse.results data) as [[|ev evs]|]; cbn [fst snd app];
    try reflexivity.
  destruct (find _ (ev :: evs)) as [m|]; cbn [fst snd app]; [|reflexivity].
  destruct (transformEvent m); reflexivity.
Qed.

Lemma unconfigured (h : Host) :
  configured h = false ->
  (forall f, searchEvents f h = ([], Throw (configuration_error h)))
  /\ (forall eventId, getEventById eventId h = ([], Throw (configuration_error h))).
Proof.
  unfold configured, configuration_error. intros Hc.
  split; intros x; [unfold searchEvents | unfold getEventById];
    unfold bind at 1, ask at 1; cbn [fst snd]; unfold bind at 1, ask at 1;
    cbn [fst snd app];
    destruct (Str.truthy (PREDICTHQ_API_TOKEN h)); cbn [negb andb] in *;
    try reflexivity; rewrite Hc; reflexivity.
Qed.

(** ** Configuration *)

(** X6 -- With the token or the base URL missing, [searchEvents],
    [getPopularEvents] and [getEventById] throw the configuration error
    before anything is sent: no geocoding request and no provider request.
    The token is checked first. *)
Theorem missing_configuration (h : Host) :
  configured h = false ->
  (forall f, searchEvents f h = ([], Throw (configuration_error h)))
  /\ (forall city lat lon,
        getPopularEvents city lat lon h = ([], Throw (configuration_error h)))
  /\ (forall eventId, getEventById eventId h = ([], Throw (configuration_error h)))
  /\ (Str.truthy_opt (NEXT_PUBLIC_PREDICTHQ_API_TOKEN h) = false ->
      configuration_error h = Error token_not_configured)
  /\ (Str.truthy_opt (NEXT_PUBLIC_PREDICTHQ_API_TOKEN h) = true ->
      configuration_error h = Error base_not_configured).
Proof.
  intros Hc. destruct (unconfigured h Hc) as [Hs Hg].
  split; [exact Hs | split; [|split; [exact Hg|]]].
  - intros city lat lon. unfold getPopularEvents, bind. now rewrite Hs.
  - unfold configuration_error, PREDICTHQ_API_TOKEN.
    destruct (NEXT_PUBLIC_PREDICTHQ_API_TOKEN h) as [[|c s]|]; simpl;
      split; congruence.
Qed.

(** X7 -- [getEventsByIds] swallows a missing configuration: every lookup
    fails, so it resolves to the empty list, having sent nothing. *)
Theorem batch_swallows_missing_configuration
  (h : Host) (eventIds : list jsstring) :
  configured h = false -> getEventsByIds eventIds h = ([], Ok []).
Proof.
  intros Hc. destruct (unconfigured h Hc) as [_ Hg].
  unfold getEventsByIds, try_catch at 1, bind at 1.
  rewrite Promise_all_caught. cbn [fst snd].
  assert (L : flat_map (fun id => fst (getEventById id h)) eventIds = []).
  { induction eventIds as [|id ids IH]; [reflexivity|].
    simpl. now rewrite Hg, IH. }
  assert (R : flat_map (fun event : option Event.t =>
                          match event with Some e => [e] | None => [] end)
                (map (fun id => match snd (getEventById id h) with
                                | Ok event => Some event
                                | Throw _ => None
                                end) eventIds) = []).
  { clear L. induction eventIds as [|id ids IH]; [reflexivity|].
    simpl. rewrite Hg. simpl. exact IH. }
  unfold ret. cbn [fst snd]. now rewrite L, R.
Qed.

(** ** The provider's answer to a search *)

Lemma map_result_ids (rs : list PredictHQEvent.t) (evs : list Event.t) :
  map_result transformEvent rs = Ok evs ->
  map Event.id evs = map PredictHQEvent.id rs.
Proof.
  revert evs. induction rs as [|r rs IH]; intros evs; simpl.
  - now intros [= <-].
  - destruct (transformEvent r) as [ev|] eqn:E; [|discriminate].
    destruct (map_result transformEvent rs) as [evs'|]; [|discriminate].
    intros [= <-]. simpl. rewrite (IH evs' eq_refl). f_equal.
    transform_inv E E'. reflexivity.
Qed.

(** X8 -- A search the provider answers with no results (a missing or an
    empty [results] array) resolves to the empty list: it is no error. *)
Theorem no_results_is_empty (h : Host) (f : EventFilters.t)
  (params : URLSearchParams) (response : Response.t PredictHQResponse.t)
  (body : PredictHQResponse.t) :
  configured h = true ->
  snd (searchParams f h) = Ok params ->
  predicthq h (provider_url h params) (bearer h) = Resolved response ->
  Response.ok response = true ->
  Response.json response = Ok (Some body) ->
  PredictHQResponse.results body = None \/ PredictHQResponse.results body = Some [] ->
  snd (searchEvents f h) = Ok [].
Proof.
  intros Hc Hp Hr Hok Hj Hres. rewrite searchEvents_settles by assumption.
  destruct (searchParams f h) as [t [p|e]]; simpl in Hp; [|discriminate].
  injection Hp as ->. cbn [snd]. rewrite Hr. unfold settle. rewrite Hok, Hj.
  cbn [negb]. now destruct Hres as [-> | ->].
Qed.

(** X9 -- A search the provider answers with results resolves to their
    transforms in the provider's order: one Event per record, with the
    record's identifier; it fails only if a transform throws. *)
Theorem results_in_provider_order (h : Host) (f : EventFilters.t)
  (params : URLSearchParams) (response : Response.t PredictHQResponse.t)
  (body : PredictHQResponse.t) (results : list PredictHQEvent.t) :
  configured h = true ->
  snd (searchParams f h) = Ok params ->
  predicthq h (provider_url h params) (bearer h) = Resolved response ->
  Response.ok response = true ->
  Response.json response = Ok (Some body) ->
  PredictHQResponse.results body = Some results ->
  snd (searchEvents f h) = map_result transformEvent results
  /\ (forall events, snd (searchEvents f h) = Ok events ->
        map Event.id events = map PredictHQEvent.id results)
  /\ (forall e, snd (searchEvents f h) = Throw e -> e = URIError).
Proof.
  intros Hc Hp Hr Hok Hj Hres.
  assert (S : snd (searchEvents f h) = map_result transformEvent results).
  { rewrite searchEvents_settles by assumption.
    destruct (searchParams f h) as [t [p|e]]; simpl in Hp; [|discriminate].
    injection Hp as ->. cbn [snd]. rewrite Hr. unfold settle.
    rewrite Hok, Hj, Hres. cbn [negb]. now destruct results. }
  rewrite S. split; [reflexivity | split].
  - intros events. apply map_result_ids.
  - clear. induction results as [|r rs IH]; simpl; [discriminate|].
    intros e. destruct (transformEvent r) eqn:E.
    + destruct (map_result transformEvent rs); [discriminate|].
      intros [= <-]. now apply IH.
    + intros [= <-]. now apply transformEvent_throws in E.
Qed.

Lemma api_error_message_detail (response : Response.t PredictHQResponse.t)
  (body : PredictHQResponse.t) :
  Response.json response = Ok (Some body) ->
  Str.truthy_opt (PredictHQResponse.detail body) = true ->
  api_error_message response
  = lit "PredictHQ API error: " ++ the (PredictHQResponse.detail body).
Proof. intros Hj Hd. unfold api_error_message. now rewrite Hj, Hd. Qed.

(** X10 -- A search the provider answers with a status that is not ok
    never resolves: it throws an Error whose message is the provider's own
    message (its [detail] when the body has one) behind a heading for
    401/403, 404 and 5xx. *)
Theorem search_http_errors (h : Host) (f : EventFilters.t)
  (params : URLSearchParams) (response : Response.t PredictHQResponse.t) :
  configured h = true ->
  snd (searchParams f h) = Ok params ->
  predicthq h (provider_url h params) (bearer h) = Resolved response ->
  Response.ok response = false ->
  exists message,
    snd (searchEvents f h) = Throw (Error message)
    /\ (exists heading, message = heading ++ api_error_message response)
    /\ (Response.status response = 401%N \/ Response.status response = 403%N ->
        Str.startsWith message (lit "Authentication failed.") = true)
    /\ (Response.status response = 404%N ->
        Str.startsWith message (lit "API endpoint not found.") = true)
    /\ (500 <= Response.status response ->
        Str.startsWith message (lit "PredictHQ API server error.") = true)%N
    /\ (forall body,
          Response.json response = Ok (Some body) ->
          Str.truthy_opt (PredictHQResponse.detail body) = true ->
          api_error_message response
          = lit "PredictHQ API error: " ++ the (PredictHQResponse.detail body)).
Proof.
  intros Hc Hp Hr Hok. exists (search_error_message response).
  split; [|split; [|split; [|split; [|split]]]].
  - rewrite searchEvents_settles by assumption.
    destruct (searchParams f h) as [t [p|e]]; simpl in Hp; [|discriminate].
    injection Hp as ->. cbn [snd]. rewrite Hr. unfold settle. now rewrite Hok.
  - unfold search_error_message. cbv zeta.
    destruct ((_ =? 401) || (_ =? 403))%N; [eexists; reflexivity|].
    destruct (_ =? 404)%N; [eexists; reflexivity|].
    destruct (500 <=? _)%N; [eexists; reflexivity|]. now exists [].
  - unfold search_error_message. cbv zeta. intros [-> | ->]; reflexivity.
  - unfold search_error_message. cbv zeta. intros ->. reflexivity.
  - unfold search_error_message. cbv zeta. intros H5.
    destruct ((_ =? 401) || (_ =? 403))%N eqn:A.
    + exfalso. apply orb_true_iff in A as [A|A]; apply N.eqb_eq in A; lia.
    + destruct (_ =? 404)%N eqn:B; [apply N.eqb_eq in B; lia|].
      apply N.leb_le in H5. rewrite H5. reflexivity.
  - intros body. apply api_error_message_detail.
Qed.

(** X11 -- When the request to the provider cannot be made, [searchEvents]
    and [getEventById] throw an Error that says so and carries the message
    of the network failure. *)
Theorem network_failure (h : Host) (reason : jsstring) :
  configured h = true ->
  (forall f params,
     snd (searchParams f h) = Ok params ->
     predicthq h (provider_url h params) (bearer h) = Rejected reason ->
     snd (searchEvents f h)
     = Throw (Error (lit "Failed to connect to PredictHQ API: " ++ reason
                     ++ lit ". Please check your internet connection and API configuration.")))
  /\ (forall eventId encodedId,
        Str.encodeURIComponent eventId = Some encodedId ->
        predicthq h (lookup_url h encodedId) (bearer h) = Rejected reason ->
        snd (getEventById eventId h)
        = Throw (Error (lit "Failed to connect to PredictHQ API: " ++ reason
                        ++ lit ". Please check your internet connection and API configuration."))).
Proof.
  intros Hc. split.
  - intros f params Hp Hr. rewrite searchEvents_settles by assumption.
    destruct (searchParams f h) as [t [p|e]]; simpl in Hp; [|discriminate].
    injection Hp as ->. cbn [snd]. now rewrite Hr.
  - intros eventId encodedId He Hr. rewrite getEventById_settles by assumption.
    rewrite He. cbn [snd]. now rewrite Hr.
Qed.

(** ** The query *)

Lemma getAll_pairs (k k' : jsstring) (l : list jsstring) :
  getAll (map (pair k) l) k' = if Str.eqb k k' then l else [].
Proof.
  unfold getAll. induction l as [|x l IH]; simpl.
  - now destruct (Str.eqb k k').
  - destruct (Str.eqb k k'); simpl; [now rewrite IH | exact IH].
Qed.

Lemma getAll_one (k v k' : jsstring) :
  getAll [(k, v)] k' = if Str.eqb k k' then [v] else [].
Proof. apply (getAll_pairs k k' [v]). Qed.

Lemma location_params_other (la lo r : option Num.number)
  (qs : URLSearchParams) (key : jsstring) :
  Str.eqb (lit "location_around.origin") key = false ->
  Str.eqb (lit "location_around.radius") key = false ->
  getAll (location_params la lo r qs) key = getAll qs key.
Proof.
  intros Ho Hr. unfold location_params, append.
  destruct (Num.truthy_opt la && Num.truthy_opt lo); [|reflexivity].
  now rewrite !getAll_app, !getAll_one, Ho, Hr, !app_nil_r.
Qed.

(** Every query [searchParams] builds is the location parameters (and the
    city as a keyword, when geocoding found no place) followed by what
    [after_location] appends. *)
Lemma searchParams_cases (f : EventFilters.t) (h : Host) (params : URLSearchParams) :
  snd (searchParams f h) = Ok params ->
  exists la lo r,
    after_location h f
      (location_params la lo r
         (map (pair (lit "q")) (keyword_fallback f h))) = Ok params
    /\ (geocoding_attempted f = false ->
        la = EventFilters.latitude f /\ lo = EventFilters.longitude f).
Proof.
  unfold keyword_fallback.
  destruct (geocoding_attempted f) eqn:G; unfold geocoding_attempted in G.
  - rewrite searchParams_geocoded by assumption. cbn [snd].
    destruct (snd (geocodeLocation _ h)) as [[g|]|e]; [| |discriminate];
      intros Hp; do 3 eexists; (split; [exact Hp | discriminate]).
  - rewrite searchParams_direct by assumption. cbn [snd].
    intros Hp. do 3 eexists. split; [exact Hp | auto].
Qed.

Lemma after_location_is (h : Host) (f : EventFilters.t)
  (p params : URLSearchParams) :
  after_location h f p = Ok params ->
  exists start,
    start_of h f = Some start
    /\ params = p ++ tail_params start (iso_of h (EventFilters.endDate f))
                       (filter_value (EventFilters.query f))
                       (filter_value (EventFilters.category f)).
Proof.
  unfold after_location, append, iso_of, filter_value, tail_params, start_of.
  destruct (Str.truthy_opt (EventFilters.startDate f)),
           (date_iso h (the (EventFilters.startDate f))),
           (Str.truthy_opt (EventFilters.endDate f)),
           (date_iso h (the (EventFilters.endDate f)));
    simpl; try discriminate.
  all: destruct (Str.truthy_opt (EventFilters.query f)),
                (Str.truthy_opt (EventFilters.category f)).
  all: intros [= <-]; rewrite <- ?app_assoc; eexists; split; reflexivity.
Qed.

(** The values of a parameter in a built query. *)
Lemma searchParams_getAll (f : EventFilters.t) (h : Host)
  (params : URLSearchParams) (key : jsstring) :
  snd (searchParams f h) = Ok params ->
  Str.eqb (lit "location_around.origin") key = false ->
  Str.eqb (lit "location_around.radius") key = false ->
  exists start,
    start_of h f = Some start
    /\ getAll params key
       = (if Str.eqb (lit "q") key then keyword_fallback f h else [])
         ++ getAll (tail_params start (iso_of h (EventFilters.endDate f))
                      (filter_value (EventFilters.query f))
                      (filter_value (EventFilters.category f))) key.
Proof.
  intros Hp Ho Hr.
  apply searchParams_cases in Hp as (la & lo & r & Hp & _).
  apply after_location_is in Hp as (start & Hs & ->).
  exists start. split; [exact Hs|].
  now rewrite getAll_app, location_params_other, getAll_pairs.
Qed.

Lemma getAll_tail (start : jsstring) (ends keywords categories : list jsstring) :
  getAll (tail_params start ends keywords categories) (lit "start.gte") = [start]
  /\ getAll (tail_params start ends keywords categories) (lit "start.lte") = ends
  /\ getAll (tail_params start ends keywords categories) (lit "q") = keywords
  /\ getAll (tail_params start ends keywords categories) (lit "category")
     = categories
  /\ getAll (tail_params start ends keywords categories) (lit "private")
     = [lit "false"]
  /\ getAll (tail_params start ends keywords categories) (lit "limit")
     = [lit "50"]
  /\ getAll (tail_params start ends keywords categories) (lit "sort")
     = [lit "-rank"].
Proof.
  unfold tail_params.
  repeat split; rewrite !getAll_app, !getAll_pairs, getAll_one;
    cbn [Str.eqb]; rewrite ?app_nil_r; reflexivity.
Qed.

Lemma getAll_tail_location
  (start : jsstring) (ends keywords categories : list jsstring) :
  getAll (tail_params start ends keywords categories)
         (lit "location_around.origin") = []
  /\ getAll (tail_params start ends keywords categories)
            (lit "location_around.radius") = [].
Proof.
  unfold tail_params.
  split; rewrite !getAll_app, !getAll_pairs, getAll_one; reflexivity.
Qed.

(** X12 -- Every query [searchEvents] builds asks for public events only,
    at most 50 of them, most popular first, as its last three parameters;
    it has one [start.gte], the start date given or else now, a [start.lte]
    only for an end date given, and the category given, as it is. *)
Theorem query_fixed_parameters (f : EventFilters.t) (h : Host)
  (params : URLSearchParams) :
  snd (searchParams f h) = Ok params ->
  (exists front,
     params = front ++ [ (lit "private", lit "false"); (lit "limit", lit "50");
                         (lit "sort", lit "-rank") ])
  /\ getAll params (lit "private") = [lit "false"]
  /\ getAll params (lit "limit") = [lit "50"]
  /\ getAll params (lit "sort") = [lit "-rank"]
  /\ (exists start,
        getAll params (lit "start.gte") = [start]
        /\ (Str.truthy_opt (EventFilters.startDate f) = false ->
            start = now_iso h)
        /\ (Str.truthy_opt (EventFilters.startDate f) = true ->
            date_iso h (the (EventFilters.startDate f)) = Some start))
  /\ getAll params (lit "start.lte") = iso_of h (EventFilters.endDate f)
  /\ getAll params (lit "category") = filter_value (EventFilters.category f).
Proof.
  intros Hp.
  pose proof (fun key => searchParams_getAll f h params key Hp) as G.
  split.
  - apply searchParams_cases in Hp as (la & lo & r & Hp & _).
    apply after_location_is in Hp as (start & _ & ->).
    unfold tail_params. eexists. rewrite !app_assoc. reflexivity.
  - assert (S : exists start, start_of h f = Some start)
      by (destruct (G (lit "sort") eq_refl eq_refl) as (s & Hs & _); eauto).
    destruct S as [start Hs].
    assert (V : forall key,
               Str.eqb (lit "location_around.origin") key = false ->
               Str.eqb (lit "location_around.radius") key = false ->
               Str.eqb (lit "q") key = false ->
               getAll params key
               = getAll (tail_params start (iso_of h (EventFilters.endDate f))
                           (filter_value (EventFilters.query f))
                           (filter_value (EventFilters.category f))) key).
    { intros key Ho Hr Hq. destruct (G key Ho Hr) as (s & Hs' & ->).
      rewrite Hq. simpl. congruence. }
    pose proof (getAll_tail start (iso_of h (EventFilters.endDate f))
                  (filter_value (EventFilters.query f))
                  (filter_value (EventFilters.category f)))
      as (Tg & Tl & _ & Tc & Tp & Tlim & Ts).
    rewrite !V by reflexivity.
    repeat split; try assumption.
    exists start. split; [assumption|]. unfold start_of in Hs.
    split; intros Hsd; rewrite Hsd in Hs; congruence.
Qed.

(** X13 -- The keywords of a built query are, in this order, the city
    when it was geocoded to no place, and the search text when it is not
    empty: a search by city and text whose city is not found carries two
    [q] parameters. *)
Theorem query_keywords (f : EventFilters.t) (h : Host)
  (params : URLSearchParams) :
  snd (searchParams f h) = Ok params ->
  getAll params (lit "q")
  = keyword_fallback f h ++ filter_value (EventFilters.query f).
Proof.
  intros Hp.
  destruct (searchParams_getAll f h params (lit "q") Hp eq_refl eq_refl)
    as (start & _ & ->).
  pose proof (getAll_tail start (iso_of h (EventFilters.endDate f))
                (filter_value (EventFilters.query f))
                (filter_value (EventFilters.category f)))
    as (_ & _ & Tq & _).
  now rewrite Tq.
Qed.

(** X14 -- A date filter the host cannot read as a date stops the search
    with a RangeError before the provider is asked anything. *)
Theorem invalid_date_stops_search (f : EventFilters.t) (h : Host) :
  configured h = true ->
  dates_valid h f = false ->
  snd (searchEvents f h) = Throw RangeError
  /\ ~ provider_requested (fst (searchEvents f h)).
Proof.
  intros Hc Hd.
  assert (P : snd (searchParams f h) = Throw RangeError).
  { destruct (snd (searchParams f h)) as [params|e] eqn:Hp.
    - exfalso. apply searchParams_cases in Hp as (la & lo & r & Hp & _).
      revert Hp Hd. unfold after_location, dates_valid.
      destruct (Str.truthy_opt (EventFilters.startDate f)),
               (date_iso h (the (EventFilters.startDate f))),
               (Str.truthy_opt (EventFilters.endDate f)),
               (date_iso h (the (EventFilters.endDate f)));
        simpl; discriminate.
    - f_equal.
      destruct (geocoding_attempted f) eqn:G; unfold geocoding_attempted in G.
      + rewrite searchParams_geocoded in Hp by assumption. cbn [snd] in Hp.
        destruct (geocodeLocation_never_throws (the (EventFilters.city f)) h)
          as [o Ho].
        rewrite Ho in Hp.
        destruct o; now apply after_location_throws in Hp.
      + rewrite searchParams_direct in Hp by assumption.
        now apply after_location_throws in Hp. }
  rewrite searchEvents_settles by assumption.
  destruct (searchParams f h) as [t [params|e]] eqn:Hsp; simpl in P;
    [discriminate|].
  cbn [fst snd]. split; [congruence|].
  intros (url & auth & Hin).
  assert (Ht : t = fst (searchParams f h)) by now rewrite Hsp.
  destruct (geocoding_attempted f) eqn:G; unfold geocoding_attempted in G.
  - rewrite searchParams_geocoded in Ht by assumption. cbn [fst] in Ht.
    destruct (geocodeLocation_log (the (EventFilters.city f)) h) as [L|[u L]];
      rewrite L in Ht; subst t; simpl in Hin; [tauto|].
    destruct Hin as [Hin|[]]. discriminate.
  - rewrite searchParams_direct in Ht by assumption. subst t. destruct Hin.
Qed.

(** X15 -- A filter set with only one truthy coordinate is searched
    everywhere: the city is not geocoded, and the query built has no
    [location_around] parameter and no keyword for the city. *)
Theorem one_coordinate_is_no_location (f : EventFilters.t) (h : Host) :
  Num.truthy_opt (EventFilters.latitude f)
  <> Num.truthy_opt (EventFilters.longitude f) ->
  ~ geocoding_invoked (fst (searchEvents f h))
  /\ (forall params,
        snd (searchParams f h) = Ok params ->
        getAll params (lit "location_around.origin") = []
        /\ getAll params (lit "location_around.radius") = []
        /\ getAll params (lit "q") = filter_value (EventFilters.query f)).
Proof.
  intros Hne.
  assert (G : negb (Num.truthy_opt (EventFilters.latitude f))
              && negb (Num.truthy_opt (EventFilters.longitude f))
              && Str.truthy_opt (EventFilters.city f) = false)
    by (destruct (Num.truthy_opt (EventFilters.latitude f)),
                 (Num.truthy_opt (EventFilters.longitude f));
        simpl; congruence).
  assert (A : Num.truthy_opt (EventFilters.latitude f)
              && Num.truthy_opt (EventFilters.longitude f) = false)
    by (destruct (Num.truthy_opt (EventFilters.latitude f)),
                 (Num.truthy_opt (EventFilters.longitude f));
        simpl; congruence).
  pose proof (searchParams_direct f h G) as D.
  split.
  - apply no_geocoding_in_direct. now rewrite D.
  - intros params Hp. rewrite D in Hp. cbn [snd] in Hp.
    unfold location_params in Hp. rewrite A in Hp.
    apply after_location_is in Hp as (start & _ & ->).
    pose proof (getAll_tail start (iso_of h (EventFilters.endDate f))
                  (filter_value (EventFilters.query f))
                  (filter_value (EventFilters.category f)))
      as (_ & _ & Tq & _).
    pose proof (getAll_tail_location start (iso_of h (EventFilters.endDate f))
                  (filter_value (EventFilters.query f))
                  (filter_value (EventFilters.category f)))
      as (To & Tr).
    cbn [app]. repeat split; assumption.
Qed.

(** X16 -- The price band of the filters plays no part in a search: with
    any other price band [searchEvents] sends the same requests and
    settles the same way. *)
Theorem price_is_ignored (f : EventFilters.t) (h : Host)
  (price : option (option Num.number * option Num.number)) :
  searchEvents (with_price price f) h = searchEvents f h.
Proof. reflexivity. Qed.

(** ** getPopularEvents *)

(** X17 -- [getPopularEvents] resolves to at most 12 events, the first 12
    of a search: around the coordinates with a radius of 50 miles when both
    are truthy, else in the city given, and in New York when no city is
    given either. *)
Theorem popular_events (city : option jsstring) (lat lon : option Num.number)
  (h : Host) :
  (forall events,
     snd (getPopularEvents city lat lon h) = Ok events ->
     (List.length events <= 12)%nat)
  /\ (Num.truthy_opt lat && Num.truthy_opt lon = true ->
      getPopularEvents city lat lon h
      = bind (searchEvents (around (the_num lat) (the_num lon) (Some 50%float) None))
             (fun events => ret (firstn 12 events)) h)
  /\ (Num.truthy_opt lat && Num.truthy_opt lon = false ->
      getPopularEvents city lat lon h
      = bind (searchEvents (in_city (Str.or_default city (lit "New York")) None))
             (fun events => ret (firstn 12 events)) h).
Proof.
  split; [|split].
  - intros events. unfold getPopularEvents, bind, ret.
    destruct (searchEvents _ h) as [t [all|e]]; [|discriminate].
    cbn [snd]. intros H.
    assert (Hev : firstn 12 all = events) by congruence. subst events.
    apply firstn_le_length.
  - intros T. unfold getPopularEvents. rewrite T.
    destruct lat as [la|]; [|discriminate].
    destruct lon as [lo|]; [|now rewrite andb_false_r in T]. reflexivity.
  - intros T. unfold getPopularEvents. rewrite T.
    destruct city as [[|c s]|]; reflexivity.
Qed.

(** ** getEventById *)

(** X18 -- A lookup the provider answers with a status that is not ok
    throws an Error: for 404 a not-found error that names the identifier,
    for 401 and 403 the authentication message, and otherwise the
    provider's own message. *)
Theorem lookup_http_errors (h : Host) (eventId encodedId : jsstring)
  (response : Response.t PredictHQResponse.t) :
  configured h = true ->
  Str.encodeURIComponent eventId = Some encodedId ->
  predicthq h (lookup_url h encodedId) (bearer h) = Resolved response ->
  Response.ok response = false ->
  exists message,
    snd (getEventById eventId h) = Throw (Error message)
    /\ (Response.status response = 404%N ->
        is_not_found (Error message) /\ mentions (Error message) eventId)
    /\ (Response.status response = 401%N \/ Response.status response = 403%N ->
        message
        = lit "Authentication failed. Please check your PredictHQ API token.")
    /\ (Response.status response <> 404%N ->
        Response.status response <> 401%N ->
        Response.status response <> 403%N ->
        message = api_error_message response).
Proof.
  intros Hc He Hr Hok. exists (lookup_error_message eventId response).
  split; [|split; [|split]].
  - rewrite getEventById_settles by assumption. rewrite He. cbn [snd].
    rewrite Hr. unfold settle. now rewrite Hok.
  - unfold lookup_error_message. cbv zeta. intros ->. cbn [N.eqb Pos.eqb].
    split.
    + eexists. split; reflexivity.
    + exists (lit "Event not found. The event ID " ++ Str.dquote),
             (Str.dquote
              ++ lit " may be invalid, the event may no longer be available, or it might be from a different API. Please try searching for events again.").
      reflexivity.
  - unfold lookup_error_message. cbv zeta. intros [-> | ->]; reflexivity.
  - unfold lookup_error_message. cbv zeta. intros H4 H1 H3.
    apply N.eqb_neq in H4, H1, H3. now rewrite H4, H1, H3.
Qed.

(** X19 -- A configured lookup sends the provider exactly one request, for
    the identifier percent-encoded, with the bearer token; an identifier
    with an unpaired surrogate throws a URIError and sends nothing. *)
Theorem lookup_request (h : Host) (eventId : jsstring) :
  configured h = true ->
  (Str.well_formed eventId = true ->
   exists encodedId,
     Str.encodeURIComponent eventId = Some encodedId
     /\ fst (getEventById eventId h)
        = [ProviderRequest
             (the (PREDICTHQ_API_BASE h) ++ lit "/events/?id=" ++ encodedId)
             (lit "Bearer " ++ PREDICTHQ_API_TOKEN h)])
  /\ (Str.encodeURIComponent eventId = None ->
      getEventById eventId h = ([], Throw URIError)).
Proof.
  intros Hc. rewrite getEventById_settles by assumption. split.
  - intros Hw. apply encodeURIComponent_well_formed in Hw as [enc He].
    exists enc. rewrite He. split; reflexivity.
  - intros ->. reflexivity.
Qed.

Lemma lookup_id (h : Host) (eventId : jsstring) (event : Event.t) :
  snd (getEventById eventId h) = Ok event -> Event.id event = eventId.
Proof.
  destruct (configured h) eqn:Hc.
  - rewrite getEventById_settles by assumption. unfold settle.
    destruct (Str.encodeURIComponent eventId); [|discriminate]. cbn [snd].
    destruct (predicthq h _ _) as [m|resp]; [discriminate|].
    destruct (Response.ok resp); [|discriminate]. cbn [negb].
    destruct (Response.json resp) as [[data|]|]; try discriminate.
    destruct (PredictHQResponse.results data) as [[|r rs]|]; try discriminate.
    destruct (find _ (r :: rs)) as [m|] eqn:F; [|discriminate].
    apply find_some in F as [_ F]. apply Str_eqb_eq in F.
    intros T. transform_inv T E. exact F.
  - destruct (unconfigured h Hc) as [_ Hg]. rewrite Hg. discriminate.
Qed.

(** X20 -- The Event a lookup resolves to has the identifier that was
    asked for. *)
Theorem lookup_returns_requested_id
  (h : Host) (eventId : jsstring) (event : Event.t) :
  snd (getEventById eventId h) = Ok event -> Event.id event = eventId.
Proof. apply lookup_id. Qed.

(** ** getEventsByIds *)

(** X21 -- The Events of a batch are those of the identifiers whose lookup
    succeeded: their identifiers are the found ones, in the order and with
    the repetitions of the input, so there are never more Events than
    identifiers. *)
Theorem batch_identifiers (h : Host) (eventIds : list jsstring) :
  exists events,
    snd (getEventsByIds eventIds h) = Ok events
    /\ map Event.id events = filter (found h) eventIds
    /\ (List.length events <= List.length eventIds)%nat.
Proof.
  exists (successes h eventIds).
  assert (I : map Event.id (successes h eventIds) = filter (found h) eventIds).
  { unfold successes, found. induction eventIds as [|id ids IH]; [reflexivity|].
    simpl. destruct (snd (getEventById id h)) as [ev|e] eqn:E; simpl.
    - now rewrite IH, (lookup_id h id ev E).
    - exact IH. }
  split; [|split; [exact I|]].
  - unfold getEventsByIds, try_catch at 1, bind at 1.
    rewrite Promise_all_caught. cbn [fst snd]. unfold ret. cbn [snd]. f_equal.
    clear I. unfold successes. induction eventIds as [|id ids IH]; [reflexivity|].
    simpl. rewrite IH. now destruct (snd (getEventById id h)).
  - rewrite <- (length_map Event.id), I. apply filter_length_le.
Qed.

(** ** geocodeLocation *)

Lemma geocodeLocation_is (location : jsstring) (h : Host) :
  geocodeLocation location h =
  match Str.encodeURIComponent location with
  | None => ([], Ok None)
  | Some encodedLocation =>
      ([GeocodeRequest (geocode_url encodedLocation)],
       Ok match matches h encodedLocation with
          | Some (result :: _) =>
              let lat := parseFloat h (GeocodingResult.lat result) in
              let lon := parseFloat h (GeocodingResult.lon result) in
              if Num.isNaN lat || Num.isNaN lon then None
              else Some {| Geocode.lat := lat; Geocode.lon := lon;
                           Geocode.isCountry := is_country h location result |}
          | _ => None
          end)
  end.
Proof.
  unfold geocodeLocation, matches, geocode_url, is_country.
  unfold try_catch, bind, lift, fetch_nominatim, ret, ask.
  destruct (Str.encodeURIComponent location) as [enc|]; cbn [fst snd app];
    [|reflexivity].
  destruct (nominatim h _) as [msg|resp]; cbn [fst snd app]; [reflexivity|].
  destruct (Response.ok resp); cbn [negb fst snd app]; [|reflexivity].
  destruct (Response.json resp) as [[[|res rest]|]|e]; cbn [fst snd app];
    try reflexivity.
  cbv zeta. destruct (Num.isNaN _ || Num.isNaN _); reflexivity.
Qed.

(** X22 -- [geocodeLocation] never rejects and sends the geocoder one
    request at most, for the place name percent-encoded; a name with an
    unpaired surrogate, a network failure, a response that is not ok, a
    body that does not parse or holds no match: each resolves to [null]. *)
Theorem geocoding_failures_are_null (location : jsstring) (h : Host) :
  (exists outcome, snd (geocodeLocation location h) = Ok outcome)
  /\ (Str.encodeURIComponent location = None ->
      geocodeLocation location h = ([], Ok None))
  /\ (forall encodedLocation,
        Str.encodeURIComponent location = Some encodedLocation ->
        fst (geocodeLocation location h)
        = [GeocodeRequest (geocode_url encodedLocation)]
        /\ (forall reason,
              nominatim h (geocode_url encodedLocation) = Rejected reason ->
              snd (geocodeLocation location h) = Ok None)
        /\ (forall response,
              nominatim h (geocode_url encodedLocation) = Resolved response ->
              Response.ok response = false
              \/ (exists e, Response.json response = Throw e)
              \/ Response.json response = Ok None
              \/ Response.json response = Ok (Some []) ->
              snd (geocodeLocation location h) = Ok None)).
Proof.
  rewrite geocodeLocation_is. split; [|split].
  - destruct (Str.encodeURIComponent location); eexists; reflexivity.
  - now intros ->.
  - intros enc ->. cbn [fst snd]. split; [reflexivity|]. unfold matches. split.
    + now intros reason ->.
    + intros response -> [Hok|[[e He]|[Hn|Hn]]].
      * now rewrite Hok.
      * rewrite He. now destruct (Response.ok response).
      * rewrite Hn. now destruct (Response.ok response).
      * rewrite Hn. now destruct (Response.ok response).
Qed.

(** X23 -- A place that [geocodeLocation] resolves to comes from the first
    match of an ok answer: its coordinates are that match's [lat] and [lon]
    read as numbers, and neither is NaN. *)
Theorem geocoded_place_is_first_match
  (location : jsstring) (h : Host) (g : Geocode.t) :
  snd (geocodeLocation location h) = Ok (Some g) ->
  exists encodedLocation result rest,
    Str.encodeURIComponent location = Some encodedLocation
    /\ matches h encodedLocation = Some (result :: rest)
    /\ Geocode.lat g = parseFloat h (GeocodingResult.lat result)
    /\ Geocode.lon g = parseFloat h (GeocodingResult.lon result)
    /\ Num.isNaN (Geocode.lat g) = false
    /\ Num.isNaN (Geocode.lon g) = false
    /\ Geocode.isCountry g = is_country h location result.
Proof.
  rewrite geocodeLocation_is.
  destruct (Str.encodeURIComponent location) as [enc|]; [|discriminate].
  cbn [snd]. destruct (matches h enc) as [[|result rest]|] eqn:Hm;
    try discriminate.
  cbv zeta. destruct (Num.isNaN _ || Num.isNaN _) eqn:N; [discriminate|].
  intros H. assert (Hg : g = {| Geocode.lat := parseFloat h (GeocodingResult.lat result);
                                Geocode.lon := parseFloat h (GeocodingResult.lon result);
                                Geocode.isCountry := is_country h location result |})
    by congruence.
  subst g. apply orb_false_iff in N as [N1 N2].
  exists enc, result, rest. cbn [Geocode.lat Geocode.lon Geocode.isCountry].
  repeat split; auto.
Qed.

(** X24 -- A place found is country-scale whenever the match is of type
    "country", or the place name in lower case holds "nigeria" or
    "country"; and it is city-scale when the match is a city or town of
    another type, the name holds neither word, and the match names no
    country. *)
Theorem country_scale (location : jsstring) (h : Host) (g : Geocode.t)
  (encodedLocation : jsstring) (result : GeocodingResult.t)
  (rest : list GeocodingResult.t) :
  snd (geocodeLocation location h) = Ok (Some g) ->
  Str.encodeURIComponent location = Some encodedLocation ->
  matches h encodedLocation = Some (result :: rest) ->
  (GeocodingResult.type result = lit "country" -> Geocode.isCountry g = true)
  /\ (Str.includes (toLowerCase h location) (lit "nigeria") = true
      \/ Str.includes (toLowerCase h location) (lit "country") = true ->
      Geocode.isCountry g = true)
  /\ (Str.includes (GeocodingResult.type result) (lit "city") = true
      \/ Str.includes (GeocodingResult.type result) (lit "town") = true ->
      GeocodingResult.type result <> lit "country" ->
      Str.includes (toLowerCase h location) (lit "nigeria") = false ->
      Str.includes (toLowerCase h location) (lit "country") = false ->
      GeocodingResult.address result = None ->
      Geocode.isCountry g = false).
Proof.
  rewrite geocodeLocation_is. intros H He Hm. rewrite He in H. cbn [snd] in H.
  rewrite Hm in H. cbv zeta in H.
  destruct (Num.isNaN _ || Num.isNaN _); [discriminate|].
  assert (Hg : Geocode.isCountry g = is_country h location result)
    by (injection H as <-; reflexivity).
  rewrite Hg. clear H Hg. unfold is_country. cbv zeta. split; [|split].
  - intros ->. rewrite Str_eqb_refl. rewrite orb_true_r. reflexivity.
  - intros [-> | ->]; rewrite ?orb_true_r; reflexivity.
  - intros Hct Hty Hn Hc Ha. rewrite Hn, Hc, Ha.
    assert (T : Str.eqb (GeocodingResult.type result) (lit "country") = false).
    { destruct (Str.eqb _ _) eqn:T; [|reflexivity].
      apply Str_eqb_eq in T. contradiction. }
    rewrite T. rewrite andb_false_r. cbn [orb opt_get Str.truthy_opt andb].
    rewrite !orb_false_r.
    destruct Hct as [-> | ->]; cbn [negb]; now rewrite ?andb_false_r.
Qed.

(** ** utils/eventIdValidator *)

Lemma all_digits_alnum (s : jsstring) :
  EventIdValidator.all_digits s = true -> EventIdValidator.all_alnum s = true.
Proof.
  unfold EventIdValidator.all_digits, EventIdValidator.all_alnum.
  intros H. apply andb_true_iff in H as [Ht Hd]. rewrite Ht. simpl.
  rewrite forallb_forall in *. intros c Hc. apply Hd in Hc.
  unfold EventIdValidator.is_digit in Hc. unfold Str.is_alnum. now rewrite Hc.
Qed.

(** X25 -- An identifier shorter than 15 code units (the empty one
    included) is a valid PredictHQ identifier and never an old-API one; an
    identifier that is not valid and is alphanumeric is an old-API one; the
    two tests overlap exactly on the identifiers of 15 digits or more; and
    the error message for an identifier ends with the identifier between
    quotation marks, after the advice to clear the saved events for an
    old-API identifier and after "Invalid event ID format" for any other. *)
Theorem validator_classes (eventId : jsstring) :
  ((List.length eventId < 15)%nat ->
   EventIdValidator.isValidPredictHQId eventId = true
   /\ EventIdValidator.isOldApiId eventId = false)
  /\ (EventIdValidator.isValidPredictHQId eventId = false ->
      EventIdValidator.isOldApiId eventId = EventIdValidator.all_alnum eventId)
  /\ (EventIdValidator.isOldApiId eventId
      && EventIdValidator.isValidPredictHQId eventId
      = (15 <=? List.length eventId)%nat && EventIdValidator.all_digits eventId)
  /\ (exists before,
        EventIdValidator.getEventIdErrorMessage eventId
        = before ++ Str.dquote ++ eventId ++ Str.dquote)
  /\ Str.startsWith (EventIdValidator.getEventIdErrorMessage eventId)
       (if EventIdValidator.isOldApiId eventId
        then lit "This event ID appears to be from a previous API. Please clear your saved events"
        else lit "Invalid event ID format.") = true.
Proof.
  assert (M : (exists before,
                 EventIdValidator.getEventIdErrorMessage eventId
                 = before ++ Str.dquote ++ eventId ++ Str.dquote)
              /\ Str.startsWith (EventIdValidator.getEventIdErrorMessage eventId)
                   (if EventIdValidator.isOldApiId eventId
                    then lit "This event ID appears to be from a previous API. Please clear your saved events"
                    else lit "Invalid event ID format.") = true).
  { unfold EventIdValidator.getEventIdErrorMessage.
    destruct (EventIdValidator.isOldApiId eventId); split; try reflexivity.
    - exists (lit "This event ID appears to be from a previous API. "
              ++ lit "Please clear your saved events and search for new events. "
              ++ lit "Event ID: ").
      reflexivity.
    - exists (lit "Invalid event ID format. Event ID: "). reflexivity. }
  revert M.
  unfold EventIdValidator.isValidPredictHQId, EventIdValidator.isOldApiId.
  intros [M1 M2].
  destruct (List.length eventId <? 15)%nat eqn:L.
  - apply Nat.ltb_lt in L.
    assert (G : (15 <=? List.length eventId)%nat = false)
      by (apply Nat.leb_gt; lia).
    rewrite G in *. simpl in *. repeat split; try assumption; try reflexivity.
    discriminate.
  - apply Nat.ltb_ge in L.
    assert (G : (15 <=? List.length eventId)%nat = true)
      by (apply Nat.leb_le; lia).
    rewrite G in *. simpl in *.
    split; [lia|]. split; [reflexivity|]. split; [|split; assumption].
    destruct (EventIdValidator.all_digits eventId) eqn:D.
    + now rewrite (all_digits_alnum _ D).
    + now rewrite andb_false_r.
Qed.

(** ** services/eventCache *)

Lemma cache_get_set (key : jsstring) (value : Event.t) (m : EventCache.t)
  (key' : jsstring) :
  EventCache.get key' (EventCache.set key value m)
  = if Str.eqb key key' then Some value else EventCache.get key' m.
Proof.
  induction m as [|[k v] m IH]; simpl.
  - reflexivity.
  - destruct (Str.eqb k key) eqn:K; simpl.
    + apply Str_eqb_eq in K. subst k.
      now destruct (Str.eqb key key').
    + destruct (Str.eqb k key') eqn:K'; [|exact IH].
      apply Str_eqb_eq in K'. subst k.
      destruct (Str.eqb key key') eqn:E; [|reflexivity].
      apply Str_eqb_eq in E. subst key'. now rewrite Str_eqb_refl in K.
Qed.

Lemma find_append {A} (p : A -> bool) (l l' : list A) :
  find p (l ++ l') = match find p l with
                     | Some x => Some x
                     | None => find p l'
                     end.
Proof.
  induction l as [|a l IH]; simpl; [reflexivity|].
  now destruct (p a).
Qed.

(** X26 -- An event put in the cache is what the cache returns for its
    identifier, and putting it in changes what is returned for no other
    identifier; after a list of events is put in, the cache returns for an
    identifier the last event of the list with that identifier, and what it
    returned before when the list has none. *)
Theorem cache_round_trip (event : Event.t) (events : list Event.t)
  (eventCache : EventCache.t) :
  EventCache.getCachedEvent (Event.id event)
    (EventCache.cacheEvent event eventCache) = Some event
  /\ (forall eventId,
        eventId <> Event.id event ->
        EventCache.getCachedEvent eventId (EventCache.cacheEvent event eventCache)
        = EventCache.getCachedEvent eventId eventCache)
  /\ (forall eventId,
        EventCache.getCachedEvent eventId (EventCache.cacheEvents events eventCache)
        = match last_with_id eventId events with
          | Some last => Some last
          | None => EventCache.getCachedEvent eventId eventCache
          end).
Proof.
  unfold EventCache.getCachedEvent, EventCache.cacheEvent,
    EventCache.cacheEvents, last_with_id.
  split; [|split].
  - now rewrite cache_get_set, Str_eqb_refl.
  - intros eventId Hne. rewrite cache_get_set.
    destruct (Str.eqb (Event.id event) eventId) eqn:E; [|reflexivity].
    apply Str_eqb_eq in E. congruence.
  - intros eventId. revert eventCache.
    induction events as [|e events IH]; intros eventCache.
    + reflexivity.
    + simpl. rewrite IH, find_append.
      destruct (find _ (rev events)); [reflexivity|].
      simpl. rewrite cache_get_set.
      destruct (Str.eqb (Event.id e) eventId); reflexivity.
Qed.

Lemma cache_set_keys (key : jsstring) (value : Event.t) (m : EventCache.t) :
  In key (map fst m) -> map fst (EventCache.set key value m) = map fst m.
Proof.
  induction m as [|[k v] m IH]; simpl; [tauto|].
  destruct (Str.eqb k key) eqn:K; simpl; [reflexivity|].
  intros [->|Hin]; [now rewrite Str_eqb_refl in K | now rewrite IH].
Qed.

Lemma cache_set_new_key (key : jsstring) (value : Event.t) (m : EventCache.t) :
  ~ In key (map fst m) ->
  map fst (EventCache.set key value m) = map fst m ++ [key].
Proof.
  induction m as [|[k v] m IH]; simpl; [reflexivity|].
  intros N. destruct (Str.eqb k key) eqn:K.
  - apply Str_eqb_eq in K. tauto.
  - simpl. rewrite IH; tauto.
Qed.

Lemma cache_set_distinct (key : jsstring) (value : Event.t) (m : EventCache.t) :
  distinct_keys m -> distinct_keys (EventCache.set key value m).
Proof.
  unfold distinct_keys. intros Hm.
  destruct (in_dec (list_eq_dec N.eq_dec) key (map fst m)) as [Hin|Hnin].
  - now rewrite cache_set_keys.
  - rewrite cache_set_new_key by assumption.
    apply NoDup_app; [assumption | repeat constructor; tauto |].
    intros x Hx [<-|[]]. contradiction.
Qed.

Lemma cache_delete_keys (key : jsstring) (m : EventCache.t) (key' : jsstring) :
  In key' (map fst (EventCache.delete key m)) -> In key' (map fst m).
Proof.
  induction m as [|[k v] m IH]; simpl; [tauto|].
  destruct (Str.eqb k key); simpl; tauto.
Qed.

Lemma cache_get_none (key : jsstring) (m : EventCache.t) :
  ~ In key (map fst m) -> EventCache.get key m = None.
Proof.
  induction m as [|[k v] m IH]; simpl; [reflexivity|].
  intros N. destruct (Str.eqb k key) eqn:K.
  - apply Str_eqb_eq in K. tauto.
  - apply IH. tauto.
Qed.

(** X27 -- The keys of the cache stay distinct under every operation, and
    in such a cache an event that is removed is no longer returned, while
    what is returned for the other identifiers stays; a cleared cache
    returns nothing. *)
Theorem cache_remove_and_clear (eventCache : EventCache.t) (eventId : jsstring) :
  distinct_keys eventCache ->
  EventCache.getCachedEvent eventId
    (EventCache.removeCachedEvent eventId eventCache) = None
  /\ (forall other,
        other <> eventId ->
        EventCache.getCachedEvent other
          (EventCache.removeCachedEvent eventId eventCache)
        = EventCache.getCachedEvent other eventCache)
  /\ (forall other,
        EventCache.getCachedEvent other (EventCache.clearCache eventCache) = None)
  /\ distinct_keys (EventCache.removeCachedEvent eventId eventCache)
  /\ (forall event, distinct_keys (EventCache.cacheEvent event eventCache))
  /\ (forall events, distinct_keys (EventCache.cacheEvents events eventCache))
  /\ distinct_keys (EventCache.clearCache eventCache).
Proof.
  unfold EventCache.getCachedEvent, EventCache.removeCachedEvent,
    EventCache.clearCache, EventCache.cacheEvent, EventCache.cacheEvents.
  intros Hd. repeat split.
  - unfold distinct_keys in Hd. induction eventCache as [|[k v] m IH]; simpl.
    + reflexivity.
    + inversion Hd as [|? ? Hk Hm]; subst.
      destruct (Str.eqb k eventId) eqn:K.
      * apply Str_eqb_eq in K. subst k. now apply cache_get_none.
      * simpl. rewrite K. now apply IH.
  - intros other Hne. induction eventCache as [|[k v] m IH]; simpl.
    + reflexivity.
    + unfold distinct_keys in Hd. inversion Hd as [|? ? Hk Hm]; subst.
      destruct (Str.eqb k eventId) eqn:K.
      * apply Str_eqb_eq in K. subst k.
        destruct (Str.eqb eventId other) eqn:O; [|reflexivity].
        apply Str_eqb_eq in O. congruence.
      * simpl. destruct (Str.eqb k other); [reflexivity|]. now apply IH.
  - unfold distinct_keys in *. induction eventCache as [|[k v] m IH]; simpl.
    + constructor.
    + inversion Hd as [|? ? Hk Hm]; subst.
      destruct (Str.eqb k eventId); [assumption|]. simpl.
      constructor; [|now apply IH].
      intros Hin. apply Hk. eapply cache_delete_keys. exact Hin.
  - intros event. now apply cache_set_distinct.
  - intros events. revert eventCache Hd.
    induction events as [|e events IH]; intros eventCache Hd; simpl.
    + assumption.
    + apply IH. now apply cache_set_distinct.
  - constructor.
Qed.

(** ** The event pages *)

(** X28 -- Every event that comes from the provider is shown as "Free":
    [transformEvent] never sets a price.  For an event with a price, the
    display is "Free" when the minimum is 0, the range when minimum and
    maximum are truthy and differ, and otherwise "$" and the minimum, which
    reads "$undefined" when the price has none. *)
Theorem price_display :
  (forall r ev, transformEvent r = Ok ev -> formatPrice (Some ev) = lit "Free")
  /\ formatPrice None = lit "Free"
  /\ (forall ev price,
        Event.price ev = Some price ->
        (Price.min price = Some 0%float -> formatPrice (Some ev) = lit "Free")
        /\ (Price.min price = None ->
            formatPrice (Some ev) = lit "$undefined")
        /\ (forall min max,
              Price.min price = Some min -> Price.max price = Some max ->
              Num.truthy min = true -> Num.truthy max = true ->
              (min =? max)%float = false ->
              formatPrice (Some ev)
              = lit "$" ++ Num.toString min ++ lit " - $" ++ Num.toString max)).
Proof.
  split; [|split].
  - intros r ev H. transform_inv H E. reflexivity.
  - reflexivity.
  - intros ev price Hp. unfold formatPrice. cbn [opt_get]. rewrite Hp.
    split; [|split].
    + intros ->. reflexivity.
    + intros ->. reflexivity.
    + intros min max -> -> Hmin Hmax Hne. cbn [Num.truthy_opt the_num template_num].
      rewrite Hmin, Hmax, Hne. cbn [andb negb].
      unfold Num.truthy in Hmin. apply andb_true_iff in Hmin as [Hz _].
      apply negb_true_iff in Hz. now rewrite Hz.
Qed.

(** X29 -- The map link of an event that comes from the provider: there
    is none when the event has no venue; with a venue there always is one
    (or the URIError of an address with an unpaired surrogate); and for a
    venue with truthy coordinates it is the Google Maps URL of
    "latitude,longitude". *)
Theorem map_url_of_provider_event (r : PredictHQEvent.t) (ev : Event.t) :
  transformEvent r = Ok ev ->
  (Event.venue ev = None -> getMapUrl (Some ev) = Ok None)
  /\ (Event.venue ev <> None -> getMapUrl (Some ev) <> Ok None)
  /\ (forall venue latitude longitude,
        Event.venue ev = Some venue ->
        Venue.latitude venue = Some latitude ->
        Venue.longitude venue = Some longitude ->
        Num.truthy latitude = true -> Num.truthy longitude = true ->
        getMapUrl (Some ev)
        = Ok (Some (lit "https://www.google.com/maps?q="
                    ++ Num.toString latitude ++ lit ","
                    ++ Num.toString longitude))).
Proof.
  intros H. split; [|split].
  - intros Hv. unfold getMapUrl. cbn [opt_get]. now rewrite Hv.
  - destruct (Event.venue ev) as [venue|] eqn:Hv; [|congruence]. intros _.
    destruct (venue_strings r ev venue H Hv) as [_ Ha].
    unfold getMapUrl. cbn [opt_get]. rewrite Hv. cbv zeta. cbn [opt_get option_map].
    destruct (Num.truthy_opt _ && Num.truthy_opt _); [discriminate|].
    apply truthy_nonempty in Ha. cbn [Str.truthy_opt the]. rewrite Ha.
    destruct (Str.encodeURIComponent _); discriminate.
  - intros venue latitude longitude Hv Hla Hlo Tla Tlo.
    unfold getMapUrl. cbn [opt_get]. rewrite Hv. cbv zeta. cbn [opt_get].
    rewrite Hla, Hlo. cbn [Num.truthy_opt the_num]. now rewrite Tla, Tlo.
Qed.

(** X30 -- The discovery page searches around the user: when the location
    is known with truthy coordinates and the form names no city, nothing is
    geocoded and the query has the user's coordinates as origin and a
    radius of ["40km"] (25 miles); when the form names a city, or the
    location is unknown, the search is the form's own. *)
Theorem discovery_search (h : Host) (f : EventFilters.t) (location : LatLon.t) :
  (Str.truthy_opt (EventFilters.city f) = false ->
   Num.truthy (LatLon.lat location) = true ->
   Num.truthy (LatLon.lon location) = true ->
   ~ geocoding_invoked (fst (searchEvents (searchFilters f (Some location)) h))
   /\ (forall params,
         emits h (searchFilters f (Some location)) params ->
         getAll params (lit "location_around.radius") = [lit "40km"]))
  /\ (Str.truthy_opt (EventFilters.city f) = true ->
      searchFilters f (Some location) = f)
  /\ searchFilters f None = f.
Proof.
  split; [|split].
  - intros Hc Hla Hlo. unfold searchFilters. rewrite Hc. cbn [negb].
    match goal with
    | |- context [searchEvents ?sf h] =>
        destruct (direct_search h sf (LatLon.lat location) (LatLon.lon location)
                    eq_refl eq_refl Hla Hlo) as (Hg & Hr & _)
    end.
    split; [exact Hg|]. intros params Hem. rewrite (Hr params Hem). reflexivity.
  - intros Hc. unfold searchFilters. now rewrite Hc.
  - reflexivity.
Qed.

(* ================================================================ *)
(** ** The further properties at sample inputs *)

Example transformEvent_fair : transformEvent fair_record = Ok fair_event.
Proof. vm_compute. reflexivity. Qed.

Example searchParams_plain :
  snd (searchParams EventFilters.empty lagos_host) = Ok plain_params.
Proof. vm_compute. reflexivity. Qed.

Example searchParams_offline_geocoder :
  snd (searchParams (in_city (lit "Lagos") None) offline_geocoder_host)
  = Ok ((lit "q", lit "Lagos") :: plain_params).
Proof. vm_compute. reflexivity. Qed.

Example getEventById_lagos :
  snd (getEventById (lit "ev1") lagos_host) = Ok arena_event.
Proof. vm_compute. reflexivity. Qed.

Lemma url_priority_witness :
  exists ev,
    transformEvent fair_record = Ok ev
    /\ Event.url ev = lit "https://fair.example.com/tickets".
Proof.
  exact (url_priority fair_record (lit "https://fair.example.com/tickets") eq_refl).
Defined.

Lemma venue_coordinates_witness :
  transformEvent fair_record = Ok fair_event
  /\ exists venue,
       Event.venue fair_event = Some venue
       /\ Venue.latitude venue = Some 41.8781%float
       /\ Venue.longitude venue = Some (-87.6298)%float.
Proof.
  split; [exact transformEvent_fair|].
  exact (proj1 (venue_coordinates fair_record fair_event transformEvent_fair)
           grant_park_location [] _ eq_refl eq_refl).
Defined.

Lemma venue_name_and_address_nonempty_witness :
  transformEvent arena_record = Ok arena_event
  /\ Event.venue arena_event = Some arena_venue
  /\ Venue.name arena_venue <> [] /\ Venue.address arena_venue <> [].
Proof.
  split; [exact transformEvent_arena | split; [reflexivity|]].
  exact (venue_name_and_address_nonempty arena_record arena_event arena_venue
           transformEvent_arena eq_refl).
Defined.

Lemma city_prefers_locality_witness :
  transformEvent fair_record = Ok fair_event
  /\ Str.truthy_opt (Address.locality grant_park) = true
  /\ exists venue,
       Event.venue fair_event = Some venue
       /\ Venue.city venue = Some (lit "Chicago").
Proof.
  split; [exact transformEvent_fair | split; [reflexivity|]].
  exact (city_prefers_locality fair_record fair_event grant_park_location []
           grant_park transformEvent_fair eq_refl eq_refl eq_refl).
Defined.

Lemma address_from_parts_witness :
  transformEvent fair_record = Ok fair_event
  /\ PredictHQEvent.entities fair_record = None
  /\ exists venue,
       Event.venue fair_event = Some venue
       /\ Venue.address venue
          = Str.join (lit ", ")
              [ lit "337 E Randolph St"; lit "Chicago"; lit "IL"; lit "US" ].
Proof.
  split; [exact transformEvent_fair | split; [reflexivity|]].
  refine (address_from_parts fair_record fair_event grant_park_location []
            grant_park transformEvent_fair eq_refl eq_refl eq_refl _).
  discriminate.
Defined.

Lemma missing_configuration_witness :
  configured unconfigured_host = false
  /\ searchEvents EventFilters.empty unconfigured_host
     = ([], Throw (Error token_not_configured)).
Proof.
  split; [reflexivity|].
  exact (proj1 (missing_configuration unconfigured_host eq_refl) EventFilters.empty).
Defined.

Lemma batch_swallows_missing_configuration_witness :
  configured unconfigured_host = false
  /\ getEventsByIds [lit "ev1"; lit "ev2"] unconfigured_host = ([], Ok []).
Proof.
  split; [reflexivity|].
  exact (batch_swallows_missing_configuration unconfigured_host
           [lit "ev1"; lit "ev2"] eq_refl).
Defined.

Lemma no_results_is_empty_witness :
  configured quiet_host = true
  /\ snd (searchParams EventFilters.empty quiet_host) = Ok plain_params
  /\ snd (searchEvents EventFilters.empty quiet_host) = Ok [].
Proof.
  split; [reflexivity | split; [exact searchParams_plain|]].
  exact (no_results_is_empty quiet_host EventFilters.empty plain_params
           (ok_response (results_body [])) (results_body [])
           eq_refl searchParams_plain eq_refl eq_refl eq_refl
           (or_intror eq_refl)).
Defined.

Lemma results_in_provider_order_witness :
  configured lagos_host = true
  /\ snd (searchParams EventFilters.empty lagos_host) = Ok plain_params
  /\ snd (searchEvents EventFilters.empty lagos_host)
     = map_result transformEvent [arena_record].
Proof.
  split; [reflexivity | split; [exact searchParams_plain|]].
  exact (proj1 (results_in_provider_order lagos_host EventFilters.empty
                  plain_params (ok_response (results_body [arena_record]))
                  (results_body [arena_record]) [arena_record]
                  eq_refl searchParams_plain eq_refl eq_refl eq_refl eq_refl)).
Defined.

Lemma search_http_errors_witness :
  configured refusing_host = true
  /\ Response.ok refusing_response = false
  /\ exists message,
       snd (searchEvents EventFilters.empty refusing_host) = Throw (Error message)
       /\ Str.startsWith message (lit "Authentication failed.") = true.
Proof.
  split; [reflexivity | split; [reflexivity|]].
  destruct (search_http_errors refusing_host EventFilters.empty plain_params
              refusing_response eq_refl searchParams_plain eq_refl eq_refl)
    as (message & Hthrow & _ & Hauth & _).
  exists message. split; [exact Hthrow|]. apply Hauth. left. reflexivity.
Defined.

Lemma network_failure_witness :
  configured offline_host = true
  /\ snd (searchEvents EventFilters.empty offline_host)
     = Throw (Error (lit "Failed to connect to PredictHQ API: Failed to fetch"
                     ++ lit ". Please check your internet connection and API configuration.")).
Proof.
  split; [reflexivity|].
  exact (proj1 (network_failure offline_host (lit "Failed to fetch") eq_refl)
           EventFilters.empty plain_params searchParams_plain eq_refl).
Defined.

Lemma query_fixed_parameters_witness :
  snd (searchParams EventFilters.empty lagos_host) = Ok plain_params
  /\ getAll plain_params (lit "limit") = [lit "50"].
Proof.
  split; [exact searchParams_plain|].
  exact (proj1 (proj2 (proj2 (query_fixed_parameters EventFilters.empty lagos_host
                                plain_params searchParams_plain)))).
Defined.

Lemma query_keywords_witness :
  snd (searchParams (in_city (lit "Lagos") None) offline_geocoder_host)
  = Ok ((lit "q", lit "Lagos") :: plain_params)
  /\ getAll ((lit "q", lit "Lagos") :: plain_params) (lit "q")
     = keyword_fallback (in_city (lit "Lagos") None) offline_geocoder_host
       ++ filter_value None.
Proof.
  split; [exact searchParams_offline_geocoder|].
  exact (query_keywords (in_city (lit "Lagos") None) offline_geocoder_host
           ((lit "q", lit "Lagos") :: plain_params) searchParams_offline_geocoder).
Defined.

Lemma invalid_date_stops_search_witness :
  configured lagos_host = true
  /\ dates_valid lagos_host (starting (lit "next week")) = false
  /\ snd (searchEvents (starting (lit "next week")) lagos_host) = Throw RangeError.
Proof.
  split; [reflexivity | split; [reflexivity|]].
  exact (proj1 (invalid_date_stops_search (starting (lit "next week")) lagos_host
                  eq_refl eq_refl)).
Defined.

Lemma one_coordinate_is_no_location_witness :
  Num.truthy_opt (EventFilters.latitude (latitude_only 6.5244 (lit "Lagos"))) = true
  /\ Num.truthy_opt (EventFilters.longitude (latitude_only 6.5244 (lit "Lagos"))) = false
  /\ ~ geocoding_invoked
       (fst (searchEvents (latitude_only 6.5244 (lit "Lagos")) lagos_host)).
Proof.
  split; [reflexivity | split; [reflexivity|]].
  refine (proj1 (one_coordinate_is_no_location (latitude_only 6.5244 (lit "Lagos"))
                   lagos_host _)).
  discriminate.
Defined.

Lemma popular_events_witness :
  Num.truthy_opt (Some 6.5244%float) && Num.truthy_opt None = false
  /\ getPopularEvents None (Some 6.5244%float) None lagos_host
     = bind (searchEvents (in_city (lit "New York") None))
            (fun events => ret (firstn 12 events)) lagos_host.
Proof.
  split; [reflexivity|].
  exact (proj2 (proj2 (popular_events None (Some 6.5244%float) None lagos_host))
           eq_refl).
Defined.

Lemma lookup_http_errors_witness :
  configured lost_host = true
  /\ Response.ok lost_response = false
  /\ exists message,
       snd (getEventById (lit "ev9") lost_host) = Throw (Error message)
       /\ is_not_found (Error message) /\ mentions (Error message) (lit "ev9").
Proof.
  split; [reflexivity | split; [reflexivity|]].
  destruct (lookup_http_errors lost_host (lit "ev9") (lit "ev9") lost_response
              eq_refl eq_refl eq_refl eq_refl)
    as (message & Hthrow & Hlost & _).
  exists message. split; [exact Hthrow|]. apply Hlost. reflexivity.
Defined.

Lemma lookup_request_witness :
  configured lagos_host = true
  /\ Str.well_formed (lit "ev1") = true
  /\ exists encodedId,
       Str.encodeURIComponent (lit "ev1") = Some encodedId
       /\ fst (getEventById (lit "ev1") lagos_host)
          = [ProviderRequest
               (the (PREDICTHQ_API_BASE lagos_host) ++ lit "/events/?id=" ++ encodedId)
               (lit "Bearer " ++ PREDICTHQ_API_TOKEN lagos_host)].
Proof.
  split; [reflexivity | split; [reflexivity|]].
  exact (proj1 (lookup_request lagos_host (lit "ev1") eq_refl) eq_refl).
Defined.

Lemma lookup_returns_requested_id_witness :
  snd (getEventById (lit "ev1") lagos_host) = Ok arena_event
  /\ Event.id arena_event = lit "ev1".
Proof.
  split; [exact getEventById_lagos|].
  exact (lookup_returns_requested_id lagos_host (lit "ev1") arena_event
           getEventById_lagos).
Defined.

Lemma geocoding_failures_are_null_witness :
  Str.encodeURIComponent (lit "Lagos") = Some (lit "Lagos")
  /\ nominatim offline_geocoder_host (geocode_url (lit "Lagos"))
     = Rejected (lit "Failed to fetch")
  /\ snd (geocodeLocation (lit "Lagos") offline_geocoder_host) = Ok None.
Proof.
  split; [reflexivity | split; [reflexivity|]].
  exact (proj1 (proj2 (proj2 (proj2 (geocoding_failures_are_null (lit "Lagos")
                                       offline_geocoder_host))
                               (lit "Lagos") eq_refl))
           (lit "Failed to fetch") eq_refl).
Defined.

Lemma geocoded_place_is_first_match_witness :
  snd (geocodeLocation (lit "Lagos") lagos_host) = Ok (Some lagos_geocode)
  /\ exists encodedLocation result rest,
       Str.encodeURIComponent (lit "Lagos") = Some encodedLocation
       /\ matches lagos_host encodedLocation = Some (result :: rest)
       /\ Geocode.lat lagos_geocode
          = parseFloat lagos_host (GeocodingResult.lat result).
Proof.
  split; [exact lagos_is_geocoded|].
  destruct (geocoded_place_is_first_match (lit "Lagos") lagos_host lagos_geocode
              lagos_is_geocoded)
    as (encodedLocation & result & rest & He & Hm & Hlat & _).
  exists encodedLocation, result, rest. repeat split; assumption.
Defined.

Example nigeria_is_geocoded :
  snd (geocodeLocation (lit "Nigeria") lagos_host) = Ok (Some nigeria_geocode).
Proof. vm_compute. reflexivity. Qed.

Lemma country_scale_witness :
  snd (geocodeLocation (lit "Nigeria") lagos_host) = Ok (Some nigeria_geocode)
  /\ matches lagos_host (lit "Nigeria")
     = Some [place (lit "6.4550575") (lit "3.3941795")]
  /\ Str.includes (toLowerCase lagos_host (lit "Nigeria")) (lit "nigeria") = true
  /\ Geocode.isCountry nigeria_geocode = true.
Proof.
  split; [exact nigeria_is_geocoded | split; [reflexivity | split; [reflexivity|]]].
  exact (proj1 (proj2 (country_scale (lit "Nigeria") lagos_host nigeria_geocode
                         (lit "Nigeria") (place (lit "6.4550575") (lit "3.3941795"))
                         [] nigeria_is_geocoded eq_refl eq_refl))
           (or_introl eq_refl)).
Defined.

Lemma validator_classes_witness :
  (List.length (lit "5uRg7CqGu7") < 15)%nat
  /\ EventIdValidator.isValidPredictHQId (lit "5uRg7CqGu7") = true
  /\ EventIdValidator.isOldApiId (lit "5uRg7CqGu7") = false.
Proof.
  assert (L : (List.length (lit "5uRg7CqGu7") < 15)%nat) by (vm_compute; lia).
  split; [exact L|].
  exact (proj1 (validator_classes (lit "5uRg7CqGu7")) L).
Defined.

Lemma cache_round_trip_witness :
  lit "ev2" <> Event.id arena_event
  /\ EventCache.getCachedEvent (lit "ev2")
       (EventCache.cacheEvent arena_event
          (EventCache.cacheEvent fair_event EventCache.empty))
     = Some fair_event.
Proof.
  split; [discriminate|].
  refine (eq_trans
            (proj1 (proj2 (cache_round_trip arena_event []
                             (EventCache.cacheEvent fair_event EventCache.empty)))
               (lit "ev2") _)
            eq_refl).
  discriminate.
Defined.

Lemma cache_remove_and_clear_witness :
  distinct_keys (EventCache.cacheEvent arena_event EventCache.empty)
  /\ EventCache.getCachedEvent (lit "ev1")
       (EventCache.removeCachedEvent (lit "ev1")
          (EventCache.cacheEvent arena_event EventCache.empty)) = None.
Proof.
  assert (D : distinct_keys (EventCache.cacheEvent arena_event EventCache.empty)).
  { constructor; [intros []|constructor]. }
  split; [exact D|].
  exact (proj1 (cache_remove_and_clear
                  (EventCache.cacheEvent arena_event EventCache.empty)
                  (lit "ev1") D)).
Defined.

Lemma price_display_witness :
  transformEvent arena_record = Ok arena_event
  /\ formatPrice (Some arena_event) = lit "Free"
  /\ formatPrice (Some (priced None (Some 20%float) arena_event))
     = lit "$undefined".
Proof.
  split; [exact transformEvent_arena|].
  split.
  - exact (proj1 price_display arena_record arena_event transformEvent_arena).
  - exact (proj1 (proj2 (proj2 (proj2 price_display)
                           (priced None (Some 20%float) arena_event) _ eq_refl))
             eq_refl).
Defined.

Lemma map_url_of_provider_event_witness :
  transformEvent fair_record = Ok fair_event
  /\ getMapUrl (Some fair_event)
     = Ok (Some (lit "https://www.google.com/maps?q=41.8781,-87.6298")).
Proof.
  split; [exact transformEvent_fair|].
  refine (eq_trans
            (proj2 (proj2 (map_url_of_provider_event fair_record fair_event
                             transformEvent_fair))
               fair_venue 41.8781%float (-87.6298)%float
               eq_refl eq_refl eq_refl eq_refl eq_refl) _).
  vm_compute. reflexivity.
Defined.

Lemma discovery_search_witness :
  Str.truthy_opt (EventFilters.city EventFilters.empty) = false
  /\ Num.truthy (LatLon.lat lagos_island) = true
  /\ Num.truthy (LatLon.lon lagos_island) = true
  /\ ~ geocoding_invoked
       (fst (searchEvents (searchFilters EventFilters.empty (Some lagos_island))
               lagos_host)).
Proof.
  split; [reflexivity | split; [reflexivity | split; [reflexivity|]]].
  exact (proj1 (proj1 (discovery_search lagos_host EventFilters.empty lagos_island)
                  eq_refl eq_refl eq_refl)).
Defined.
